(** * Segmented coverage-support scoring of contigs

    A shallow embedding of the chimera screening code of the contig coverage
    viewer:
      - [chimera_detection.py]: [analyze_coverage_distribution] (detailed
        single-contig mode) and [quick_chimera_scan] (quick/batch screening);
      - [visualize_chimeric_contigs.py]: [identify_chimeric_contigs]
        (chimeric-subset extraction);
      - [generate_all_contigs_filtered.py]: the per-contig sample filter of
        [create_filtered_visualization].

    Python [int] is [Z], Python [float] is the binary64 [float] of the
    Standard Library, a [dict] is an association list in insertion order, and a
    function that can raise returns a [result]. *)

From Stdlib Require Import ZArith List String Floats Bool Lia ListSet.
From Stdlib Require Import Permutation Sorted.
Import ListNotations.
Local Open Scope Z_scope.
Set Warnings "-inexact-float".

(* ================================================================== *)
(** ** Python values *)

(** Exceptions the modelled code could raise. *)
Inductive exn : Set :=
| ZeroDivisionError
| ValueError.

Inductive result (A : Type) : Type :=
| Ok (a : A)
| Raise (e : exn).
Arguments Ok {A} a.
Arguments Raise {A} e.

Definition bind {A B : Type} (c : result A) (k : A -> result B) : result B :=
  match c with
  | Ok a => k a
  | Raise e => Raise e
  end.

Notation "x <- c ;; k" := (bind c (fun x => k))
  (at level 61, c at next level, right associativity).

(** [for x in l: body], with the variables the body assigns threaded as [s];
    an exception leaves the loop. *)
Fixpoint for_each {A S : Type} (l : list A) (s : S) (body : S -> A -> result S)
  : result S :=
  match l with
  | [] => Ok s
  | x :: rest => s' <- body s x ;; for_each rest s' body
  end.

(** [range(n)] *)
Definition range (n : Z) : list Z := map Z.of_nat (seq 0 (Z.to_nat n)).

(** [len(l)] *)
Definition len {A : Type} (l : list A) : Z := Z.of_nat (List.length l).

(** Truth value of a container: [if l:] *)
Definition nonempty {A : Type} (l : list A) : bool :=
  match l with
  | [] => false
  | _ :: _ => true
  end.

(** Conversion of an [int] to a [float], as the division operators do it.
    Exact below 2^53, rounded to nearest up to 2^63; a count of list elements
    never reaches that. *)
Definition float_of_int (n : Z) : float := PrimFloat.of_uint63 (Uint63.of_Z n).

(** [x / n] for a float [x] and an int [n]. *)
Definition float_truediv (x : float) (n : Z) : result float :=
  if n =? 0 then Raise ZeroDivisionError
  else Ok (PrimFloat.div x (float_of_int n)).

(** [a / b] for two ints (true division). *)
Definition int_truediv (a b : Z) : result float :=
  if b =? 0 then Raise ZeroDivisionError
  else Ok (PrimFloat.div (float_of_int a) (float_of_int b)).

(** [a // b] for two ints (floor division). *)
Definition int_floordiv (a b : Z) : result Z :=
  if b =? 0 then Raise ZeroDivisionError
  else Ok (a / b).

(** [x >= y] on floats: false as soon as one side is NaN. *)
Definition float_ge (x y : float) : bool := PrimFloat.leb y x.

(** [x > y] on floats. *)
Definition float_gt (x y : float) : bool := PrimFloat.ltb y x.

(** *** Dictionaries: association lists in insertion order *)

Definition dict (V : Type) : Type := list (string * V).

Fixpoint dict_get {V : Type} (d : dict V) (k : string) : option V :=
  match d with
  | [] => None
  | (k', v) :: rest => if String.eqb k k' then Some v else dict_get rest k
  end.

(** [d[k] = v]: an existing key keeps its place, a new one goes last. *)
Fixpoint dict_set {V : Type} (d : dict V) (k : string) (v : V) : dict V :=
  match d with
  | [] => [(k, v)]
  | (k', v') :: rest =>
      if String.eqb k k' then (k', v) :: rest else (k', v') :: dict_set rest k v
  end.

Definition dict_keys {V : Type} (d : dict V) : list string := map fst d.

(** The keys of a dictionary are pairwise distinct. *)
Definition dict_wf {V : Type} (d : dict V) : Prop := NoDup (dict_keys d).

(** *** [sorted(l, key=..., reverse=True)] and [max(l, key=...)] *)

Section KeyFunctions.
Context {A : Type}.
Variable key : A -> float.

(** Stable insertion in descending order of key: [x] comes from the left of
    everything in [l], so it stays before the elements of equal key. *)
Fixpoint insert_desc (x : A) (l : list A) : list A :=
  match l with
  | [] => [x]
  | y :: rest =>
      if PrimFloat.ltb (key x) (key y) then y :: insert_desc x rest
      else x :: y :: rest
  end.

Definition sorted_desc (l : list A) : list A := fold_right insert_desc [] l.

(** [max(l, key=key)]: the first element whose key no later one exceeds;
    [ValueError] on an empty sequence. *)
Definition max_by (l : list A) : result A :=
  match l with
  | [] => Raise ValueError
  | first :: rest =>
      Ok (fold_left
            (fun best item => if float_gt (key item) (key best) then item else best)
            rest first)
  end.
End KeyFunctions.

(** [l[:n]] *)
Definition slice_to {A : Type} (l : list A) (n : Z) : list A :=
  if 0 <=? n then firstn (Z.to_nat n) l
  else firstn (List.length l - Z.to_nat (- n)) l.

(** [sorted(s)] on ints *)
Fixpoint insert_int (x : Z) (l : list Z) : list Z :=
  match l with
  | [] => [x]
  | y :: rest => if x <=? y then x :: y :: rest else y :: insert_int x rest
  end.

Definition sorted_int (l : list Z) : list Z := fold_right insert_int [] l.

(** [max(l) if l else 0] on ints *)
Definition max_or_zero (l : list Z) : Z :=
  match l with
  | [] => 0
  | x :: rest => fold_left Z.max rest x
  end.

(* ================================================================== *)
(** ** Coverage store *)

(** One record of a coverage file: [{'position': start, 'coverage': coverage}] *)
Record point : Set := mkPoint { position : Z; coverage : float }.

(** The points of one sample on one contig. *)
Definition track : Set := list point.

(** sample -> track, for one contig *)
Definition contig_cov : Type := dict track.

(** contig -> sample -> track *)
Definition coverage_store : Type := dict contig_cov.

(* ================================================================== *)
(** ** Segmenter *)

(** The set of positions seen in any sample, in the order they were added. *)
Definition all_positions_set (contig_data : contig_cov) : list Z :=
  fold_left
    (fun acc (item : string * track) =>
       fold_left (fun acc' pt => set_add Z.eq_dec (position pt) acc') (snd item) acc)
    contig_data [].

(** [all_positions = sorted(all_positions)] *)
Definition all_positions (contig_data : contig_cov) : list Z :=
  sorted_int (all_positions_set contig_data).

(** [contig_length = max(all_positions) if all_positions else 0] *)
Definition contig_length_of (contig_data : contig_cov) : Z :=
  max_or_zero (all_positions contig_data).

Definition seg_start_of (seg_idx segment_size : Z) : Z := seg_idx * segment_size.

(** [(seg_idx + 1) * segment_size if seg_idx < num_segments - 1 else contig_length] *)
Definition seg_end_of (seg_idx num_segments segment_size contig_length : Z) : Z :=
  if seg_idx <? num_segments - 1 then (seg_idx + 1) * segment_size
  else contig_length.

(** [seg_start <= point['position'] < seg_end] *)
Definition in_segment (seg_start seg_end : Z) (pt : point) : bool :=
  (seg_start <=? position pt) && (position pt <? seg_end).

(** The inner loop over the points of one sample: [(total_cov,
    positions_in_segment)].  [total_cov] starts as the int 0, which the first
    addition turns into a float; it is only read when a point was added. *)
Definition sample_sums (tr : track) (seg_start seg_end : Z) : float * Z :=
  fold_left
    (fun (acc : float * Z) pt =>
       if in_segment seg_start seg_end pt
       then (PrimFloat.add (fst acc) (coverage pt), snd acc + 1)
       else acc)
    tr (PrimFloat.zero, 0).

(** One step of the loop over samples, on the dictionary [segment_coverage]. *)
Definition add_candidate (seg_start seg_end : Z) (min_coverage : float)
    (segment_coverage : dict float) (item : string * track)
  : result (dict float) :=
  let (total_cov, positions_in_segment) := sample_sums (snd item) seg_start seg_end in
  if 0 <? positions_in_segment then
    mean_cov <- float_truediv total_cov positions_in_segment ;;
    if float_ge mean_cov min_coverage
    then Ok (dict_set segment_coverage (fst item) mean_cov)
    else Ok segment_coverage
  else Ok segment_coverage.

(** The dictionary [segment_coverage] of one segment: the mean coverage of
    every sample that has a point in the segment and reaches [min_coverage].
    [for sample in contig_data] with [contig_data[sample]] visits the items of
    the dictionary in insertion order. *)
Definition segment_coverage_of (contig_data : contig_cov)
    (seg_start seg_end : Z) (min_coverage : float) : result (dict float) :=
  for_each contig_data [] (add_candidate seg_start seg_end min_coverage).

(** [max(segment_coverage.items(), key=lambda x: x[1])] *)
Definition leader_of (segment_coverage : dict float) : result (string * float) :=
  max_by (fun item : string * float => snd item) segment_coverage.

(** [len(set(leader for leader in segment_leaders if leader is not None))] *)
Definition unique_leader_set (segment_leaders : list (option string)) : list string :=
  fold_left
    (fun acc leader =>
       match leader with
       | Some s => set_add string_dec s acc
       | None => acc
       end)
    segment_leaders [].

Definition unique_leader_count (segment_leaders : list (option string)) : Z :=
  len (unique_leader_set segment_leaders).

(* ================================================================== *)
(** ** Detailed single-contig mode: [analyze_coverage_distribution] *)

(** [min(10, len(all_positions) // 100)], raised to 3 when below. *)
Definition detailed_num_segments (positions : list Z) : Z :=
  let num_segments := Z.min 10 (len positions / 100) in
  if num_segments <? 3 then 3 else num_segments.

(** The second loop over the segments: a leaderless segment appends [None]. *)
Definition detailed_leader_step (contig_data : contig_cov)
    (num_segments segment_size contig_length : Z) (min_coverage : float)
    (segment_leaders : list (option string)) (seg_idx : Z)
  : result (list (option string)) :=
  let seg_start := seg_start_of seg_idx segment_size in
  let seg_end := seg_end_of seg_idx num_segments segment_size contig_length in
  segment_coverage <- segment_coverage_of contig_data seg_start seg_end min_coverage ;;
  if nonempty segment_coverage then
    leader <- leader_of segment_coverage ;;
    Ok (segment_leaders ++ [Some (fst leader)])
  else Ok (segment_leaders ++ [None]).

Definition detailed_segment_leaders (contig_data : contig_cov)
    (num_segments segment_size contig_length : Z) (min_coverage : float)
  : result (list (option string)) :=
  for_each (range num_segments) []
    (detailed_leader_step contig_data num_segments segment_size contig_length
       min_coverage).

(** What the first loop prints for one segment: its bounds and the five
    samples of highest mean coverage. *)
Record segment_report : Type := mkSegmentReport {
  sr_start : Z;
  sr_end : Z;
  sr_top_samples : list (string * float)
}.

Definition detailed_report_step (contig_data : contig_cov)
    (num_segments segment_size contig_length : Z) (min_coverage : float)
    (printed : list segment_report) (seg_idx : Z)
  : result (list segment_report) :=
  let seg_start := seg_start_of seg_idx segment_size in
  let seg_end := seg_end_of seg_idx num_segments segment_size contig_length in
  segment_coverage <- segment_coverage_of contig_data seg_start seg_end min_coverage ;;
  let top_samples :=
    slice_to (sorted_desc (fun item : string * float => snd item) segment_coverage) 5 in
  Ok (printed ++ [mkSegmentReport seg_start seg_end top_samples]).

Inductive assessment : Set :=
| LikelyGenuine
| PossiblyChimeric
| LikelyChimeric.

(** The three tiers on the number of distinct leaders. *)
Definition assess_leaders (unique_leaders : Z) : assessment :=
  if unique_leaders <=? 2 then LikelyGenuine
  else if unique_leaders <=? 4 then PossiblyChimeric
  else LikelyChimeric.

(** Everything [analyze_coverage_distribution] prints. *)
Record analysis : Type := mkAnalysis {
  an_contig_length : Z;
  an_positions : Z;
  an_num_segments : Z;
  an_segment_size : Z;
  an_segments : list segment_report;
  an_segment_leaders : list (option string);
  an_unique_leaders : Z;
  an_assessment : assessment
}.

(** [min_coverage=10] *)
Definition default_min_coverage : float := 10%float.

(** [None] is the early [return] for a contig that is not in the store. *)
Definition analyze_coverage_distribution (coverage_data : coverage_store)
    (contig_name : string) (min_coverage : float) : result (option analysis) :=
  match dict_get coverage_data contig_name with
  | None => Ok None
  | Some contig_data =>
      let positions := all_positions contig_data in
      let contig_length := max_or_zero positions in
      let num_segments := detailed_num_segments positions in
      segment_size <- int_floordiv contig_length num_segments ;;
      printed <- for_each (range num_segments) []
                   (detailed_report_step contig_data num_segments segment_size
                      contig_length min_coverage) ;;
      segment_leaders <- detailed_segment_leaders contig_data num_segments
                           segment_size contig_length min_coverage ;;
      let unique_leaders := unique_leader_count segment_leaders in
      Ok (Some (mkAnalysis contig_length (len positions) num_segments segment_size
                  printed segment_leaders unique_leaders
                  (assess_leaders unique_leaders)))
  end.

(* ================================================================== *)
(** ** Quick/batch screening: [quick_chimera_scan] and
       [identify_chimeric_contigs] *)

(** Threshold of the screening modes: [mean_cov >= 5]. *)
Definition screening_min_coverage : float := 5%float.

(** The loop over the segments in both screening functions: a leaderless
    segment appends nothing. *)
Definition screening_leader_step (contig_data : contig_cov)
    (num_segments segment_size contig_length : Z)
    (segment_leaders : list (option string)) (seg_idx : Z)
  : result (list (option string)) :=
  let seg_start := seg_start_of seg_idx segment_size in
  let seg_end := seg_end_of seg_idx num_segments segment_size contig_length in
  segment_coverage <- segment_coverage_of contig_data seg_start seg_end
                        screening_min_coverage ;;
  if nonempty segment_coverage then
    leader <- leader_of segment_coverage ;;
    Ok (segment_leaders ++ [Some (fst leader)])
  else Ok segment_leaders.

Definition screening_segment_leaders (contig_data : contig_cov)
    (num_segments segment_size contig_length : Z) : result (list (option string)) :=
  for_each (range num_segments) []
    (screening_leader_step contig_data num_segments segment_size contig_length).

(** The segment leaders of a contig the screening does not skip. *)
Definition screening_leaders_of (contig_data : contig_cov)
  : result (list (option string)) :=
  let contig_length := contig_length_of contig_data in
  let num_segments := 5 in
  segment_size <- int_floordiv contig_length num_segments ;;
  screening_segment_leaders contig_data num_segments segment_size contig_length.

(** A row of [chimera_scores]:
    [(contig_name, chimera_score, unique_leaders, len(segment_leaders))] *)
Record score_row : Set := mkRow {
  row_contig : string;
  row_score : float;
  row_unique_leaders : Z;
  row_segments : Z
}.

(** The body of the loop over contigs in [quick_chimera_scan]. *)
Definition quick_scan_step (chimera_scores : list score_row)
    (item : string * contig_cov) : result (list score_row) :=
  let contig_name := fst item in
  let contig_data := snd item in
  if contig_length_of contig_data <? 1000 then Ok chimera_scores
  else
    segment_leaders <- screening_leaders_of contig_data ;;
    let unique_leaders := unique_leader_count segment_leaders in
    if len segment_leaders >? 0 then
      chimera_score <- int_truediv unique_leaders (len segment_leaders) ;;
      Ok (chimera_scores
            ++ [mkRow contig_name chimera_score unique_leaders (len segment_leaders)])
    else Ok chimera_scores.

(** [chimera_scores] before it is sorted.  [for contig_name in coverage_data]
    with [coverage_data[contig_name]] visits the items of the store in
    insertion order. *)
Definition quick_scan_rows (coverage_data : coverage_store) : result (list score_row) :=
  for_each coverage_data [] quick_scan_step.

(** [chimera_scores] as printed: sorted by score, highest first. *)
Definition quick_chimera_scan (coverage_data : coverage_store)
  : result (list score_row) :=
  chimera_scores <- quick_scan_rows coverage_data ;;
  Ok (sorted_desc row_score chimera_scores).

(** The label printed next to a row. *)
Definition assess_score (score : float) : assessment :=
  if float_ge score 0.8%float then LikelyChimeric
  else if float_ge score 0.6%float then PossiblyChimeric
  else LikelyGenuine.

(** An element of [chimeric_contigs]: [(contig_name, chimera_score, unique_leaders)] *)
Definition chimeric_row : Set := (string * float * Z)%type.

Definition chimeric_score (r : chimeric_row) : float := snd (fst r).

(** The body of the loop over contigs in [identify_chimeric_contigs]. *)
Definition identify_step (min_score : float) (chimeric_contigs : list chimeric_row)
    (item : string * contig_cov) : result (list chimeric_row) :=
  let contig_name := fst item in
  let contig_data := snd item in
  if contig_length_of contig_data <? 1000 then Ok chimeric_contigs
  else
    segment_leaders <- screening_leaders_of contig_data ;;
    let unique_leaders := unique_leader_count segment_leaders in
    if len segment_leaders >? 0 then
      chimera_score <- int_truediv unique_leaders (len segment_leaders) ;;
      if float_ge chimera_score min_score
      then Ok (chimeric_contigs ++ [(contig_name, chimera_score, unique_leaders)])
      else Ok chimeric_contigs
    else Ok chimeric_contigs.

(** [min_score=0.6] *)
Definition default_min_score : float := 0.6%float.

Definition identify_chimeric_contigs (coverage_data : coverage_store)
    (min_score : float) : result (list chimeric_row) :=
  chimeric_contigs <- for_each coverage_data [] (identify_step min_score) ;;
  Ok (sorted_desc chimeric_score chimeric_contigs).

(* ================================================================== *)
(** ** Filtered visualization: [create_filtered_visualization] *)

(** [sum(point['coverage'] for point in coverage_points) / len(coverage_points)];
    the sum is taken as the left-to-right float sum. *)
Definition mean_coverage (coverage_points : track) : result float :=
  float_truediv
    (fold_left (fun acc pt => PrimFloat.add acc (coverage pt)) coverage_points
       PrimFloat.zero)
    (len coverage_points).

(** An element of [sample_stats]: [(sample, mean_cov, coverage_points)] *)
Definition sample_stat : Set := (string * float * track)%type.

Definition stat_sample (s : sample_stat) : string := fst (fst s).
Definition stat_mean (s : sample_stat) : float := snd (fst s).
Definition stat_points (s : sample_stat) : track := snd s.

Definition sample_stats_step (min_mean_coverage : float)
    (sample_stats : list sample_stat) (item : string * track)
  : result (list sample_stat) :=
  let sample := fst item in
  let coverage_points := snd item in
  if nonempty coverage_points then
    mean_cov <- mean_coverage coverage_points ;;
    if float_ge mean_cov min_mean_coverage
    then Ok (sample_stats ++ [(sample, mean_cov, coverage_points)])
    else Ok sample_stats
  else Ok sample_stats.

(** [sample_stats] after the loop over [contig_data.items()]. *)
Definition sample_stats_of (contig_data : contig_cov) (min_mean_coverage : float)
  : result (list sample_stat) :=
  for_each contig_data [] (sample_stats_step min_mean_coverage).

(** [top_samples]: sorted by mean coverage, highest first, cut at
    [max_samples]. *)
Definition top_samples_of (contig_data : contig_cov) (min_mean_coverage : float)
    (max_samples : Z) : result (list sample_stat) :=
  sample_stats <- sample_stats_of contig_data min_mean_coverage ;;
  Ok (slice_to (sorted_desc stat_mean sample_stats) max_samples).

(** [{sample: coverage_points for sample, _, coverage_points in top_samples}] *)
Definition retained_dict (top_samples : list sample_stat) : contig_cov :=
  fold_left (fun d s => dict_set d (stat_sample s) (stat_points s)) top_samples [].

(** What the loop over [all_contigs] assigns: [filtered_coverage_data],
    [total_samples_before] and [total_samples_after]. *)
Record filter_state : Type := mkFilterState {
  fs_filtered : coverage_store;
  fs_before : Z;
  fs_after : Z
}.

(** The body of the loop over [all_contigs]. *)
Definition filter_step (all_coverage_data : coverage_store)
    (min_mean_coverage : float) (max_samples : Z)
    (st : filter_state) (contig : string) : result filter_state :=
  match dict_get all_coverage_data contig with
  | None => Ok st
  | Some contig_data =>
      let total_samples_before := fs_before st + len contig_data in
      top_samples <- top_samples_of contig_data min_mean_coverage max_samples ;;
      if nonempty top_samples
      then Ok (mkFilterState
                 (dict_set (fs_filtered st) contig (retained_dict top_samples))
                 total_samples_before
                 (fs_after st + len top_samples))
      else Ok (mkFilterState (fs_filtered st) total_samples_before (fs_after st))
  end.

Definition filter_contigs (all_contigs : list string)
    (all_coverage_data : coverage_store) (min_mean_coverage : float)
    (max_samples : Z) : result filter_state :=
  for_each all_contigs (mkFilterState [] 0 0)
    (filter_step all_coverage_data min_mean_coverage max_samples).

(** [min_mean_coverage=1.0] and [max_samples=50] *)
Definition default_min_mean_coverage : float := 1%float.
Definition default_max_samples : Z := 50.

(** [filtered_coverage_data] as handed to the HTML generator.  The summary
    printed before that divides [total_samples_after] by
    [total_samples_before]. *)
Definition create_filtered_visualization (all_contigs : list string)
    (all_coverage_data : coverage_store) (min_mean_coverage : float)
    (max_samples : Z) : result coverage_store :=
  st <- filter_contigs all_contigs all_coverage_data min_mean_coverage
          max_samples ;;
  kept_share <- int_truediv (fs_after st) (fs_before st) ;;
  let data_reduction :=
    PrimFloat.mul (PrimFloat.sub 1%float kept_share) 100%float in
  Ok (fs_filtered st).

(* ================================================================== *)
(** ** Vocabulary of the statements *)

(** [clamp(x, lower_bound, upper_bound)] *)
Definition clamp (x lower_bound upper_bound : Z) : Z :=
  Z.max lower_bound (Z.min upper_bound x).

(** A float that is not NaN: it compares equal to itself. *)
Definition is_number (x : float) : bool := PrimFloat.leb x x.

(** The points of a track that fall in a segment. *)
Definition points_in (tr : track) (seg_start seg_end : Z) : track :=
  filter (in_segment seg_start seg_end) tr.

(** Left-to-right sum of the coverage values of a track. *)
Definition coverage_sum (tr : track) : float :=
  fold_left (fun acc pt => PrimFloat.add acc (coverage pt)) tr PrimFloat.zero.

Definition is_leader (leader : option string) : bool :=
  match leader with
  | Some _ => true
  | None => false
  end.

(** Every sample with a point in the segment has a mean coverage below
    [min_coverage] there. *)
Definition segment_below (contig_data : contig_cov) (seg_start seg_end : Z)
    (min_coverage : float) : Prop :=
  forall item, In item contig_data ->
    let sums := sample_sums (snd item) seg_start seg_end in
    0 < snd sums ->
    PrimFloat.ltb (PrimFloat.div (fst sums) (float_of_int (snd sums))) min_coverage
    = true.

(** [segment_below] in every one of the [num_segments] segments. *)
Definition all_segments_below (contig_data : contig_cov)
    (num_segments segment_size contig_length : Z) (min_coverage : float) : Prop :=
  forall seg_idx, In seg_idx (range num_segments) ->
    segment_below contig_data (seg_start_of seg_idx segment_size)
      (seg_end_of seg_idx num_segments segment_size contig_length) min_coverage.

(** Descending order of key between neighbours. *)
Definition descending {A : Type} (key : A -> float) (l : list A) : Prop :=
  Sorted (fun a b => float_ge (key a) (key b) = true) l.

(** Candidacy of one item: it has a point in the range and its mean reaches
    the threshold. *)
Definition candidate_mean (seg_start seg_end : Z) (min_coverage : float)
    (item : string * track) : option float :=
  let sums := sample_sums (snd item) seg_start seg_end in
  let mean_cov := PrimFloat.div (fst sums) (float_of_int (snd sums)) in
  if (0 <? snd sums) && float_ge mean_cov min_coverage then Some mean_cov else None.

(** The leader of one segment, [None] when no sample is a candidate. *)
Definition leader_entry (contig_data : contig_cov) (seg_start seg_end : Z)
    (min_coverage : float) : option string :=
  match segment_coverage_of contig_data seg_start seg_end min_coverage with
  | Ok segment_coverage =>
      match leader_of segment_coverage with
      | Ok leader => Some (fst leader)
      | Raise _ => None
      end
  | Raise _ => None
  end.

(** One entry per segment, in segment order. *)
Definition segment_entries (contig_data : contig_cov)
    (num_segments segment_size contig_length : Z) (min_coverage : float)
  : list (option string) :=
  map (fun seg_idx =>
         leader_entry contig_data (seg_start_of seg_idx segment_size)
           (seg_end_of seg_idx num_segments segment_size contig_length)
           min_coverage)
    (range num_segments).

(** The five entries of a contig in the screening modes. *)
Definition screening_entries (contig_data : contig_cov) : list (option string) :=
  let contig_length := contig_length_of contig_data in
  segment_entries contig_data 5 (contig_length / 5) contig_length
    screening_min_coverage.

(** What one contig adds to [chimera_scores]: nothing, or one row. *)
Definition contig_rows (item : string * contig_cov) : list score_row :=
  let leaders := filter is_leader (screening_entries (snd item)) in
  if (contig_length_of (snd item) <? 1000) || (len leaders =? 0) then []
  else [mkRow (fst item)
          (PrimFloat.div (float_of_int (unique_leader_count leaders))
             (float_of_int (len leaders)))
          (unique_leader_count leaders) (len leaders)].

Definition chimeric_of_row (r : score_row) : chimeric_row :=
  (row_contig r, row_score r, row_unique_leaders r).

(** The positions recorded for a contig, in any of its samples. *)
Definition recorded_position (contig_data : contig_cov) (p : Z) : Prop :=
  exists item pt, In item contig_data /\ In pt (snd item) /\ position pt = p.

(** What one sample adds to [sample_stats]: nothing, or its statistics. *)
Definition qualifying_stat (min_mean_coverage : float) (item : string * track)
  : list sample_stat :=
  let mean_cov :=
    PrimFloat.div (coverage_sum (snd item)) (float_of_int (len (snd item))) in
  if nonempty (snd item) && float_ge mean_cov min_mean_coverage
  then [(fst item, mean_cov, snd item)]
  else [].

(** The number of elements [l[:n]] keeps. *)
Definition slice_count {A : Type} (l : list A) (n : Z) : nat :=
  if 0 <=? n then Z.to_nat n else (List.length l - Z.to_nat (- n))%nat.


(* ================================================================== *)
(** ** Sample stores *)

Local Open Scope string_scope.

(** One sample, coverage 10 at 0, 250, 500, 750 and at the contig end 1000. *)
Definition store_end_point : coverage_store :=
  [("contig_1",
    [("A", [mkPoint 0 10; mkPoint 250 10; mkPoint 500 10; mkPoint 750 10;
            mkPoint 1000 10])])].

(** One sample whose third segment stays below the screening threshold. *)
Definition store_gap : coverage_store :=
  [("contig_1",
    [("A", [mkPoint 0 10; mkPoint 200 10; mkPoint 400 0; mkPoint 600 10;
            mkPoint 800 10; mkPoint 1000 10])])].

(** One sample with coverage 1 everywhere. *)
Definition store_low : coverage_store :=
  [("contig_1", [("A", [mkPoint 0 1; mkPoint 500 1; mkPoint 999 1; mkPoint 1000 1])])].

(** Sample A leads the first three of five segments and B the last two;
    a second, short contig; a third one with three leaders. *)
Definition store_two_leaders : coverage_store :=
  [("contig_1",
    [("A", [mkPoint 0 50; mkPoint 2000 50; mkPoint 4000 50; mkPoint 6000 0;
            mkPoint 8000 0; mkPoint 10000 0]);
     ("B", [mkPoint 0 0; mkPoint 2000 0; mkPoint 4000 0; mkPoint 6000 80;
            mkPoint 8000 80; mkPoint 10000 80])]);
   ("contig_2", [("A", [mkPoint 0 50; mkPoint 500 50])]);
   ("contig_3",
    [("A", [mkPoint 0 50; mkPoint 400 0; mkPoint 800 0; mkPoint 2000 0]);
     ("B", [mkPoint 0 0; mkPoint 400 60; mkPoint 800 0; mkPoint 2000 0]);
     ("C", [mkPoint 0 0; mkPoint 400 0; mkPoint 800 70; mkPoint 2000 0])])].

Local Close Scope string_scope.

(* ================================================================== *)
(** ** Chimeric-subset visualization: [create_chimeric_visualization] *)

(** [{contig: all_coverage_data[contig] for contig in chimeric_names
      if contig in all_coverage_data}] *)
Definition chimeric_coverage (chimeric_names : list string)
    (all_coverage_data : coverage_store) : coverage_store :=
  fold_left
    (fun filtered contig =>
       match dict_get all_coverage_data contig with
       | Some contig_data => dict_set filtered contig contig_data
       | None => filtered
       end)
    chimeric_names [].

(** [all_samples]: the set updated with the keys of every contig of
    [filtered_coverage_data]. *)
Definition all_samples_of (filtered_coverage_data : coverage_store) : list string :=
  fold_left
    (fun acc (item : string * contig_cov) =>
       fold_left (fun acc' sample => set_add string_dec sample acc')
         (dict_keys (snd item)) acc)
    filtered_coverage_data [].

(** What [create_chimeric_visualization] hands to [generate_html] and writes
    to the summary: the flagged contigs, their names, their coverage data and
    the number of samples involved. *)
Record chimeric_view : Type := mkChimericView {
  cv_flagged : list chimeric_row;
  cv_contigs : list string;
  cv_coverage : coverage_store;
  cv_samples : Z
}.

(** [None] is the early [return] when no contig reaches [min_score].  The
    store is loaded once by [identify_chimeric_contigs] ([screened_data]) and
    once more for the visualization ([all_coverage_data]). *)
Definition create_chimeric_visualization (screened_data all_coverage_data : coverage_store)
    (min_score : float) : result (option chimeric_view) :=
  chimeric_contigs <- identify_chimeric_contigs screened_data min_score ;;
  if negb (nonempty chimeric_contigs) then Ok None
  else
    let chimeric_names := map (fun contig : chimeric_row => fst (fst contig))
                            chimeric_contigs in
    let filtered_coverage_data := chimeric_coverage chimeric_names all_coverage_data in
    let all_samples := all_samples_of filtered_coverage_data in
    Ok (Some (mkChimericView chimeric_contigs chimeric_names filtered_coverage_data
                (len all_samples))).

(* ================================================================== *)
(** ** Loading: [get_contigs_from_fasta], [load_config] and
       [load_all_coverage_data]

    A [string] stands for a Python [str] whose code points are below 256, one
    [ascii] per code point. *)

(** Exceptions of the loaders that [exn] does not list. *)
Inductive py_error : Set :=
| IndexError
| TypeError.

Inductive outcome (A : Type) : Type :=
| Returns (a : A)
| Fails (e : py_error).
Arguments Returns {A} a.
Arguments Fails {A} e.

(** [c.isspace()] below 256: tab to carriage return, the four separators 28
    to 31, the space, NEL and the no-break space. *)
Definition is_space (c : Ascii.ascii) : bool :=
  let n := Ascii.N_of_ascii c in
  (((9 <=? n) && (n <=? 13)) || ((28 <=? n) && (n <=? 32))
   || (n =? 133) || (n =? 160))%N.

(** [s.split()]: the maximal runs of characters that are not whitespace;
    [word] is the run being read. *)
Fixpoint split_ws_from (s : string) (word : string) : list string :=
  match s with
  | EmptyString =>
      match word with
      | EmptyString => []
      | _ => [word]
      end
  | String c rest =>
      if is_space c then
        match word with
        | EmptyString => split_ws_from rest EmptyString
        | _ => word :: split_ws_from rest EmptyString
        end
      else split_ws_from rest (String.append word (String c EmptyString))
  end.

Definition split_ws (s : string) : list string := split_ws_from s EmptyString.

(** The character '>' *)
Definition gt_sign : Ascii.ascii := Ascii.ascii_of_nat 62.

(** [line.startswith('>')] *)
Definition is_header (line : string) : bool :=
  match line with
  | String c _ => Ascii.eqb c gt_sign
  | EmptyString => false
  end.

(** [line[1:]] *)
Definition drop_first (line : string) : string :=
  match line with
  | String _ rest => rest
  | EmptyString => EmptyString
  end.

(** The loop over the lines of the FASTA file:
    [contig_name = line[1:].split()[0]] for every line that starts with '>'. *)
Fixpoint get_contigs_loop (lines : list string) (contigs : list string)
  : outcome (list string) :=
  match lines with
  | [] => Returns contigs
  | line :: rest =>
      if is_header line then
        match split_ws (drop_first line) with
        | [] => Fails IndexError
        | contig_name :: _ => get_contigs_loop rest (contigs ++ [contig_name])
        end
      else get_contigs_loop rest contigs
  end.

(** [get_contigs_from_fasta], on the lines of the file. *)
Definition get_contigs_from_fasta (lines : list string) : outcome (list string) :=
  get_contigs_loop lines [].

Section Config.
Context {V : Type}.

(** A [str] as a value of the configuration. *)
Variable str : string -> V.

Definition default_config : dict V :=
  [("fasta_path"%string, str "01_GEMM_057_contigs_5000bp.fasta");
   ("coverage_dir"%string, str "coverage_5000bp");
   ("output_path"%string, str "interactive_coverage_viewer.html");
   ("title"%string, str "Interactive Contig Coverage Viewer");
   ("dataset_name"%string, str "Contig Coverage Analysis")].

(** [if key not in config: config[key] = default_config[key]] *)
Definition merge_default (config : dict V) (item : string * V) : dict V :=
  match dict_get config (fst item) with
  | Some _ => config
  | None => dict_set config (fst item) (snd item)
  end.

(** [load_config]: [file_exists] is [os.path.exists(config_path)], [loaded] is
    what [yaml.safe_load] returns for a mapping, and [None] for a file that
    holds no document; a document of another kind is not modelled. *)
Definition load_config (file_exists yaml_available : bool)
    (loaded : option (dict V)) : outcome (dict V) :=
  if file_exists && yaml_available then
    match loaded with
    | None => Fails TypeError
    | Some config => Returns (fold_left merge_default default_config config)
    end
  else Returns default_config.
End Config.

(** [s.lstrip()], [s.rstrip()] and [s.strip()] *)
Fixpoint lstrip (s : string) : string :=
  match s with
  | EmptyString => EmptyString
  | String c rest => if is_space c then lstrip rest else s
  end.

Fixpoint rstrip (s : string) : string :=
  match s with
  | EmptyString => EmptyString
  | String c rest =>
      match rstrip rest with
      | EmptyString => if is_space c then EmptyString else String c EmptyString
      | kept => String c kept
      end
  end.

Definition strip (s : string) : string := rstrip (lstrip s).

(** [s.split(sep)] for a separator of one character; [piece] is the piece
    being read. *)
Fixpoint split_on (sep : Ascii.ascii) (s : string) (piece : string) : list string :=
  match s with
  | EmptyString => [piece]
  | String c rest =>
      if Ascii.eqb c sep then piece :: split_on sep rest EmptyString
      else split_on sep rest (String.append piece (String c EmptyString))
  end.

(** The tabulation and the slash *)
Definition tab : Ascii.ascii := Ascii.ascii_of_nat 9.
Definition slash : Ascii.ascii := Ascii.ascii_of_nat 47.

(** [s.split(sep)[0]] for a separator that is not empty: what comes before
    the first occurrence of [sep]. *)
Fixpoint prefix_before (sep s : string) : string :=
  match s with
  | EmptyString => EmptyString
  | String c rest =>
      if String.prefix sep s then EmptyString else String c (prefix_before sep rest)
  end.

(** [os.path.basename(path)] on a POSIX path: what follows the last slash. *)
Fixpoint basename_from (path : string) (name : string) : string :=
  match path with
  | EmptyString => name
  | String c rest =>
      if Ascii.eqb c slash then basename_from rest EmptyString
      else basename_from rest (String.append name (String c EmptyString))
  end.

(** [os.path.basename(file_path).split(".per-base.bed.gz")[0]] *)
Definition sample_name_of (file_path : string) : string :=
  prefix_before ".per-base.bed.gz" (basename_from file_path EmptyString).

(** [coverage_data[contig][sample_name].append(point)] on the nested
    [defaultdict]: a missing contig or sample is entered last, with an empty
    value, before the point is appended. *)
Definition append_point (coverage_data : coverage_store) (contig sample_name : string)
    (pt : point) : coverage_store :=
  let samples := match dict_get coverage_data contig with
                 | Some samples => samples
                 | None => []
                 end in
  let tr := match dict_get samples sample_name with
            | Some tr => tr
            | None => []
            end in
  dict_set coverage_data contig (dict_set samples sample_name (tr ++ [pt])).

(** [list.sort(key=lambda x: x['position'])]: stable, ascending. *)
Fixpoint insert_by_position (pt : point) (tr : track) : track :=
  match tr with
  | [] => [pt]
  | q :: rest =>
      if position q <? position pt then q :: insert_by_position pt rest
      else pt :: q :: rest
  end.

Definition sort_track (tr : track) : track := fold_right insert_by_position [] tr.

(** The loop that sorts every track of the store in place. *)
Definition sort_tracks (coverage_data : coverage_store) : coverage_store :=
  map (fun item : string * contig_cov =>
         (fst item,
          map (fun st : string * track => (fst st, sort_track (snd st))) (snd item)))
    coverage_data.

Section Loader.

(** [int(s)] and [float(s)]; [None] stands for [ValueError]. *)
Variable parse_int : string -> option Z.
Variable parse_float : string -> option float.

(** One line of a coverage file: [None] for a line of fewer than four fields,
    the contig and the point otherwise. *)
Definition parse_record (line : string) : result (option (string * point)) :=
  let parts := split_on tab (strip line) EmptyString in
  if len parts >=? 4 then
    match parts with
    | contig :: start :: _ :: coverage :: _ =>
        match parse_int start with
        | None => Raise ValueError
        | Some start =>
            match parse_float coverage with
            | None => Raise ValueError
            | Some coverage => Ok (Some (contig, mkPoint start coverage))
            end
        end
    | _ => Ok None
    end
  else Ok None.

(** The body of the loop over the lines of one file. *)
Definition load_line (sample_name : string) (coverage_data : coverage_store)
    (line : string) : result coverage_store :=
  record <- parse_record line ;;
  match record with
  | Some (contig, pt) => Ok (append_point coverage_data contig sample_name pt)
  | None => Ok coverage_data
  end.

(** The body of the loop over the files: a file is its path and its lines. *)
Definition load_file (coverage_data : coverage_store)
    (file : string * list string) : result coverage_store :=
  let sample_name := sample_name_of (fst file) in
  for_each (snd file) coverage_data (load_line sample_name).

(** [load_all_coverage_data], on the files that match the pattern, in the
    order [glob] lists them. *)
Definition load_all_coverage_data (files : list (string * list string))
  : result coverage_store :=
  coverage_data <- for_each files [] load_file ;;
  Ok (sort_tracks coverage_data).
End Loader.

(* ================================================================== *)
(** ** Sample contributions: [analyze_sample_contributions] *)

(** An element of [contributing_samples]: [(sample, mean_cov, max_cov)] *)
Definition contribution : Set := (string * float * float)%type.

Definition contribution_mean (c : contribution) : float := snd (fst c).

(** The body of the loop over the samples of a contig.  [sum] is taken as the
    left-to-right float sum, [max] keeps the first of the largest values. *)
Definition contribution_step (contributing_samples : list contribution)
    (item : string * track) : result (list contribution) :=
  let sample := fst item in
  let coverages := map coverage (snd item) in
  if existsb (fun c => float_gt c 0%float) coverages then
    mean_cov <- float_truediv (fold_left PrimFloat.add coverages PrimFloat.zero)
                  (len coverages) ;;
    max_cov <- max_by (fun c : float => c) coverages ;;
    if float_gt mean_cov 0.1%float
    then Ok (contributing_samples ++ [(sample, mean_cov, max_cov)])
    else Ok contributing_samples
  else Ok contributing_samples.

(** An element of [results] *)
Record contig_summary : Set := mkSummary {
  cs_contig : string;
  cs_num_contributing_samples : Z;
  cs_contributing_samples : list contribution
}.

(** The body of the loop over the contigs. *)
Definition summary_step (results : list contig_summary)
    (item : string * contig_cov) : result (list contig_summary) :=
  contributing_samples <- for_each (snd item) [] contribution_step ;;
  let ranked := sorted_desc contribution_mean contributing_samples in
  Ok (results ++ [mkSummary (fst item) (len ranked) ranked]).

(** [results.sort(key=lambda x: x['num_contributing_samples'], reverse=True)]:
    stable, descending. *)
Fixpoint insert_by_num (x : contig_summary) (l : list contig_summary)
  : list contig_summary :=
  match l with
  | [] => [x]
  | y :: rest =>
      if cs_num_contributing_samples x <? cs_num_contributing_samples y
      then y :: insert_by_num x rest
      else x :: y :: rest
  end.

Definition sort_by_num (l : list contig_summary) : list contig_summary :=
  fold_right insert_by_num [] l.

(** [results] as printed and written to the CSV file. *)
Definition analyze_sample_contributions (coverage_data : coverage_store)
  : result (list contig_summary) :=
  results <- for_each coverage_data [] summary_step ;;
  Ok (sort_by_num results).

(* ================================================================== *)
(** ** Heat map bins: [drawHeatMap] in the page [generate_html] writes

    The script of the page works on JavaScript numbers; lengths, indices and
    positions are integers that such a number holds exactly, here [Z].  The
    argument of [drawHeatMap] taken here as a [contig_cov] is
    [processedSamples], the tracks of the selected samples, and
    [getAllPositions] is [all_positions]: the distinct positions in
    ascending order. *)

(** A position as a JavaScript number. *)
Definition js_number (z : Z) : float :=
  if z <? 0 then PrimFloat.opp (float_of_int (- z)) else float_of_int z.

(** [{ start: binStart, end: binEnd, center: binCenter }] *)
Record heat_bin : Set := mkBin {
  bin_start : Z;
  bin_end : Z;
  bin_center : float
}.

(** [Math.max(1, Math.floor(allPositions.length / 1000))] *)
Definition bin_size_of (all_positions : list Z) : Z :=
  Z.max 1 (len all_positions / 1000).

(** [allPositions[i]] for an index of the array *)
Definition position_at (all_positions : list Z) (i : Z) : Z :=
  nth (Z.to_nat i) all_positions 0.

(** The bin that starts at index [i]. *)
Definition bin_at (all_positions : list Z) (bin_size i : Z) : heat_bin :=
  let bin_start := position_at all_positions i in
  let bin_end :=
    position_at all_positions (Z.min (i + bin_size - 1) (len all_positions - 1)) in
  mkBin bin_start bin_end
    (PrimFloat.div (PrimFloat.add (js_number bin_start) (js_number bin_end)) 2%float).

(** [for (let i = 0; i < allPositions.length; i += binSize)], from [i] on;
    the loop runs at most [fuel] times. *)
Fixpoint bin_loop (fuel : nat) (all_positions : list Z) (bin_size i : Z)
  : list heat_bin :=
  match fuel with
  | O => []
  | S fuel' =>
      if i <? len all_positions
      then bin_at all_positions bin_size i
           :: bin_loop fuel' all_positions bin_size (i + bin_size)
      else []
  end.

(** [binnedPositions]; as the step is at least 1, the loop ends within
    [allPositions.length] rounds. *)
Definition binned_positions (all_positions : list Z) : list heat_bin :=
  bin_loop (List.length all_positions) all_positions (bin_size_of all_positions) 0.

(** [d.position >= bin.start && d.position <= bin.end] *)
Definition in_bin (b : heat_bin) (pt : point) : bool :=
  (bin_start b <=? position pt) && (position pt <=? bin_end b).

(* ================================================================== *)
(** ** Vocabulary of the further properties *)

(** What the first loop of the detailed mode prints for one segment. *)
Definition segment_report_of (contig_data : contig_cov)
    (num_segments segment_size contig_length : Z) (min_coverage : float)
    (seg_idx : Z) : segment_report :=
  let seg_start := seg_start_of seg_idx segment_size in
  let seg_end := seg_end_of seg_idx num_segments segment_size contig_length in
  mkSegmentReport seg_start seg_end
    match segment_coverage_of contig_data seg_start seg_end min_coverage with
    | Ok segment_coverage =>
        slice_to
          (sorted_desc (fun item : string * float => snd item) segment_coverage) 5
    | Raise _ => []
    end.

(** [total_samples_before] after the loop over [all_contigs]: the samples of
    every listed contig that is in the store, a contig listed twice counting
    twice. *)
Definition samples_listed (all_contigs : list string)
    (all_coverage_data : coverage_store) : Z :=
  fold_right
    (fun contig acc =>
       match dict_get all_coverage_data contig with
       | Some contig_data => len contig_data + acc
       | None => acc
       end)
    0 all_contigs.

(** [p] holds of every character of [s]. *)
Fixpoint string_forall (p : Ascii.ascii -> bool) (s : string) : bool :=
  match s with
  | EmptyString => true
  | String c rest => p c && string_forall p rest
  end.

(** [name] is the first word of a header line: after '>' and whitespace only,
    not empty, without whitespace, and followed by whitespace or by the end of
    the line. *)
Definition names_header (line name : string) : Prop :=
  exists pre post,
    line = String gt_sign (String.append pre (String.append name post))
    /\ string_forall is_space pre = true
    /\ name <> EmptyString
    /\ string_forall (fun c => negb (is_space c)) name = true
    /\ match post with
       | EmptyString => True
       | String c _ => is_space c = true
       end.

(** The track stored for a sample of a contig, empty when there is none. *)
Definition stored_track (coverage_data : coverage_store) (contig sample_name : string)
  : track :=
  match dict_get coverage_data contig with
  | Some samples =>
      match dict_get samples sample_name with
      | Some tr => tr
      | None => []
      end
  | None => []
  end.

(** A record read from the coverage files: contig, sample and point. *)
Definition coverage_record : Set := (string * string * point)%type.

(** The points of the records of one sample of one contig, in reading order. *)
Definition record_points (records : list coverage_record) (contig sample_name : string)
  : track :=
  map (fun r : coverage_record => snd r)
    (filter (fun r : coverage_record =>
               String.eqb (fst (fst r)) contig && String.eqb (snd (fst r)) sample_name)
       records).

(** The records a line adds for a sample. *)
Definition line_records (parse_int : string -> option Z)
    (parse_float : string -> option float) (sample_name : string) (line : string)
  : list coverage_record :=
  match parse_record parse_int parse_float line with
  | Ok (Some (contig, pt)) => [(contig, sample_name, pt)]
  | _ => []
  end.

(** The records of all the files, in reading order. *)
Definition file_records (parse_int : string -> option Z)
    (parse_float : string -> option float) (files : list (string * list string))
  : list coverage_record :=
  flat_map
    (fun file : string * list string =>
       flat_map (line_records parse_int parse_float (sample_name_of (fst file)))
         (snd file))
    files.

(** No empty entry: every contig has a sample and every sample a point; the
    names of the contigs, and of the samples of a contig, are distinct. *)
Definition store_wf (coverage_data : coverage_store) : Prop :=
  dict_wf coverage_data
  /\ forall contig samples,
       In (contig, samples) coverage_data ->
       samples <> [] /\ dict_wf samples
       /\ forall sample_name tr, In (sample_name, tr) samples -> tr <> [].

(** Ascending positions, each against all the later ones. *)
Definition by_position (tr : track) : Prop :=
  StronglySorted (fun a b => position a <= position b) tr.

(** A line of at least four fields whose start or coverage does not parse. *)
Definition malformed (parse_int : string -> option Z)
    (parse_float : string -> option float) (line : string) : bool :=
  let parts := split_on tab (strip line) EmptyString in
  (len parts >=? 4)
  && match parse_int (nth 1 parts EmptyString) with
     | None => true
     | Some _ =>
         match parse_float (nth 3 parts EmptyString) with
         | None => true
         | Some _ => false
         end
     end.



(* ================================================================== *)
(** ** Sample files *)

(** A reader of unsigned decimal numbers, used as [int] and [float] on the
    sample files. *)
Fixpoint read_digits (s : string) (acc : Z) : option Z :=
  match s with
  | EmptyString => Some acc
  | String c rest =>
      let n := Z.of_N (Ascii.N_of_ascii c) in
      if (48 <=? n) && (n <=? 57) then read_digits rest (10 * acc + (n - 48))
      else None
  end.

Definition read_int (s : string) : option Z :=
  match s with
  | EmptyString => None
  | _ => read_digits s 0
  end.

Definition read_float (s : string) : option float :=
  option_map float_of_int (read_int s).

(** A line of a coverage file: four fields, tabulations and a line feed. *)
Definition bed_line (contig start stop coverage : string) : string :=
  let t := String tab EmptyString in
  String.append contig (String.append t (String.append start (String.append t
    (String.append stop (String.append t (String.append coverage
      (String (Ascii.ascii_of_nat 10) EmptyString))))))).

(** Two samples; the first file is not in order of position and has a line
    of one field. *)
Definition sample_files : list (string * list string) :=
  [("cov/S1.per-base.bed.gz"%string,
    [bed_line "c1" "5" "6" "10"; bed_line "c1" "0" "5" "3"; "track"%string;
     bed_line "c2" "0" "9" "7"]);
   ("/data/cov/S2.per-base.bed.gz"%string, [bed_line "c1" "2" "3" "1"])].

(* ================================================================== *)
(** ** The order of binary64 floats *)

Module FloatOrder.

Lemma SFcompare_antisym (a b : spec_float) :
  SFcompare b a = option_map CompOpp (SFcompare a b).
Proof.
  destruct a as [[]|[]| |[] ma ea], b as [[]|[]| |[] mb eb]; simpl; try reflexivity;
    rewrite (Z.compare_antisym ea eb); destruct (ea ?= eb)%Z; simpl; try reflexivity;
    rewrite (Pos.compare_cont_antisym ma mb Eq); simpl;
    try rewrite CompOpp_involutive; reflexivity.
Qed.

Lemma SFcompare_refl (a : spec_float) :
  SFcompare a a = match a with S754_nan => None | _ => Some Eq end.
Proof.
  destruct a as [[]|[]| |[] ma ea]; simpl; try reflexivity;
    rewrite Z.compare_refl; fold (Pos.compare ma ma); rewrite Pos.compare_refl;
    reflexivity.
Qed.

Lemma SFcompare_defined (a b : spec_float) :
  SFcompare a a <> None -> SFcompare b b <> None -> SFcompare a b <> None.
Proof.
  rewrite !SFcompare_refl.
  destruct a as [[]|[]| |[] ma ea], b as [[]|[]| |[] mb eb]; simpl; congruence.
Qed.

Lemma SFleb_trans (a b c : spec_float) :
  SFleb a b = true -> SFleb b c = true -> SFleb a c = true.
Proof.
  unfold SFleb.
  destruct a as [[]|[]| |[] ma ea], b as [[]|[]| |[] mb eb], c as [[]|[]| |[] mc ec];
    simpl; try reflexivity; try discriminate;
    fold (Pos.compare ma mb); fold (Pos.compare mb mc); fold (Pos.compare ma mc);
    destruct (Z.compare_spec ea eb); destruct (Z.compare_spec eb ec);
    destruct (Z.compare_spec ea ec); simpl; try reflexivity; try discriminate; try lia;
    destruct (Pos.compare_spec ma mb); destruct (Pos.compare_spec mb mc);
    destruct (Pos.compare_spec ma mc); simpl; try reflexivity; try discriminate; try lia.
Qed.

Lemma leb_numbers (x y : float) :
  PrimFloat.leb x y = true -> is_number x = true /\ is_number y = true.
Proof.
  unfold is_number. rewrite !leb_spec. unfold SFleb.
  rewrite !SFcompare_refl.
  destruct (Prim2SF x) as [[]|[]| |[] ma ea], (Prim2SF y) as [[]|[]| |[] mb eb]; simpl;
    try discriminate; auto.
Qed.

Lemma ltb_leb_false (x y : float) :
  PrimFloat.ltb x y = true -> PrimFloat.leb y x = false.
Proof.
  rewrite ltb_spec, leb_spec. unfold SFltb, SFleb.
  rewrite (SFcompare_antisym (Prim2SF x) (Prim2SF y)).
  destruct (SFcompare (Prim2SF x) (Prim2SF y)) as [[]|]; simpl; congruence.
Qed.

Lemma ltb_leb (x y : float) :
  PrimFloat.ltb x y = true -> PrimFloat.leb x y = true.
Proof.
  rewrite ltb_spec, leb_spec. unfold SFltb, SFleb.
  destruct (SFcompare (Prim2SF x) (Prim2SF y)) as [[]|]; simpl; congruence.
Qed.

Lemma leb_total (x y : float) :
  is_number x = true -> is_number y = true ->
  PrimFloat.ltb x y = false -> PrimFloat.leb y x = true.
Proof.
  unfold is_number. rewrite ltb_spec, !leb_spec. unfold SFltb, SFleb.
  intros Hx Hy.
  assert (Hd : SFcompare (Prim2SF x) (Prim2SF y) <> None).
  { apply SFcompare_defined.
    - destruct (SFcompare (Prim2SF x) (Prim2SF x)); congruence.
    - destruct (SFcompare (Prim2SF y) (Prim2SF y)); congruence. }
  rewrite (SFcompare_antisym (Prim2SF x) (Prim2SF y)).
  destruct (SFcompare (Prim2SF x) (Prim2SF y)) as [[]|]; simpl; congruence.
Qed.

Lemma leb_trans (x y z : float) :
  PrimFloat.leb x y = true -> PrimFloat.leb y z = true -> PrimFloat.leb x z = true.
Proof. rewrite !leb_spec. apply SFleb_trans. Qed.

End FloatOrder.

(* ================================================================== *)
(** ** Loops *)

Section ForEach.
Context {A S : Type}.
Variable body : S -> A -> result S.

(** A loop whose body never raises runs to its end. *)
Lemma for_each_total (l : list A) :
  (forall s x, In x l -> exists s', body s x = Ok s') ->
  forall s, exists s', for_each l s body = Ok s'.
Proof.
  induction l as [|x rest IH]; intros Hbody s; simpl.
  - now exists s.
  - destruct (Hbody s x (or_introl eq_refl)) as [s1 Hs1]. rewrite Hs1. simpl.
    apply IH. intros s2 y Hy. apply Hbody. now right.
Qed.

(** Loop invariant. *)
Lemma for_each_invariant (P : S -> Prop) (l : list A) :
  (forall s x s', In x l -> P s -> body s x = Ok s' -> P s') ->
  forall s s', P s -> for_each l s body = Ok s' -> P s'.
Proof.
  induction l as [|x rest IH]; intros Hstep s s' Hs Hrun; simpl in Hrun.
  - now inversion Hrun; subst.
  - destruct (body s x) as [s1|e] eqn:Hs1; simpl in Hrun; [|discriminate].
    apply (IH (fun s0 y s0' Hy => Hstep s0 y s0' (or_intror Hy)) s1 s'); auto.
    apply (Hstep s x s1); auto. now left.
Qed.

End ForEach.

Lemma range_length (n : Z) : List.length (range n) = Z.to_nat n.
Proof. unfold range. now rewrite length_map, length_seq. Qed.

(* ================================================================== *)
(** ** Segmenter: ranges, sums and candidates *)

Lemma in_segment_spec (seg_start seg_end : Z) (pt : point) :
  in_segment seg_start seg_end pt = true <-> seg_start <= position pt < seg_end.
Proof. unfold in_segment. rewrite andb_true_iff, Z.leb_le, Z.ltb_lt. tauto. Qed.

Lemma seg_end_inner (seg_idx num_segments segment_size contig_length : Z) :
  seg_idx < num_segments - 1 ->
  seg_end_of seg_idx num_segments segment_size contig_length
  = (seg_idx + 1) * segment_size.
Proof. intros H. unfold seg_end_of. apply Z.ltb_lt in H. now rewrite H. Qed.

Lemma seg_end_final (num_segments segment_size contig_length : Z) :
  seg_end_of (num_segments - 1) num_segments segment_size contig_length
  = contig_length.
Proof. unfold seg_end_of. now rewrite Z.ltb_irrefl. Qed.

Lemma sample_sums_fold (seg_start seg_end : Z) (tr : track) (acc : float * Z) :
  fold_left
    (fun (acc : float * Z) pt =>
       if in_segment seg_start seg_end pt
       then (PrimFloat.add (fst acc) (coverage pt), snd acc + 1)
       else acc) tr acc
  = (fold_left (fun a pt => PrimFloat.add a (coverage pt))
       (points_in tr seg_start seg_end) (fst acc),
     snd acc + len (points_in tr seg_start seg_end)).
Proof.
  revert acc. unfold points_in, len.
  induction tr as [|pt rest IH]; intros [total n]; simpl.
  - f_equal. lia.
  - destruct (in_segment seg_start seg_end pt); rewrite IH; simpl; f_equal; lia.
Qed.

(** The loop computes the sum and the number of the points in the range. *)
Lemma sample_sums_spec (tr : track) (seg_start seg_end : Z) :
  sample_sums tr seg_start seg_end
  = (coverage_sum (points_in tr seg_start seg_end),
     len (points_in tr seg_start seg_end)).
Proof. unfold sample_sums. now rewrite sample_sums_fold. Qed.

Lemma dict_get_set_same {V : Type} (d : dict V) (k : string) (v : V) :
  dict_get (dict_set d k v) k = Some v.
Proof.
  induction d as [|[k' v'] rest IH]; simpl.
  - now rewrite String.eqb_refl.
  - destruct (String.eqb k k') eqn:E; simpl; rewrite E; auto.
Qed.

Lemma dict_get_set_other {V : Type} (d : dict V) (k k0 : string) (v : V) :
  k0 <> k -> dict_get (dict_set d k v) k0 = dict_get d k0.
Proof.
  intros Hne. induction d as [|[k' v'] rest IH]; simpl.
  - apply String.eqb_neq in Hne. now rewrite Hne.
  - destruct (String.eqb k k') eqn:E; simpl.
    + apply String.eqb_eq in E. subst k'.
      apply String.eqb_neq in Hne. now rewrite Hne.
    + destruct (String.eqb k0 k'); auto.
Qed.

Lemma dict_get_set {V : Type} (d : dict V) (k k0 : string) (v : V) :
  dict_get (dict_set d k v) k0 = if String.eqb k0 k then Some v else dict_get d k0.
Proof.
  destruct (String.eqb k0 k) eqn:E.
  - apply String.eqb_eq in E. subst. apply dict_get_set_same.
  - apply String.eqb_neq in E. now apply dict_get_set_other.
Qed.

Lemma dict_in_get {V : Type} (d : dict V) (k : string) (v : V) :
  dict_wf d -> In (k, v) d -> dict_get d k = Some v.
Proof.
  unfold dict_wf, dict_keys.
  induction d as [|[k' v'] rest IH]; simpl; [tauto|].
  intros Hwf [Heq|Hin].
  - inversion Heq. subst. now rewrite String.eqb_refl.
  - inversion Hwf as [|? ? Hnotin Hrest]. subst.
    destruct (String.eqb k k') eqn:E.
    + apply String.eqb_eq in E. subst k'. exfalso. apply Hnotin.
      apply in_map_iff. now exists (k, v).
    + auto.
Qed.

(** What one step of the loop over samples does: the division is reached only
    with a positive count, and only a sample with a point in the range and a
    mean of at least [min_coverage] is entered. *)
Lemma add_candidate_spec (seg_start seg_end : Z) (min_coverage : float)
    (segment_coverage : dict float) (item : string * track) :
  let sums := sample_sums (snd item) seg_start seg_end in
  let mean_cov := PrimFloat.div (fst sums) (float_of_int (snd sums)) in
  add_candidate seg_start seg_end min_coverage segment_coverage item
  = Ok (if (0 <? snd sums) && float_ge mean_cov min_coverage
        then dict_set segment_coverage (fst item) mean_cov
        else segment_coverage).
Proof.
  unfold add_candidate.
  destruct (sample_sums (snd item) seg_start seg_end) as [total n]. simpl.
  destruct (0 <? n) eqn:Hn; simpl; [|reflexivity].
  unfold float_truediv. apply Z.ltb_lt in Hn.
  destruct (n =? 0) eqn:Hz; [apply Z.eqb_eq in Hz; lia|]. simpl.
  now destruct (float_ge (PrimFloat.div total (float_of_int n)) min_coverage).
Qed.

Lemma add_candidate_candidate (seg_start seg_end : Z) (min_coverage : float)
    (segment_coverage : dict float) (item : string * track) :
  add_candidate seg_start seg_end min_coverage segment_coverage item
  = Ok match candidate_mean seg_start seg_end min_coverage item with
       | Some mean_cov => dict_set segment_coverage (fst item) mean_cov
       | None => segment_coverage
       end.
Proof.
  rewrite add_candidate_spec. unfold candidate_mean. simpl.
  now destruct ((0 <? snd (sample_sums (snd item) seg_start seg_end))
                && float_ge _ min_coverage).
Qed.

Lemma segment_coverage_total (contig_data : contig_cov) (seg_start seg_end : Z)
    (min_coverage : float) :
  exists d, segment_coverage_of contig_data seg_start seg_end min_coverage = Ok d.
Proof.
  unfold segment_coverage_of. apply for_each_total.
  intros s x _. rewrite add_candidate_candidate. eauto.
Qed.

(** Every entry of [segment_coverage] is the mean of a candidate item. *)
Lemma segment_coverage_entries (contig_data : contig_cov) (seg_start seg_end : Z)
    (min_coverage : float) (d : dict float) :
  segment_coverage_of contig_data seg_start seg_end min_coverage = Ok d ->
  forall sample mean_cov, dict_get d sample = Some mean_cov ->
    exists tr, In (sample, tr) contig_data
      /\ candidate_mean seg_start seg_end min_coverage (sample, tr) = Some mean_cov.
Proof.
  unfold segment_coverage_of.
  apply (for_each_invariant (add_candidate seg_start seg_end min_coverage)
           (fun d => forall sample mean_cov, dict_get d sample = Some mean_cov ->
              exists tr, In (sample, tr) contig_data
                /\ candidate_mean seg_start seg_end min_coverage (sample, tr)
                   = Some mean_cov)).
  - intros s [name tr] s' Hin IH Hstep sample mean_cov Hget.
    rewrite add_candidate_candidate in Hstep. inversion Hstep as [Hs']. clear Hstep.
    destruct (candidate_mean seg_start seg_end min_coverage (name, tr)) as [m|] eqn:Hc;
      subst s'; [|now apply IH].
    simpl in Hget. rewrite dict_get_set in Hget.
    destruct (String.eqb sample name) eqn:E; [|now apply IH].
    apply String.eqb_eq in E. subst sample. inversion Hget. subst m.
    now exists tr.
  - intros sample mean_cov H. discriminate.
Qed.

(** The dictionary is empty exactly when no item is a candidate. *)
Lemma segment_coverage_empty (contig_data : contig_cov) (seg_start seg_end : Z)
    (min_coverage : float) :
  (forall item, In item contig_data ->
     candidate_mean seg_start seg_end min_coverage item = None) ->
  segment_coverage_of contig_data seg_start seg_end min_coverage = Ok [].
Proof.
  unfold segment_coverage_of. generalize (@nil (string * float)).
  induction contig_data as [|item rest IH]; intros d Hnone; simpl; [reflexivity|].
  rewrite add_candidate_candidate. rewrite (Hnone item (or_introl eq_refl)). simpl.
  apply IH. intros it Hit. apply Hnone. now right.
Qed.

Lemma candidate_mean_spec (seg_start seg_end : Z) (min_coverage : float)
    (item : string * track) (mean_cov : float) :
  candidate_mean seg_start seg_end min_coverage item = Some mean_cov ->
  let inside := points_in (snd item) seg_start seg_end in
  0 < len inside
  /\ float_truediv (coverage_sum inside) (len inside) = Ok mean_cov
  /\ float_ge mean_cov min_coverage = true.
Proof.
  unfold candidate_mean. rewrite sample_sums_spec. simpl.
  set (inside := points_in (snd item) seg_start seg_end).
  destruct (0 <? len inside) eqn:Hn; simpl; [|discriminate].
  destruct (float_ge _ min_coverage) eqn:Hge; [|discriminate].
  intros H. inversion H. subst mean_cov. clear H.
  apply Z.ltb_lt in Hn. repeat split; auto.
  unfold float_truediv.
  destruct (len inside =? 0) eqn:Hz; [apply Z.eqb_eq in Hz; lia | reflexivity].
Qed.

Lemma candidate_mean_no_points (seg_start seg_end : Z) (min_coverage : float)
    (item : string * track) :
  points_in (snd item) seg_start seg_end = [] ->
  candidate_mean seg_start seg_end min_coverage item = None.
Proof.
  intros H. unfold candidate_mean. rewrite sample_sums_spec, H. reflexivity.
Qed.

(** C6: building [segment_coverage] never raises, so the mean-coverage division
    never divides by zero; every sample entered has at least one point in the
    range of the segment, its value being the sum over these points divided by
    their number, at least [min_coverage]; a sample with no point in the range is
    not entered, whatever the threshold. *)
Theorem C6_mean_needs_a_position (contig_data : contig_cov) (seg_start seg_end : Z)
    (min_coverage : float) :
  exists segment_coverage,
    segment_coverage_of contig_data seg_start seg_end min_coverage
    = Ok segment_coverage
    /\ (forall sample mean_cov,
          dict_get segment_coverage sample = Some mean_cov ->
          exists tr, In (sample, tr) contig_data
            /\ 0 < len (points_in tr seg_start seg_end)
            /\ float_truediv (coverage_sum (points_in tr seg_start seg_end))
                 (len (points_in tr seg_start seg_end)) = Ok mean_cov
            /\ float_ge mean_cov min_coverage = true)
    /\ (forall sample,
          (forall tr, In (sample, tr) contig_data ->
             points_in tr seg_start seg_end = []) ->
          dict_get segment_coverage sample = None).
Proof.
  destruct (segment_coverage_total contig_data seg_start seg_end min_coverage)
    as [d Hd].
  exists d. split; [exact Hd|]. split.
  - intros sample mean_cov Hget.
    destruct (segment_coverage_entries _ _ _ _ _ Hd _ _ Hget) as [tr [Hin Hc]].
    exists tr. split; [exact Hin|].
    exact (candidate_mean_spec _ _ _ _ _ Hc).
  - intros sample Hnone.
    destruct (dict_get d sample) as [mean_cov|] eqn:Hget; [|reflexivity].
    destruct (segment_coverage_entries _ _ _ _ _ Hd _ _ Hget) as [tr [Hin Hc]].
    rewrite (candidate_mean_no_points _ _ _ (sample, tr) (Hnone tr Hin)) in Hc.
    discriminate.
Qed.

(** With a threshold of 0 a sample without a point in the segment is still
    left out, while a sample with points of coverage 0 is entered. *)
Lemma C6_mean_needs_a_position_witness :
  exists segment_coverage,
    segment_coverage_of
      [("A"%string, [mkPoint 10 0]); ("B"%string, [mkPoint 700 9])] 0 500 0
    = Ok segment_coverage
    /\ dict_get segment_coverage "A"%string = Some 0%float
    /\ dict_get segment_coverage "B"%string = None.
Proof.
  destruct (C6_mean_needs_a_position
              [("A"%string, [mkPoint 10 0]); ("B"%string, [mkPoint 700 9])] 0 500 0)
    as [d [Hd [_ Hout]]].
  exists d. split; [exact Hd|]. split.
  - vm_compute in Hd. inversion Hd. reflexivity.
  - apply Hout. intros tr [H|[H|[]]]; inversion H; reflexivity.
Defined.

(** C2: on [store_end_point] the final segment is [[800, 1000)]: the point at
    position 1000, the contig length, is in no segment, the final segment has
    no point and no leader, and the contig is scored 1/4 where a closed final
    range gives five segments led by A and 1/5. *)
Theorem C2_final_segment_drops_contig_end :
  let contig_data := [("A"%string,
                       [mkPoint 0 10; mkPoint 250 10; mkPoint 500 10;
                        mkPoint 750 10; mkPoint 1000 10])] in
  contig_length_of contig_data = 1000
  /\ seg_start_of 4 200 = 800
  /\ seg_end_of 4 5 200 1000 = 1000
  /\ in_segment 800 1000 (mkPoint 1000 10) = false
  /\ sample_sums [mkPoint 0 10; mkPoint 250 10; mkPoint 500 10;
                   mkPoint 750 10; mkPoint 1000 10] 800 1000
     = (PrimFloat.zero, 0)
  /\ segment_coverage_of contig_data 800 1000 screening_min_coverage = Ok []
  /\ screening_leaders_of contig_data
     = Ok [Some "A"%string; Some "A"%string; Some "A"%string; Some "A"%string]
  /\ quick_chimera_scan store_end_point
     = Ok [mkRow "contig_1"%string 0.25%float 1 4]
  /\ detailed_segment_leaders contig_data 5 200 1000 screening_min_coverage
     = Ok [Some "A"%string; Some "A"%string; Some "A"%string; Some "A"%string; None].
Proof. vm_compute. repeat split; reflexivity. Qed.

(** In every segment, the final one included, a point at or past [seg_end] is
    not counted; for the final segment [seg_end] is [contig_length]. *)
Lemma final_segment_half_open (num_segments segment_size contig_length : Z)
    (pt : point) :
  in_segment (seg_start_of (num_segments - 1) segment_size)
    (seg_end_of (num_segments - 1) num_segments segment_size contig_length) pt
  = true ->
  position pt < contig_length.
Proof. rewrite seg_end_final, in_segment_spec. lia. Qed.

Lemma inner_segment_half_open (seg_idx num_segments segment_size contig_length : Z)
    (pt : point) :
  seg_idx < num_segments - 1 ->
  (in_segment (seg_start_of seg_idx segment_size)
     (seg_end_of seg_idx num_segments segment_size contig_length) pt = true
   <-> seg_idx * segment_size <= position pt < (seg_idx + 1) * segment_size).
Proof.
  intros H. rewrite seg_end_inner by exact H. unfold seg_start_of.
  apply in_segment_spec.
Qed.

(* ================================================================== *)
(** ** Segment leaders *)

Lemma for_each_append {A B : Type} (body : list B -> A -> result (list B))
    (f : A -> list B) (l : list A) :
  (forall acc x, In x l -> body acc x = Ok (acc ++ f x)) ->
  forall acc, for_each l acc body = Ok (acc ++ flat_map f l).
Proof.
  induction l as [|x rest IH]; intros Hbody acc; simpl.
  - now rewrite app_nil_r.
  - rewrite (Hbody acc x (or_introl eq_refl)). simpl.
    rewrite IH by (intros acc' y Hy; apply Hbody; now right).
    now rewrite app_assoc.
Qed.

Lemma flat_map_singleton {A B : Type} (f : A -> B) (l : list A) :
  flat_map (fun x => [f x]) l = map f l.
Proof. induction l as [|x rest IH]; simpl; congruence. Qed.

Lemma flat_map_filter_singleton {A B : Type} (f : A -> B) (p : B -> bool)
    (l : list A) :
  flat_map (fun x => filter p [f x]) l = filter p (map f l).
Proof.
  induction l as [|x rest IH]; simpl in *; [reflexivity|].
  rewrite IH. now destruct (p (f x)).
Qed.

Lemma leader_of_total (segment_coverage : dict float) :
  nonempty segment_coverage = true ->
  exists leader, leader_of segment_coverage = Ok leader.
Proof.
  destruct segment_coverage as [|first rest]; simpl; [discriminate|].
  intros _. unfold leader_of. simpl. eauto.
Qed.

Lemma leader_of_empty : leader_of [] = Raise ValueError.
Proof. reflexivity. Qed.

(** The step of the detailed mode appends the entry of the segment. *)
Lemma detailed_leader_step_spec (contig_data : contig_cov)
    (num_segments segment_size contig_length : Z) (min_coverage : float)
    (segment_leaders : list (option string)) (seg_idx : Z) :
  detailed_leader_step contig_data num_segments segment_size contig_length
    min_coverage segment_leaders seg_idx
  = Ok (segment_leaders
          ++ [leader_entry contig_data (seg_start_of seg_idx segment_size)
                (seg_end_of seg_idx num_segments segment_size contig_length)
                min_coverage]).
Proof.
  unfold detailed_leader_step, leader_entry.
  destruct (segment_coverage_total contig_data (seg_start_of seg_idx segment_size)
              (seg_end_of seg_idx num_segments segment_size contig_length)
              min_coverage) as [d Hd].
  rewrite Hd. simpl.
  destruct (nonempty d) eqn:Hne.
  - destruct (leader_of_total d Hne) as [leader Hl]. now rewrite Hl.
  - destruct d; [|discriminate]. now rewrite leader_of_empty.
Qed.

(** The step of the screening modes appends the entry of the segment when it
    is a leader, and nothing otherwise. *)
Lemma screening_leader_step_spec (contig_data : contig_cov)
    (num_segments segment_size contig_length : Z)
    (segment_leaders : list (option string)) (seg_idx : Z) :
  screening_leader_step contig_data num_segments segment_size contig_length
    segment_leaders seg_idx
  = Ok (segment_leaders
          ++ filter is_leader
               [leader_entry contig_data (seg_start_of seg_idx segment_size)
                  (seg_end_of seg_idx num_segments segment_size contig_length)
                  screening_min_coverage]).
Proof.
  unfold screening_leader_step, leader_entry.
  destruct (segment_coverage_total contig_data (seg_start_of seg_idx segment_size)
              (seg_end_of seg_idx num_segments segment_size contig_length)
              screening_min_coverage) as [d Hd].
  rewrite Hd. simpl.
  destruct (nonempty d) eqn:Hne.
  - destruct (leader_of_total d Hne) as [leader Hl]. now rewrite Hl.
  - destruct d; [|discriminate]. rewrite leader_of_empty. simpl.
    now rewrite app_nil_r.
Qed.

Lemma detailed_segment_leaders_spec (contig_data : contig_cov)
    (num_segments segment_size contig_length : Z) (min_coverage : float) :
  detailed_segment_leaders contig_data num_segments segment_size contig_length
    min_coverage
  = Ok (segment_entries contig_data num_segments segment_size contig_length
          min_coverage).
Proof.
  unfold detailed_segment_leaders, segment_entries.
  rewrite <- flat_map_singleton.
  change (flat_map ?f ?l) with ([] ++ flat_map f l).
  apply for_each_append.
  intros acc seg_idx _. apply detailed_leader_step_spec.
Qed.

(** The screening list is the list of the detailed mode without its [None]
    entries. *)
Lemma screening_segment_leaders_spec (contig_data : contig_cov)
    (num_segments segment_size contig_length : Z) :
  screening_segment_leaders contig_data num_segments segment_size contig_length
  = Ok (filter is_leader
          (segment_entries contig_data num_segments segment_size contig_length
             screening_min_coverage)).
Proof.
  unfold screening_segment_leaders, segment_entries.
  rewrite <- flat_map_filter_singleton.
  change (flat_map ?f ?l) with ([] ++ flat_map f l).
  apply for_each_append.
  intros acc seg_idx _. apply screening_leader_step_spec.
Qed.

Lemma screening_leaders_of_spec (contig_data : contig_cov) :
  screening_leaders_of contig_data
  = Ok (filter is_leader (screening_entries contig_data)).
Proof.
  unfold screening_leaders_of, screening_entries, int_floordiv. simpl.
  apply screening_segment_leaders_spec.
Qed.

Lemma segment_entries_length (contig_data : contig_cov)
    (num_segments segment_size contig_length : Z) (min_coverage : float) :
  len (segment_entries contig_data num_segments segment_size contig_length
         min_coverage)
  = Z.max 0 num_segments.
Proof. unfold segment_entries, len. rewrite length_map, range_length. lia. Qed.

Lemma filter_length_le {A : Type} (p : A -> bool) (l : list A) :
  len (filter p l) <= len l.
Proof. unfold len. pose proof (filter_length_le p l). lia. Qed.

Lemma filter_is_leader_all (l : list (option string)) :
  Forall (fun leader => leader <> None) (filter is_leader l).
Proof.
  apply Forall_forall. intros x Hx. apply filter_In in Hx.
  destruct Hx as [_ Hx]. now destruct x.
Qed.

(** *** Distinct leaders *)

Lemma set_add_length_bounds (s : string) (acc : list string) :
  (List.length acc <= List.length (set_add string_dec s acc) <= S (List.length acc))%nat.
Proof.
  induction acc as [|x rest IH]; simpl; [lia|].
  destruct (string_dec s x); simpl; lia.
Qed.

Lemma unique_fold_bounds (l : list (option string)) (acc : list string) :
  let set := fold_left
               (fun acc leader =>
                  match leader with
                  | Some s => set_add string_dec s acc
                  | None => acc
                  end) l acc in
  (List.length acc <= List.length set
   <= List.length acc + List.length (filter is_leader l))%nat.
Proof.
  revert acc. induction l as [|[s|] rest IH]; intros acc; simpl.
  - lia.
  - specialize (IH (set_add string_dec s acc)). simpl in IH.
    pose proof (set_add_length_bounds s acc). lia.
  - apply IH.
Qed.

Lemma unique_fold_grows (l : list (option string)) (acc : list string) :
  (acc <> [] \/ exists s, In (Some s) l) ->
  fold_left
    (fun acc leader =>
       match leader with
       | Some s => set_add string_dec s acc
       | None => acc
       end) l acc <> [].
Proof.
  revert acc. induction l as [|[s|] rest IH]; intros acc H; simpl.
  - destruct H as [H|[s []]]. exact H.
  - apply IH. left. apply set_add_not_empty.
  - apply IH. destruct H as [H|[s [H|H]]]; [now left | discriminate | right; eauto].
Qed.

Lemma unique_leader_count_bounds (l : list (option string)) :
  0 <= unique_leader_count l <= len (filter is_leader l).
Proof.
  unfold unique_leader_count, unique_leader_set, len.
  pose proof (unique_fold_bounds l []) as H. simpl in H. lia.
Qed.

Lemma unique_leader_count_positive (l : list (option string)) (s : string) :
  In (Some s) l -> 1 <= unique_leader_count l.
Proof.
  intros H. unfold unique_leader_count, unique_leader_set, len.
  pose proof (unique_fold_grows l [] (or_intror (ex_intro _ s H))) as Hne.
  match type of Hne with ?set <> [] => destruct set end;
    [congruence | simpl; lia].
Qed.

Lemma unique_leader_set_filter (l : list (option string)) :
  unique_leader_set (filter is_leader l) = unique_leader_set l.
Proof.
  unfold unique_leader_set. generalize (@nil string).
  induction l as [|[s|] rest IH]; intros acc; simpl; auto.
Qed.

Lemma unique_leader_count_none (n : nat) :
  unique_leader_count (repeat None n) = 0.
Proof.
  unfold unique_leader_count, unique_leader_set.
  assert (H : forall acc : list string,
             fold_left
               (fun acc leader =>
                  match leader with
                  | Some s => set_add string_dec s acc
                  | None => acc
                  end) (repeat None n) acc = acc).
  { induction n as [|n IH]; intros acc; simpl; auto. }
  now rewrite H.
Qed.

(* ================================================================== *)
(** ** Sorting by key, highest first *)

Section SortedDesc.
Context {A : Type}.
Variable key : A -> float.

Lemma insert_desc_perm (x : A) (l : list A) :
  Permutation (insert_desc key x l) (x :: l).
Proof.
  induction l as [|y rest IH]; simpl; [reflexivity|].
  destruct (PrimFloat.ltb (key x) (key y)); [|reflexivity].
  rewrite IH. apply perm_swap.
Qed.

Lemma sorted_desc_perm (l : list A) : Permutation (sorted_desc key l) l.
Proof.
  induction l as [|x rest IH]; simpl; [reflexivity|].
  rewrite insert_desc_perm. now constructor.
Qed.

Lemma sorted_desc_in (l : list A) (x : A) : In x (sorted_desc key l) <-> In x l.
Proof.
  split; apply Permutation_in;
    [apply sorted_desc_perm | apply Permutation_sym, sorted_desc_perm].
Qed.

(** On keys that are numbers the result is in descending order, each
    element against all the later ones. *)
Lemma insert_desc_sorted (x : A) (l : list A) :
  is_number (key x) = true ->
  Forall (fun y => is_number (key y) = true) l ->
  StronglySorted (fun a b => float_ge (key a) (key b) = true) l ->
  StronglySorted (fun a b => float_ge (key a) (key b) = true) (insert_desc key x l).
Proof.
  intros Hx Hl Hs. induction Hs as [|y rest Hrest IH Hy]; simpl.
  - constructor; constructor.
  - inversion Hl as [|? ? Hny Hnrest]. subst.
    destruct (PrimFloat.ltb (key x) (key y)) eqn:Hlt.
    + constructor; [now apply IH|].
      eapply Permutation_Forall; [apply Permutation_sym, insert_desc_perm|].
      constructor; [|exact Hy].
      unfold float_ge. now apply FloatOrder.ltb_leb.
    + assert (Hxy : float_ge (key x) (key y) = true)
        by (unfold float_ge; now apply FloatOrder.leb_total).
      constructor; [now constructor|].
      constructor; [exact Hxy|].
      eapply Forall_impl; [|exact Hy]. intros z Hz. unfold float_ge in *.
      eapply FloatOrder.leb_trans; eauto.
Qed.

Lemma sorted_desc_sorted (l : list A) :
  Forall (fun y => is_number (key y) = true) l ->
  StronglySorted (fun a b => float_ge (key a) (key b) = true) (sorted_desc key l).
Proof.
  induction l as [|x rest IH]; intros Hl; simpl; [constructor|].
  inversion Hl as [|? ? Hx Hrest]. subst.
  apply insert_desc_sorted; auto.
  eapply Permutation_Forall; [apply Permutation_sym, sorted_desc_perm | exact Hrest].
Qed.

Lemma sorted_desc_descending (l : list A) :
  Forall (fun y => is_number (key y) = true) l ->
  descending key (sorted_desc key l).
Proof. intros H. apply StronglySorted_Sorted. now apply sorted_desc_sorted. Qed.
End SortedDesc.

(* ================================================================== *)
(** ** Scores *)

(** A quotient [k / n] of at most five segments lies in the unit interval,
    and is positive when [k] is. *)
Lemma ratio_in_unit_interval (k n : Z) :
  0 <= k <= n -> 1 <= n <= 5 ->
  let score := PrimFloat.div (float_of_int k) (float_of_int n) in
  PrimFloat.leb 0 score = true
  /\ PrimFloat.leb score 1 = true
  /\ (1 <= k -> PrimFloat.ltb 0 score = true).
Proof.
  intros Hk Hn.
  assert (Hn' : n = 1 \/ n = 2 \/ n = 3 \/ n = 4 \/ n = 5) by lia.
  assert (Hk' : k = 0 \/ k = 1 \/ k = 2 \/ k = 3 \/ k = 4 \/ k = 5) by lia.
  repeat (destruct Hn' as [Hn'|Hn']); subst n;
    repeat (destruct Hk' as [Hk'|Hk']); subst k; try lia;
    cbv zeta; (split; [|split]);
    try (intros H1; try lia); vm_compute; reflexivity.
Qed.

Lemma screening_entries_length (contig_data : contig_cov) :
  len (screening_entries contig_data) = 5.
Proof. unfold screening_entries. now rewrite segment_entries_length. Qed.

(** The rows of a contig, read off [contig_rows]. *)
Lemma contig_rows_spec (item : string * contig_cov) (r : score_row) :
  In r (contig_rows item) ->
  let leaders := filter is_leader (screening_entries (snd item)) in
  row_contig r = fst item
  /\ 1000 <= contig_length_of (snd item)
  /\ row_unique_leaders r = unique_leader_count leaders
  /\ row_segments r = len leaders
  /\ 1 <= row_unique_leaders r <= row_segments r
  /\ row_segments r <= 5
  /\ int_truediv (row_unique_leaders r) (row_segments r) = Ok (row_score r).
Proof.
  intros Hin. cbv zeta. revert Hin. unfold contig_rows.
  set (leaders := filter is_leader (screening_entries (snd item))).
  destruct (contig_length_of (snd item) <? 1000) eqn:Hlen; simpl; [intros []|].
  destruct (len leaders =? 0) eqn:Hz; simpl; [intros []|].
  intros [<-|[]]. simpl.
  apply Z.ltb_ge in Hlen. apply Z.eqb_neq in Hz.
  pose proof (unique_leader_count_bounds leaders) as Hb.
  assert (Hff : filter is_leader leaders = leaders).
  { unfold leaders. apply forallb_filter_id. apply forallb_forall.
    intros x Hx. apply filter_In in Hx. tauto. }
  rewrite Hff in Hb.
  assert (Hpos : 1 <= unique_leader_count leaders).
  { destruct leaders as [|[s|] rest] eqn:El.
    - unfold len in Hz. simpl in Hz. lia.
    - apply (unique_leader_count_positive _ s). now left.
    - exfalso. assert (Hin : In None (filter is_leader (screening_entries (snd item)))).
      { fold leaders. rewrite El. now left. }
      apply filter_In in Hin. destruct Hin as [_ Hin]. discriminate. }
  pose proof (filter_length_le is_leader (screening_entries (snd item))) as Hle.
  rewrite screening_entries_length in Hle. fold leaders in Hle.
  repeat split; auto; try lia.
  unfold int_truediv. destruct (len leaders =? 0) eqn:Hz'; [|reflexivity].
  apply Z.eqb_eq in Hz'. lia.
Qed.

(** The body of the loop of [quick_chimera_scan] never raises and appends the
    rows of the contig. *)
Lemma quick_scan_step_spec (chimera_scores : list score_row)
    (item : string * contig_cov) :
  quick_scan_step chimera_scores item = Ok (chimera_scores ++ contig_rows item).
Proof.
  unfold quick_scan_step, contig_rows. rewrite screening_leaders_of_spec.
  set (leaders := filter is_leader (screening_entries (snd item))).
  destruct (contig_length_of (snd item) <? 1000); cbn [bind orb];
    [now rewrite app_nil_r|].
  assert (Hnn : 0 <= len leaders) by (unfold len; lia).
  unfold int_truediv.
  destruct (len leaders =? 0) eqn:Hz.
  - apply Z.eqb_eq in Hz. rewrite Hz. cbn. now rewrite app_nil_r.
  - apply Z.eqb_neq in Hz.
    assert (Hgt : (len leaders >? 0) = true) by (apply Z.gtb_lt; lia).
    rewrite Hgt. reflexivity.
Qed.

Lemma identify_step_spec (min_score : float) (chimeric_contigs : list chimeric_row)
    (item : string * contig_cov) :
  identify_step min_score chimeric_contigs item
  = Ok (chimeric_contigs
          ++ map chimeric_of_row
               (filter (fun r => float_ge (row_score r) min_score)
                  (contig_rows item))).
Proof.
  unfold identify_step, contig_rows. rewrite screening_leaders_of_spec.
  set (leaders := filter is_leader (screening_entries (snd item))).
  destruct (contig_length_of (snd item) <? 1000); cbn [bind orb filter map];
    [now rewrite app_nil_r|].
  assert (Hnn : 0 <= len leaders) by (unfold len; lia).
  unfold int_truediv.
  destruct (len leaders =? 0) eqn:Hz.
  - apply Z.eqb_eq in Hz. rewrite Hz. cbn. now rewrite app_nil_r.
  - apply Z.eqb_neq in Hz.
    assert (Hgt : (len leaders >? 0) = true) by (apply Z.gtb_lt; lia).
    rewrite Hgt. cbn [bind filter map row_score].
    destruct (float_ge _ min_score); cbn [map]; [reflexivity | now rewrite app_nil_r].
Qed.

Lemma quick_scan_rows_spec (coverage_data : coverage_store) :
  quick_scan_rows coverage_data = Ok (flat_map contig_rows coverage_data).
Proof.
  unfold quick_scan_rows.
  change (flat_map ?f ?l) with ([] ++ flat_map f l).
  apply for_each_append. intros acc item _. apply quick_scan_step_spec.
Qed.

Lemma quick_chimera_scan_spec (coverage_data : coverage_store) :
  quick_chimera_scan coverage_data
  = Ok (sorted_desc row_score (flat_map contig_rows coverage_data)).
Proof. unfold quick_chimera_scan. now rewrite quick_scan_rows_spec. Qed.

Lemma flat_map_map_filter {A B C : Type} (f : A -> list B) (g : B -> C)
    (p : B -> bool) (l : list A) :
  flat_map (fun x => map g (filter p (f x))) l = map g (filter p (flat_map f l)).
Proof.
  induction l as [|x rest IH]; simpl; [reflexivity|].
  now rewrite IH, filter_app, map_app.
Qed.

Lemma identify_chimeric_contigs_spec (coverage_data : coverage_store)
    (min_score : float) :
  identify_chimeric_contigs coverage_data min_score
  = Ok (sorted_desc chimeric_score
          (map chimeric_of_row
             (filter (fun r => float_ge (row_score r) min_score)
                (flat_map contig_rows coverage_data)))).
Proof.
  unfold identify_chimeric_contigs.
  rewrite <- flat_map_map_filter.
  rewrite (for_each_append (identify_step min_score)
             (fun item => map chimeric_of_row
                            (filter (fun r => float_ge (row_score r) min_score)
                               (contig_rows item)))).
  - reflexivity.
  - intros acc item _. apply identify_step_spec.
Qed.

Lemma Permutation_filter {A : Type} (p : A -> bool) (l1 l2 : list A) :
  Permutation l1 l2 -> Permutation (filter p l1) (filter p l2).
Proof.
  induction 1 as [|x l1 l2 _ IH|x y l|l1 l2 l3 _ IH1 _ IH2]; simpl.
  - constructor.
  - destruct (p x); [now constructor | exact IH].
  - destruct (p x), (p y); try reflexivity. apply perm_swap.
  - now transitivity (filter p l2).
Qed.

(** What a row of the store says about its contig. *)
Lemma row_account (coverage_data : coverage_store) (r : score_row) :
  In r (flat_map contig_rows coverage_data) ->
  exists contig_data,
    In (row_contig r, contig_data) coverage_data
    /\ 1000 <= contig_length_of contig_data
    /\ screening_leaders_of contig_data
       = Ok (filter is_leader (screening_entries contig_data))
    /\ row_unique_leaders r = unique_leader_count (screening_entries contig_data)
    /\ row_segments r = len (filter is_leader (screening_entries contig_data))
    /\ 1 <= row_unique_leaders r <= row_segments r
    /\ row_segments r <= 5
    /\ int_truediv (row_unique_leaders r) (row_segments r) = Ok (row_score r).
Proof.
  intros Hin. apply in_flat_map in Hin.
  destruct Hin as [[name contig_data] [Hitem Hr]].
  pose proof (contig_rows_spec _ _ Hr) as Hspec. cbn [fst snd] in Hspec.
  cbv zeta in Hspec.
  destruct Hspec as [Hname [Hlen [Hu [Hs [Hb [H5 Hdiv]]]]]].
  exists contig_data. rewrite Hname.
  repeat split; auto; try lia.
  - apply screening_leaders_of_spec.
  - rewrite Hu. unfold unique_leader_count. now rewrite unique_leader_set_filter.
Qed.

Lemma row_score_bounds (r : score_row) :
  1 <= row_unique_leaders r <= row_segments r -> row_segments r <= 5 ->
  int_truediv (row_unique_leaders r) (row_segments r) = Ok (row_score r) ->
  PrimFloat.leb 0 (row_score r) = true
  /\ PrimFloat.leb (row_score r) 1 = true
  /\ PrimFloat.ltb 0 (row_score r) = true.
Proof.
  intros Hb H5 Hdiv. unfold int_truediv in Hdiv.
  destruct (row_segments r =? 0); [discriminate|].
  inversion Hdiv as [Hscore].
  destruct (ratio_in_unit_interval (row_unique_leaders r) (row_segments r))
    as [H0 [H1 Hpos]]; try lia.
  repeat split; auto. apply Hpos. lia.
Qed.

(* ================================================================== *)
(** ** The claims on the screening modes *)

(** C1 (as amended): a row of the screening has as score the number of
    distinct leaders divided by the number of segments that have a leader; of
    the five entries of the contig, one per segment, those without a leader
    are left out of the list and of the denominator.  The same holds for the
    rows of the chimeric-subset extraction. *)
Theorem C1_score_over_led_segments (coverage_data : coverage_store)
    (rows : list score_row) (r : score_row) :
  quick_chimera_scan coverage_data = Ok rows -> In r rows ->
  exists contig_data,
    In (row_contig r, contig_data) coverage_data
    /\ 1000 <= contig_length_of contig_data
    /\ len (screening_entries contig_data) = 5
    /\ detailed_segment_leaders contig_data 5 (contig_length_of contig_data / 5)
         (contig_length_of contig_data) screening_min_coverage
       = Ok (screening_entries contig_data)
    /\ screening_leaders_of contig_data
       = Ok (filter is_leader (screening_entries contig_data))
    /\ row_unique_leaders r = unique_leader_count (screening_entries contig_data)
    /\ row_segments r = len (filter is_leader (screening_entries contig_data))
    /\ 0 < row_segments r
    /\ int_truediv (row_unique_leaders r) (row_segments r) = Ok (row_score r)
    /\ (forall min_score, float_ge (row_score r) min_score = true ->
          exists chimeric,
            identify_chimeric_contigs coverage_data min_score = Ok chimeric
            /\ In (row_contig r, row_score r, row_unique_leaders r) chimeric).
Proof.
  rewrite quick_chimera_scan_spec. intros H Hin. inversion H. subst rows. clear H.
  apply sorted_desc_in in Hin.
  destruct (row_account _ _ Hin)
    as [contig_data [Hitem [Hlen [Hl [Hu [Hs [Hb [H5 Hdiv]]]]]]]].
  exists contig_data.
  split; [exact Hitem|]. split; [exact Hlen|].
  split; [apply screening_entries_length|].
  split; [apply detailed_segment_leaders_spec|].
  split; [exact Hl|]. split; [exact Hu|]. split; [exact Hs|].
  split; [lia|]. split; [exact Hdiv|].
  intros min_score Hge. rewrite identify_chimeric_contigs_spec.
  eexists. split; [reflexivity|].
  apply sorted_desc_in.
  change (row_contig r, row_score r, row_unique_leaders r) with (chimeric_of_row r).
  apply in_map. apply filter_In. now split.
Qed.

Lemma C1_score_over_led_segments_witness :
  exists contig_data,
    In ("contig_1"%string, contig_data) store_gap
    /\ len (filter is_leader (screening_entries contig_data)) = 4
    /\ int_truediv 1 4 = Ok 0.25%float.
Proof.
  destruct (C1_score_over_led_segments store_gap
              [mkRow "contig_1"%string 0.25%float 1 4]
              (mkRow "contig_1"%string 0.25%float 1 4))
    as [contig_data [Hitem [_ [_ [_ [_ [_ [Hs [_ [Hdiv _]]]]]]]]]].
  - vm_compute. reflexivity.
  - now left.
  - exists contig_data. cbn [row_contig row_segments row_unique_leaders row_score] in *.
    repeat split; auto.
Defined.

(** C1 (as stated) fails on [store_gap]: the third of the five segments has no
    leader, one distinct leader leads the four others, and the score is 1/4,
    not 1/5. *)
Lemma C1_counterexample :
  let contig_data :=
    [("A"%string, [mkPoint 0 10; mkPoint 200 10; mkPoint 400 0; mkPoint 600 10;
                   mkPoint 800 10; mkPoint 1000 10])] in
  store_gap = [("contig_1"%string, contig_data)]
  /\ screening_entries contig_data
     = [Some "A"%string; Some "A"%string; None; Some "A"%string; Some "A"%string]
  /\ quick_chimera_scan store_gap = Ok [mkRow "contig_1"%string 0.25%float 1 4]
  /\ ~ (forall r, In r [mkRow "contig_1"%string 0.25%float 1 4] ->
          int_truediv (unique_leader_count (screening_entries contig_data))
            (len (screening_entries contig_data)) = Ok (row_score r)).
Proof.
  cbv zeta. split; [reflexivity|]. split; [vm_compute; reflexivity|].
  split; [vm_compute; reflexivity|].
  intros H. specialize (H _ (or_introl eq_refl)).
  apply (f_equal (fun res => match res with
                            | Ok score => PrimFloat.eqb score 0.25
                            | Raise _ => true
                            end)) in H.
  vm_compute in H. discriminate H.
Qed.

(** C4: every row of the screening has a score in [[0, 1]], which is the
    quotient of its number of distinct leaders by its number of segments. *)
Theorem C4_score_in_unit_interval (coverage_data : coverage_store)
    (rows : list score_row) (r : score_row) :
  quick_chimera_scan coverage_data = Ok rows -> In r rows ->
  int_truediv (row_unique_leaders r) (row_segments r) = Ok (row_score r)
  /\ float_ge (row_score r) 0 = true
  /\ float_ge 1 (row_score r) = true.
Proof.
  rewrite quick_chimera_scan_spec. intros H Hin. inversion H. subst rows. clear H.
  apply sorted_desc_in in Hin.
  destruct (row_account _ _ Hin) as [_ [_ [_ [_ [_ [_ [Hb [H5 Hdiv]]]]]]]].
  destruct (row_score_bounds r Hb H5 Hdiv) as [H0 [H1 _]].
  unfold float_ge. auto.
Qed.

Lemma C4_score_in_unit_interval_witness :
  int_truediv 2 5 = Ok 0.4%float
  /\ float_ge 0.4%float 0 = true
  /\ float_ge 1 0.4%float = true.
Proof.
  apply (C4_score_in_unit_interval store_two_leaders
           [mkRow "contig_3"%string 1%float 3 3;
            mkRow "contig_1"%string 0.4%float 2 5]
           (mkRow "contig_1"%string 0.4%float 2 5)).
  - vm_compute. reflexivity.
  - right. now left.
Defined.

(** C7: the screening never raises: the ratio is computed only for a contig
    whose list of segment leaders is not empty, a contig with an empty list
    adds no row to either screening, and every row has a positive number of
    segments, so that the division of the score, which raises on a zero
    divisor, never meets one. *)
Theorem C7_ratio_only_with_leaders (coverage_data : coverage_store)
    (min_score : float) (item : string * contig_cov)
    (chimera_scores : list score_row) (chimeric_contigs : list chimeric_row) :
  (exists rows,
     quick_chimera_scan coverage_data = Ok rows
     /\ forall r, In r rows ->
          0 < row_segments r
          /\ int_truediv (row_unique_leaders r) (row_segments r) = Ok (row_score r))
  /\ (exists chimeric, identify_chimeric_contigs coverage_data min_score = Ok chimeric)
  /\ (exists segment_leaders,
        screening_leaders_of (snd item) = Ok segment_leaders
        /\ (segment_leaders = [] ->
              quick_scan_step chimera_scores item = Ok chimera_scores
              /\ identify_step min_score chimeric_contigs item = Ok chimeric_contigs))
  /\ (forall unique_leaders, int_truediv unique_leaders 0 = Raise ZeroDivisionError).
Proof.
  split; [|split; [|split]].
  - rewrite quick_chimera_scan_spec. eexists. split; [reflexivity|].
    intros r Hin. apply sorted_desc_in in Hin.
    destruct (row_account _ _ Hin) as [_ [_ [_ [_ [_ [_ [Hb [_ Hdiv]]]]]]]].
    split; [lia | exact Hdiv].
  - rewrite identify_chimeric_contigs_spec. eauto.
  - rewrite screening_leaders_of_spec. eexists. split; [reflexivity|].
    intros Hnil.
    rewrite quick_scan_step_spec, identify_step_spec. unfold contig_rows.
    rewrite Hnil. rewrite orb_true_r. cbn [filter map]. now rewrite !app_nil_r.
  - reflexivity.
Qed.

Lemma C7_ratio_only_with_leaders_witness :
  quick_scan_step [] (hd (""%string, []) store_low) = Ok []
  /\ identify_step 0 [] (hd (""%string, []) store_low) = Ok [].
Proof.
  destruct (C7_ratio_only_with_leaders store_low 0 (hd (""%string, []) store_low)
              [] [])
    as [_ [_ [[segment_leaders [Hl Hskip]] _]]].
  apply Hskip. vm_compute in Hl. now inversion Hl.
Defined.

(** C9: the list of segment leaders of the screening holds no [None]; every
    row of the screening, and every element of the chimeric subset, has at
    least one distinct leader and a score above 0. *)
Theorem C9_screening_leaders_without_none (coverage_data : coverage_store)
    (contig_data : contig_cov) (min_score : float) :
  (exists segment_leaders,
     screening_leaders_of contig_data = Ok segment_leaders
     /\ Forall (fun leader => leader <> None) segment_leaders)
  /\ (exists rows,
        quick_chimera_scan coverage_data = Ok rows
        /\ forall r, In r rows ->
             1 <= row_unique_leaders r /\ float_gt (row_score r) 0 = true)
  /\ (exists chimeric,
        identify_chimeric_contigs coverage_data min_score = Ok chimeric
        /\ forall c, In c chimeric ->
             1 <= snd c /\ float_gt (chimeric_score c) 0 = true).
Proof.
  split; [|split].
  - rewrite screening_leaders_of_spec. eexists. split; [reflexivity|].
    apply filter_is_leader_all.
  - rewrite quick_chimera_scan_spec. eexists. split; [reflexivity|].
    intros r Hin. apply sorted_desc_in in Hin.
    destruct (row_account _ _ Hin) as [_ [_ [_ [_ [_ [_ [Hb [H5 Hdiv]]]]]]]].
    destruct (row_score_bounds r Hb H5 Hdiv) as [_ [_ Hpos]].
    split; [lia | exact Hpos].
  - rewrite identify_chimeric_contigs_spec. eexists. split; [reflexivity|].
    intros c Hin. apply sorted_desc_in in Hin. apply in_map_iff in Hin.
    destruct Hin as [r [<- Hin]]. apply filter_In in Hin. destruct Hin as [Hin _].
    destruct (row_account _ _ Hin) as [_ [_ [_ [_ [_ [_ [Hb [H5 Hdiv]]]]]]]].
    destruct (row_score_bounds r Hb H5 Hdiv) as [_ [_ Hpos]].
    split; [simpl; lia | exact Hpos].
Qed.

Lemma C9_screening_leaders_without_none_witness :
  exists segment_leaders,
    screening_leaders_of (snd (hd (""%string, []) store_gap)) = Ok segment_leaders
    /\ Forall (fun leader => leader <> None) segment_leaders.
Proof.
  exact (proj1 (C9_screening_leaders_without_none store_gap
                  (snd (hd (""%string, []) store_gap)) 0)).
Defined.

Lemma row_score_is_number (coverage_data : coverage_store) (r : score_row) :
  In r (flat_map contig_rows coverage_data) -> is_number (row_score r) = true.
Proof.
  intros Hin.
  destruct (row_account _ _ Hin) as [_ [_ [_ [_ [_ [_ [Hb [H5 Hdiv]]]]]]]].
  destruct (row_score_bounds r Hb H5 Hdiv) as [H0 _].
  now apply FloatOrder.leb_numbers in H0.
Qed.

(** C8: the chimeric subset holds exactly the rows of the screening whose
    score is at least the threshold, each once, and is in descending order of
    score: every element's score is at least the score of the next. *)
Theorem C8_chimeric_subset (coverage_data : coverage_store) (min_score : float) :
  exists rows chimeric,
    quick_chimera_scan coverage_data = Ok rows
    /\ identify_chimeric_contigs coverage_data min_score = Ok chimeric
    /\ Permutation chimeric
         (map chimeric_of_row
            (filter (fun r => float_ge (row_score r) min_score) rows))
    /\ (forall contig_name score unique_leaders,
          In (contig_name, score, unique_leaders) chimeric
          <-> float_ge score min_score = true
              /\ exists segments,
                   In (mkRow contig_name score unique_leaders segments) rows)
    /\ descending chimeric_score chimeric.
Proof.
  rewrite quick_chimera_scan_spec, identify_chimeric_contigs_spec.
  set (unsorted := flat_map contig_rows coverage_data).
  set (passes := fun r => float_ge (row_score r) min_score).
  do 2 eexists. split; [reflexivity|]. split; [reflexivity|].
  assert (Hperm : Permutation
                    (sorted_desc chimeric_score (map chimeric_of_row (filter passes unsorted)))
                    (map chimeric_of_row
                       (filter passes (sorted_desc row_score unsorted)))).
  { rewrite sorted_desc_perm. apply Permutation_map, Permutation_filter.
    apply Permutation_sym, sorted_desc_perm. }
  split; [exact Hperm|]. split.
  - intros contig_name score unique_leaders. split.
    + intros Hin. apply (Permutation_in _ Hperm) in Hin.
      apply in_map_iff in Hin. destruct Hin as [[n s u g] [Heq Hin]].
      apply filter_In in Hin. destruct Hin as [Hin Hpass].
      unfold chimeric_of_row in Heq. simpl in Heq. inversion Heq. subst.
      split; [exact Hpass | now exists g].
    + intros [Hpass [segments Hin]].
      apply (Permutation_in _ (Permutation_sym Hperm)).
      change (contig_name, score, unique_leaders)
        with (chimeric_of_row (mkRow contig_name score unique_leaders segments)).
      apply in_map, filter_In. now split.
  - apply sorted_desc_descending. apply Forall_forall.
    intros c Hin. apply in_map_iff in Hin. destruct Hin as [r [<- Hin]].
    apply filter_In in Hin. destruct Hin as [Hin _].
    exact (row_score_is_number coverage_data r Hin).
Qed.

Example chimeric_subset_two_leaders :
  identify_chimeric_contigs store_two_leaders default_min_score
  = Ok [("contig_3"%string, 1%float, 3)]
  /\ identify_chimeric_contigs store_two_leaders 0.3%float
     = Ok [("contig_3"%string, 1%float, 3); ("contig_1"%string, 0.4%float, 2)].
Proof. split; vm_compute; reflexivity. Qed.

(* ================================================================== *)
(** ** Detailed mode *)

Lemma insert_int_perm (x : Z) (l : list Z) : Permutation (insert_int x l) (x :: l).
Proof.
  induction l as [|y rest IH]; simpl; [reflexivity|].
  destruct (x <=? y); [reflexivity|]. rewrite IH. apply perm_swap.
Qed.

Lemma sorted_int_perm (l : list Z) : Permutation (sorted_int l) l.
Proof.
  induction l as [|x rest IH]; simpl; [reflexivity|].
  rewrite insert_int_perm. now constructor.
Qed.

Lemma positions_fold_track (tr : track) (acc : list Z) :
  let set := fold_left (fun acc' pt => set_add Z.eq_dec (position pt) acc') tr acc in
  (NoDup acc -> NoDup set)
  /\ forall p, In p set <-> In p acc \/ exists pt, In pt tr /\ position pt = p.
Proof.
  revert acc. induction tr as [|pt rest IH]; intros acc; simpl.
  - split; [auto|]. intros p. split; [auto|]. intros [H|[pt [[] _]]]. exact H.
  - destruct (IH (set_add Z.eq_dec (position pt) acc)) as [Hnd Hin]. split.
    + intros H. apply Hnd. now apply set_add_nodup.
    + intros p. rewrite Hin. rewrite set_add_iff. split.
      * intros [[Hp|Hp]|[pt' [Hpt' Hp]]]; eauto.
      * intros [Hp|[pt' [[Heq|Hpt'] Hp]]]; subst; eauto.
Qed.

Lemma positions_fold_store (contig_data : contig_cov) (acc : list Z) :
  let set := fold_left
               (fun acc (item : string * track) =>
                  fold_left (fun acc' pt => set_add Z.eq_dec (position pt) acc')
                    (snd item) acc)
               contig_data acc in
  (NoDup acc -> NoDup set)
  /\ forall p, In p set <-> In p acc \/ recorded_position contig_data p.
Proof.
  revert acc. induction contig_data as [|item rest IH]; intros acc; simpl.
  - split; [auto|]. intros p. split; [auto|].
    intros [H|[item [pt [[] _]]]]. exact H.
  - destruct (positions_fold_track (snd item) acc) as [Hnd1 Hin1].
    destruct (IH (fold_left (fun acc' pt => set_add Z.eq_dec (position pt) acc')
                    (snd item) acc)) as [Hnd Hin].
    split; [auto|].
    intros p. rewrite Hin, Hin1. unfold recorded_position. split.
    + intros [[Hp|[pt [Hpt Hp]]]|[it [pt [Hit [Hpt Hp]]]]].
      * now left.
      * right. exists item, pt. simpl. auto.
      * right. exists it, pt. simpl. auto.
    + intros [Hp|[it [pt [[Heq|Hit] [Hpt Hp]]]]].
      * auto.
      * subst it. left. right. eauto.
      * right. exists it, pt. auto.
Qed.

(** [all_positions] lists every recorded position once. *)
Lemma all_positions_distinct (contig_data : contig_cov) :
  NoDup (all_positions contig_data)
  /\ forall p, In p (all_positions contig_data) <-> recorded_position contig_data p.
Proof.
  unfold all_positions, all_positions_set.
  destruct (positions_fold_store contig_data []) as [Hnd Hin]. split.
  - eapply Permutation_NoDup; [apply Permutation_sym, sorted_int_perm|].
    apply Hnd. constructor.
  - intros p. split.
    + intros H. apply (Permutation_in _ (sorted_int_perm _)) in H.
      apply Hin in H. destruct H as [[]|H]. exact H.
    + intros H.
      apply (Permutation_in _ (Permutation_sym (sorted_int_perm _))).
      apply Hin. now right.
Qed.

Lemma detailed_num_segments_clamp (positions : list Z) :
  detailed_num_segments positions = clamp (len positions / 100) 3 10
  /\ 3 <= detailed_num_segments positions <= 10.
Proof.
  unfold detailed_num_segments, clamp.
  destruct (Z.min 10 (len positions / 100) <? 3) eqn:H;
    [apply Z.ltb_lt in H | apply Z.ltb_ge in H]; lia.
Qed.

Lemma detailed_report_total (contig_data : contig_cov)
    (num_segments segment_size contig_length : Z) (min_coverage : float)
    (l : list Z) (printed : list segment_report) :
  exists printed',
    for_each l printed
      (detailed_report_step contig_data num_segments segment_size contig_length
         min_coverage) = Ok printed'.
Proof.
  apply for_each_total. intros s seg_idx _. unfold detailed_report_step.
  destruct (segment_coverage_total contig_data (seg_start_of seg_idx segment_size)
              (seg_end_of seg_idx num_segments segment_size contig_length)
              min_coverage) as [d Hd].
  rewrite Hd. cbn [bind]. eauto.
Qed.

(** The detailed mode never raises, and reports the entries of the segments. *)
Lemma analyze_coverage_distribution_spec (coverage_data : coverage_store)
    (contig_name : string) (min_coverage : float) (contig_data : contig_cov) :
  dict_get coverage_data contig_name = Some contig_data ->
  let positions := all_positions contig_data in
  let contig_length := contig_length_of contig_data in
  let num_segments := detailed_num_segments positions in
  let segment_leaders :=
    segment_entries contig_data num_segments (contig_length / num_segments)
      contig_length min_coverage in
  exists printed,
    analyze_coverage_distribution coverage_data contig_name min_coverage
    = Ok (Some (mkAnalysis contig_length (len positions) num_segments
                  (contig_length / num_segments) printed segment_leaders
                  (unique_leader_count segment_leaders)
                  (assess_leaders (unique_leader_count segment_leaders)))).
Proof.
  intros Hget. cbv zeta. unfold analyze_coverage_distribution. rewrite Hget.
  fold (contig_length_of contig_data).
  set (n := detailed_num_segments (all_positions contig_data)).
  pose proof (proj2 (detailed_num_segments_clamp (all_positions contig_data))) as Hn.
  fold n in Hn. unfold int_floordiv.
  destruct (n =? 0) eqn:Hz; [apply Z.eqb_eq in Hz; lia|]. cbn [bind].
  destruct (detailed_report_total contig_data n (contig_length_of contig_data / n)
              (contig_length_of contig_data) min_coverage (range n) [])
    as [printed Hp].
  rewrite Hp. cbn [bind]. rewrite detailed_segment_leaders_spec. cbn [bind].
  now exists printed.
Qed.

(** C5: in the detailed mode the number of segments is
    [clamp(total_distinct_positions // 100, 3, 10)], hence between 3 and 10,
    whatever the number of distinct positions; the list of segment leaders has
    that many entries. *)
Theorem C5_detailed_segment_count (coverage_data : coverage_store)
    (contig_name : string) (min_coverage : float) (contig_data : contig_cov) :
  dict_get coverage_data contig_name = Some contig_data ->
  exists a,
    analyze_coverage_distribution coverage_data contig_name min_coverage
    = Ok (Some a)
    /\ NoDup (all_positions contig_data)
    /\ (forall p, In p (all_positions contig_data)
                  <-> recorded_position contig_data p)
    /\ an_positions a = len (all_positions contig_data)
    /\ an_num_segments a = clamp (an_positions a / 100) 3 10
    /\ 3 <= an_num_segments a <= 10
    /\ len (an_segment_leaders a) = an_num_segments a.
Proof.
  intros Hget.
  destruct (analyze_coverage_distribution_spec coverage_data contig_name
              min_coverage contig_data Hget) as [printed Ha].
  eexists. split; [exact Ha|]. cbn [an_positions an_num_segments an_segment_leaders].
  destruct (all_positions_distinct contig_data) as [Hnd Hin].
  destruct (detailed_num_segments_clamp (all_positions contig_data)) as [Hc Hb].
  repeat split; auto; try lia; try (now apply Hin).
  rewrite segment_entries_length. lia.
Qed.

Lemma C5_detailed_segment_count_witness :
  exists a,
    analyze_coverage_distribution store_end_point "contig_1"%string 10 = Ok (Some a)
    /\ an_positions a = 5
    /\ an_num_segments a = 3.
Proof.
  destruct (C5_detailed_segment_count store_end_point "contig_1"%string 10
              (snd (hd (""%string, []) store_end_point)) eq_refl)
    as [a [Ha [_ [_ [Hp [Hn _]]]]]].
  exists a. split; [exact Ha|].
  assert (Hp5 : an_positions a = 5) by (rewrite Hp; vm_compute; reflexivity).
  split; [exact Hp5|]. rewrite Hn, Hp5. reflexivity.
Defined.

(* ================================================================== *)
(** ** Contigs below the threshold everywhere *)

Lemma segment_below_no_candidate (contig_data : contig_cov) (seg_start seg_end : Z)
    (min_coverage : float) :
  segment_below contig_data seg_start seg_end min_coverage ->
  forall item, In item contig_data ->
    candidate_mean seg_start seg_end min_coverage item = None.
Proof.
  intros Hbelow item Hin. specialize (Hbelow item Hin). cbv zeta in Hbelow.
  unfold candidate_mean.
  destruct (0 <? snd (sample_sums (snd item) seg_start seg_end)) eqn:Hn;
    [|reflexivity].
  apply Z.ltb_lt in Hn. specialize (Hbelow Hn).
  unfold float_ge. now rewrite (FloatOrder.ltb_leb_false _ _ Hbelow).
Qed.

Lemma segment_below_no_leader (contig_data : contig_cov) (seg_start seg_end : Z)
    (min_coverage : float) :
  segment_below contig_data seg_start seg_end min_coverage ->
  leader_entry contig_data seg_start seg_end min_coverage = None.
Proof.
  intros Hbelow. unfold leader_entry.
  rewrite (segment_coverage_empty contig_data seg_start seg_end min_coverage
             (segment_below_no_candidate _ _ _ _ Hbelow)).
  reflexivity.
Qed.

Lemma map_none_repeat {A : Type} (f : A -> option string) (l : list A) :
  (forall x, In x l -> f x = None) -> map f l = repeat None (List.length l).
Proof.
  induction l as [|x rest IH]; intros H; simpl; [reflexivity|].
  rewrite (H x (or_introl eq_refl)), IH; [reflexivity|].
  intros y Hy. apply H. now right.
Qed.

Lemma all_below_entries (contig_data : contig_cov)
    (num_segments segment_size contig_length : Z) (min_coverage : float) :
  all_segments_below contig_data num_segments segment_size contig_length
    min_coverage ->
  segment_entries contig_data num_segments segment_size contig_length min_coverage
  = repeat None (Z.to_nat num_segments).
Proof.
  intros Hall. unfold segment_entries.
  rewrite map_none_repeat; [now rewrite range_length|].
  intros seg_idx Hin. apply segment_below_no_leader. now apply Hall.
Qed.

Lemma filter_is_leader_none (n : nat) : filter is_leader (repeat None n) = [].
Proof. induction n as [|n IH]; simpl; auto. Qed.

(** C3 (as amended): when every sample stays below the threshold in every
    segment, the screening of a contig of length at least 1000 finds no leader
    in any of the five segments, its list of segment leaders is empty, the
    number of distinct leaders is 0, and the contig is skipped: it adds no row
    and no score to the screening nor to the chimeric subset.  In the detailed
    mode the segment leaders are all [None] and the number of distinct leaders
    is 0. *)
Theorem C3_all_below_is_skipped (coverage_data : coverage_store)
    (contig_name : string) (contig_data : contig_cov) (min_coverage : float) :
  dict_get coverage_data contig_name = Some contig_data ->
  let contig_length := contig_length_of contig_data in
  let num_segments := detailed_num_segments (all_positions contig_data) in
  (1000 <= contig_length ->
   all_segments_below contig_data 5 (contig_length / 5) contig_length
     screening_min_coverage ->
   screening_entries contig_data = repeat None 5
   /\ (exists segment_leaders,
         screening_leaders_of contig_data = Ok segment_leaders
         /\ segment_leaders = []
         /\ unique_leader_count segment_leaders = 0)
   /\ (forall chimera_scores,
         quick_scan_step chimera_scores (contig_name, contig_data)
         = Ok chimera_scores)
   /\ (forall min_score chimeric_contigs,
         identify_step min_score chimeric_contigs (contig_name, contig_data)
         = Ok chimeric_contigs)
   /\ (dict_wf coverage_data ->
       exists rows,
         quick_chimera_scan coverage_data = Ok rows
         /\ forall r, In r rows -> row_contig r <> contig_name))
  /\ (all_segments_below contig_data num_segments (contig_length / num_segments)
        contig_length min_coverage ->
      exists a,
        analyze_coverage_distribution coverage_data contig_name min_coverage
        = Ok (Some a)
        /\ an_segment_leaders a = repeat None (Z.to_nat (an_num_segments a))
        /\ an_unique_leaders a = 0).
Proof.
  intros Hget. cbv zeta. split.
  - intros Hlen Hall.
    assert (Hentries : screening_entries contig_data = repeat None 5)
      by (unfold screening_entries; now rewrite all_below_entries).
    assert (Hrows : contig_rows (contig_name, contig_data) = []).
    { unfold contig_rows. cbn [snd]. rewrite Hentries, filter_is_leader_none.
      now rewrite orb_true_r. }
    split; [exact Hentries|]. split; [|split; [|split]].
    + rewrite screening_leaders_of_spec, Hentries, filter_is_leader_none.
      exists []. auto.
    + intros acc. rewrite quick_scan_step_spec, Hrows. now rewrite app_nil_r.
    + intros min_score acc. rewrite identify_step_spec, Hrows. cbn [filter map].
      now rewrite app_nil_r.
    + intros Hwf. rewrite quick_chimera_scan_spec. eexists. split; [reflexivity|].
      intros r Hin Hname. apply sorted_desc_in in Hin. apply in_flat_map in Hin.
      destruct Hin as [[name cd] [Hitem Hr]].
      pose proof (contig_rows_spec _ _ Hr) as Hspec. cbv zeta in Hspec.
      cbn [fst snd] in Hspec. destruct Hspec as [Hn _].
      assert (name = contig_name) by congruence. subst name.
      apply (dict_in_get _ _ _ Hwf) in Hitem.
      assert (cd = contig_data) by congruence. subst cd.
      rewrite Hname, Hrows in Hr. exact Hr.
  - intros Hall.
    destruct (analyze_coverage_distribution_spec coverage_data contig_name
                min_coverage contig_data Hget) as [printed Ha].
    eexists. split; [exact Ha|].
    cbn [an_segment_leaders an_num_segments an_unique_leaders].
    rewrite (all_below_entries _ _ _ _ _ Hall).
    split; [reflexivity | apply unique_leader_count_none].
Qed.

Lemma store_low_below :
  let contig_data := [("A"%string, [mkPoint 0 1; mkPoint 500 1; mkPoint 999 1;
                                    mkPoint 1000 1])] in
  all_segments_below contig_data 5 (contig_length_of contig_data / 5)
    (contig_length_of contig_data) screening_min_coverage.
Proof.
  cbv zeta. intros seg_idx Hidx item Hitem.
  assert (Hitem' : item = ("A"%string, [mkPoint 0 1; mkPoint 500 1; mkPoint 999 1;
                                        mkPoint 1000 1]))
    by (destruct Hitem as [H|[]]; now symmetry).
  subst item.
  vm_compute in Hidx.
  repeat (destruct Hidx as [Hidx|Hidx]; [subst seg_idx; vm_compute; try reflexivity;
                                         intros H; discriminate H|]).
  destruct Hidx.
Defined.

Lemma C3_all_below_is_skipped_witness :
  screening_leaders_of (snd (hd (""%string, []) store_low)) = Ok []
  /\ quick_chimera_scan store_low = Ok [].
Proof.
  destruct (C3_all_below_is_skipped store_low "contig_1"%string
              (snd (hd (""%string, []) store_low)) screening_min_coverage eq_refl)
    as [Hscreen _].
  destruct Hscreen as [_ [[l [Hl [Hnil _]]] _]].
  - vm_compute. discriminate.
  - exact store_low_below.
  - split; [now rewrite Hl, Hnil | vm_compute; reflexivity].
Defined.

(** C3 (as stated) fails on [store_low]: the contig has length 1000 and its
    only sample stays below the threshold in every segment, but the screening
    gives it no score at all, rather than a score of 0. *)
Lemma C3_counterexample :
  let contig_data := [("A"%string, [mkPoint 0 1; mkPoint 500 1; mkPoint 999 1;
                                    mkPoint 1000 1])] in
  store_low = [("contig_1"%string, contig_data)]
  /\ 1000 <= contig_length_of contig_data
  /\ all_segments_below contig_data 5 (contig_length_of contig_data / 5)
       (contig_length_of contig_data) screening_min_coverage
  /\ quick_chimera_scan store_low = Ok []
  /\ ~ (exists rows r,
          quick_chimera_scan store_low = Ok rows
          /\ In r rows
          /\ row_contig r = "contig_1"%string
          /\ row_score r = 0%float
          /\ row_unique_leaders r = 0).
Proof.
  cbv zeta. split; [reflexivity|]. split; [vm_compute; discriminate|].
  split; [exact store_low_below|]. split; [vm_compute; reflexivity|].
  intros [rows [r [Hscan [Hin _]]]].
  vm_compute in Hscan. inversion Hscan. subst rows. exact Hin.
Qed.

(* ================================================================== *)
(** ** Filtered visualization *)

Lemma mean_coverage_spec (coverage_points : track) :
  nonempty coverage_points = true ->
  mean_coverage coverage_points
  = Ok (PrimFloat.div (coverage_sum coverage_points)
          (float_of_int (len coverage_points))).
Proof.
  intros Hne. unfold mean_coverage, float_truediv, coverage_sum.
  destruct coverage_points as [|pt rest]; [discriminate|].
  unfold len. simpl List.length.
  destruct (Z.of_nat (S (List.length rest)) =? 0) eqn:Hz; [|reflexivity].
  apply Z.eqb_eq in Hz. lia.
Qed.


Lemma sample_stats_step_spec (min_mean_coverage : float)
    (sample_stats : list sample_stat) (item : string * track) :
  sample_stats_step min_mean_coverage sample_stats item
  = Ok (sample_stats ++ qualifying_stat min_mean_coverage item).
Proof.
  unfold sample_stats_step, qualifying_stat.
  destruct (nonempty (snd item)) eqn:Hne; cbn [andb].
  - rewrite (mean_coverage_spec _ Hne). cbn [bind].
    destruct (float_ge _ min_mean_coverage); [reflexivity | now rewrite app_nil_r].
  - now rewrite app_nil_r.
Qed.

Lemma sample_stats_of_spec (contig_data : contig_cov) (min_mean_coverage : float) :
  sample_stats_of contig_data min_mean_coverage
  = Ok (flat_map (qualifying_stat min_mean_coverage) contig_data).
Proof.
  unfold sample_stats_of.
  change (flat_map ?f ?l) with ([] ++ flat_map f l).
  apply for_each_append. intros acc item _. apply sample_stats_step_spec.
Qed.



Lemma slice_to_firstn {A : Type} (l : list A) (n : Z) :
  slice_to l n = firstn (slice_count l n) l.
Proof. unfold slice_to, slice_count. now destruct (0 <=? n). Qed.

Lemma slice_to_length {A : Type} (l : list A) (n : Z) :
  0 <= n -> len (slice_to l n) <= n.
Proof.
  intros Hn. unfold slice_to, len.
  destruct (0 <=? n) eqn:E; [|apply Z.leb_gt in E; lia].
  rewrite length_firstn. lia.
Qed.








Lemma top_samples_of_spec (contig_data : contig_cov) (min_mean_coverage : float)
    (max_samples : Z) :
  top_samples_of contig_data min_mean_coverage max_samples
  = Ok (slice_to
          (sorted_desc stat_mean
             (flat_map (qualifying_stat min_mean_coverage) contig_data))
          max_samples).
Proof. unfold top_samples_of. now rewrite sample_stats_of_spec. Qed.

Lemma filter_step_total (all_coverage_data : coverage_store)
    (min_mean_coverage : float) (max_samples : Z)
    (st : filter_state) (contig : string) :
  exists st',
    filter_step all_coverage_data min_mean_coverage max_samples st contig = Ok st'.
Proof.
  unfold filter_step. destruct (dict_get all_coverage_data contig); [|eauto].
  rewrite top_samples_of_spec. cbn [bind].
  destruct (nonempty _); eauto.
Qed.

(** The loop over [all_contigs] never raises. *)
Lemma filter_contigs_total (all_contigs : list string)
    (all_coverage_data : coverage_store) (min_mean_coverage : float)
    (max_samples : Z) :
  exists st,
    filter_contigs all_contigs all_coverage_data min_mean_coverage max_samples
    = Ok st.
Proof.
  unfold filter_contigs. apply for_each_total.
  intros s x _. apply filter_step_total.
Qed.


Lemma create_filtered_visualization_spec (all_contigs : list string)
    (all_coverage_data : coverage_store) (min_mean_coverage : float)
    (max_samples : Z) (st : filter_state) :
  filter_contigs all_contigs all_coverage_data min_mean_coverage max_samples
  = Ok st ->
  create_filtered_visualization all_contigs all_coverage_data min_mean_coverage
    max_samples
  = if fs_before st =? 0 then Raise ZeroDivisionError else Ok (fs_filtered st).
Proof.
  intros Hrun. unfold create_filtered_visualization. rewrite Hrun. cbn [bind].
  unfold int_truediv. now destruct (fs_before st =? 0).
Qed.



















Example filtered_two_leaders :
  create_filtered_visualization
    ["contig_3"; "contig_1"; "contig_9"]%string store_two_leaders 12 2
  = Ok [("contig_3"%string,
         [("C"%string, [mkPoint 0 0; mkPoint 400 0; mkPoint 800 70; mkPoint 2000 0]);
          ("B"%string, [mkPoint 0 0; mkPoint 400 60; mkPoint 800 0; mkPoint 2000 0])]);
        ("contig_1"%string,
         [("B"%string, [mkPoint 0 0; mkPoint 2000 0; mkPoint 4000 0; mkPoint 6000 80;
                        mkPoint 8000 80; mkPoint 10000 80]);
          ("A"%string, [mkPoint 0 50; mkPoint 2000 50; mkPoint 4000 50; mkPoint 6000 0;
                        mkPoint 8000 0; mkPoint 10000 0])])].
Proof. vm_compute. reflexivity. Qed.

Example filtered_no_contig_in_store :
  create_filtered_visualization ["contig_9"%string] store_two_leaders 12 2
  = Raise ZeroDivisionError.
Proof. vm_compute. reflexivity. Qed.

(* ================================================================== *)
(** ** Scenarios *)

(** A leads three segments of a contig of length 10000 and B the other two:
    two distinct leaders over five segments, score 0.4, likely genuine; the
    contig of length 500 is not scored; three leaders over three led segments
    score 1. *)
Example screening_two_leaders :
  screening_leaders_of (snd (hd (""%string, []) store_two_leaders))
  = Ok [Some "A"%string; Some "A"%string; Some "A"%string; Some "B"%string;
        Some "B"%string]
  /\ quick_chimera_scan store_two_leaders
     = Ok [mkRow "contig_3"%string 1%float 3 3;
           mkRow "contig_1"%string 0.4%float 2 5]
  /\ assess_score 0.4%float = LikelyGenuine
  /\ assess_score 1%float = LikelyChimeric.
Proof. vm_compute. repeat split; reflexivity. Qed.

(** The detailed mode on the same contig: six positions give three segments,
    led by A, B and B. *)
Example detailed_two_leaders :
  match analyze_coverage_distribution store_two_leaders "contig_1"%string
          default_min_coverage with
  | Ok (Some a) =>
      an_contig_length a = 10000
      /\ an_positions a = 6
      /\ an_num_segments a = 3
      /\ an_segment_size a = 3333
      /\ an_segment_leaders a = [Some "A"%string; Some "B"%string; Some "B"%string]
      /\ an_unique_leaders a = 2
      /\ an_assessment a = LikelyGenuine
  | _ => False
  end.
Proof. vm_compute. repeat split; reflexivity. Qed.

(* ================================================================== *)
(** ** Further properties of the segmenter *)

Lemma in_range_iff (n i : Z) : In i (range n) <-> 0 <= i < n.
Proof.
  unfold range. rewrite in_map_iff. split.
  - intros [k [<- Hk]]. apply in_seq in Hk. lia.
  - intros H. exists (Z.to_nat i). split; [lia|]. apply in_seq. lia.
Qed.

(** X1: with [segment_size = contig_length // num_segments], every position
    from 0 up to, but not including, [contig_length] lies in exactly one of the
    [num_segments] segments. *)
Theorem X1_segments_partition (num_segments contig_length : Z) (pt : point) :
  1 <= num_segments -> 0 <= contig_length ->
  0 <= position pt < contig_length ->
  let segment_size := contig_length / num_segments in
  exists seg_idx,
    In seg_idx (range num_segments)
    /\ in_segment (seg_start_of seg_idx segment_size)
         (seg_end_of seg_idx num_segments segment_size contig_length) pt = true
    /\ forall other,
         In other (range num_segments) ->
         in_segment (seg_start_of other segment_size)
           (seg_end_of other num_segments segment_size contig_length) pt = true ->
         other = seg_idx.
Proof.
  intros Hn HL Hp. cbv zeta.
  set (s := contig_length / num_segments).
  assert (Hs : 0 <= s) by (apply Z.div_pos; lia).
  assert (Hsn : num_segments * s <= contig_length)
    by (unfold s; apply Z.mul_div_le; lia).
  assert (Hcase : forall i, In i (range num_segments) ->
            (in_segment (seg_start_of i s)
               (seg_end_of i num_segments s contig_length) pt = true
             <-> (i < num_segments - 1 /\ i * s <= position pt < (i + 1) * s)
                 \/ (i = num_segments - 1 /\ i * s <= position pt < contig_length))).
  { intros i Hi. apply in_range_iff in Hi. rewrite in_segment_spec.
    unfold seg_start_of, seg_end_of.
    destruct (i <? num_segments - 1) eqn:E;
      [apply Z.ltb_lt in E | apply Z.ltb_ge in E]; split; intros H; lia. }
  destruct (Z_lt_le_dec (position pt) ((num_segments - 1) * s)) as [Hin|Hlast].
  - (* an inner segment: s is positive and the index is position // s *)
    assert (Hspos : 0 < s) by nia.
    set (i := position pt / s).
    assert (Hi : i * s <= position pt < (i + 1) * s).
    { unfold i. pose proof (Z.mul_div_le (position pt) s Hspos).
      pose proof (Z.mul_succ_div_gt (position pt) s Hspos). lia. }
    assert (Hi0 : 0 <= i) by (unfold i; apply Z.div_pos; lia).
    assert (Hilt : i < num_segments - 1) by nia.
    assert (Hir : In i (range num_segments)) by (apply in_range_iff; lia).
    exists i. split; [exact Hir|]. split.
    + apply (Hcase i Hir). left. lia.
    + intros j Hj Hseg. apply (Hcase j Hj) in Hseg. apply in_range_iff in Hj.
      destruct Hseg as [[Hj1 Hj2]|[Hj1 Hj2]]; nia.
  - assert (Hir : In (num_segments - 1) (range num_segments))
      by (apply in_range_iff; lia).
    exists (num_segments - 1). split; [exact Hir|]. split.
    + apply (Hcase _ Hir). right. lia.
    + intros j Hj Hseg. apply (Hcase j Hj) in Hseg. apply in_range_iff in Hj.
      destruct Hseg as [[Hj1 Hj2]|[Hj1 Hj2]]; [nia | lia].
Qed.

Lemma X1_segments_partition_witness :
  exists seg_idx,
    In seg_idx (range 5)
    /\ in_segment (seg_start_of seg_idx 200) (seg_end_of seg_idx 5 200 1003)
         (mkPoint 1002 7) = true.
Proof.
  destruct (X1_segments_partition 5 1003 (mkPoint 1002 7)) as [i [Hi [Hseg _]]];
    [lia | lia | simpl; lia |].
  exists i. split; [exact Hi | exact Hseg].
Defined.

(* ================================================================== *)
(** ** More on the order of floats *)

Module FloatOrderFacts.

Lemma SFltb_trans (a b c : spec_float) :
  SFltb a b = true -> SFltb b c = true -> SFltb a c = true.
Proof.
  unfold SFltb.
  destruct a as [[]|[]| |[] ma ea], b as [[]|[]| |[] mb eb], c as [[]|[]| |[] mc ec];
    simpl; try reflexivity; try discriminate;
    fold (Pos.compare ma mb); fold (Pos.compare mb mc); fold (Pos.compare ma mc);
    destruct (Z.compare_spec ea eb); destruct (Z.compare_spec eb ec);
    destruct (Z.compare_spec ea ec); simpl; try reflexivity; try discriminate; try lia;
    destruct (Pos.compare_spec ma mb); destruct (Pos.compare_spec mb mc);
    destruct (Pos.compare_spec ma mc); simpl; try reflexivity; try discriminate; try lia.
Qed.

Lemma ltb_trans (x y z : float) :
  PrimFloat.ltb x y = true -> PrimFloat.ltb y z = true -> PrimFloat.ltb x z = true.
Proof. rewrite !ltb_spec. apply SFltb_trans. Qed.

Lemma leb_ltb_false (x y : float) :
  PrimFloat.leb y x = true -> PrimFloat.ltb x y = false.
Proof.
  intros H. destruct (PrimFloat.ltb x y) eqn:E; [|reflexivity].
  apply FloatOrder.ltb_leb_false in E. congruence.
Qed.

Lemma ltb_irrefl (x : float) : PrimFloat.ltb x x = false.
Proof.
  rewrite ltb_spec. unfold SFltb. rewrite FloatOrder.SFcompare_refl.
  now destruct (Prim2SF x).
Qed.

End FloatOrderFacts.

(* ================================================================== *)
(** ** The leader of a segment *)

Section MaxBy.
Context {A : Type}.
Variable key : A -> float.

Lemma insert_desc_head (x : A) (l : list A) :
  hd_error (insert_desc key x l)
  = Some match l with
         | [] => x
         | y :: _ => if PrimFloat.ltb (key x) (key y) then y else x
         end.
Proof. destruct l as [|y rest]; simpl; [|destruct (PrimFloat.ltb _ _)]; reflexivity. Qed.

Lemma sorted_desc_numbers (l : list A) :
  Forall (fun x => is_number (key x) = true) l ->
  Forall (fun x => is_number (key x) = true) (sorted_desc key l).
Proof.
  intros H. eapply Permutation_Forall; [|exact H].
  apply Permutation_sym, sorted_desc_perm.
Qed.

(** The loop of [max] ends on the head of the stable descending sort. *)
Lemma max_fold_head (rest : list A) (best : A) :
  Forall (fun x => is_number (key x) = true) (best :: rest) ->
  hd_error (sorted_desc key (best :: rest))
  = Some (fold_left
            (fun best item => if float_gt (key item) (key best) then item else best)
            rest best).
Proof.
  revert best. induction rest as [|y t IH]; intros best Hnum; [reflexivity|].
  inversion Hnum as [|? ? Hb Hrest]. subst.
  inversion Hrest as [|? ? Hy Ht]. subst.
  cbn [fold_left]. unfold float_gt at 2.
  rewrite <- IH.
  2:{ constructor; [destruct (PrimFloat.ltb (key best) (key y)); assumption | exact Ht]. }
  cbn [sorted_desc fold_right]. fold (sorted_desc key t).
  pose proof (sorted_desc_numbers t Ht) as HT.
  rewrite !insert_desc_head.
  destruct (sorted_desc key t) as [|M T'] eqn:ET; cbn [insert_desc].
  - now destruct (PrimFloat.ltb (key best) (key y)).
  - inversion HT as [|? ? HM _]. subst.
    destruct (PrimFloat.ltb (key y) (key M)) eqn:HyM;
      destruct (PrimFloat.ltb (key best) (key y)) eqn:Hby; rewrite ?HyM, ?Hby.
    + now rewrite (FloatOrderFacts.ltb_trans _ _ _ Hby HyM).
    + reflexivity.
    + reflexivity.
    + assert (HMb : PrimFloat.leb (key M) (key best) = true).
      { apply (FloatOrder.leb_trans _ (key y)).
        - now apply FloatOrder.leb_total.
        - now apply FloatOrder.leb_total. }
      now rewrite (FloatOrderFacts.leb_ltb_false _ _ HMb).
Qed.

Lemma max_by_head (l : list A) :
  Forall (fun x => is_number (key x) = true) l ->
  max_by key l
  = match hd_error (sorted_desc key l) with
    | Some x => Ok x
    | None => Raise ValueError
    end.
Proof.
  intros H. destruct l as [|first rest]; [reflexivity|].
  rewrite (max_fold_head rest first H). reflexivity.
Qed.

Lemma sorted_desc_head_max (l : list A) (m : A) :
  Forall (fun x => is_number (key x) = true) l ->
  hd_error (sorted_desc key l) = Some m ->
  In m l /\ forall x, In x l -> float_ge (key m) (key x) = true.
Proof.
  intros Hnum Hhd.
  pose proof (sorted_desc_sorted key l Hnum) as Hs.
  pose proof (sorted_desc_numbers l Hnum) as Hn.
  destruct (sorted_desc key l) as [|h t] eqn:E; [discriminate|].
  inversion Hhd. subst h.
  assert (Hin : forall x, In x l <-> In x (m :: t))
    by (intros x; rewrite <- E; symmetry; apply sorted_desc_in).
  split; [apply Hin; now left|].
  intros x Hx. apply Hin in Hx. destruct Hx as [<-|Hx].
  - inversion Hn. assumption.
  - inversion Hs as [|? ? _ Hall]. subst. rewrite Forall_forall in Hall. now apply Hall.
Qed.
End MaxBy.

Lemma dict_set_keys_in {V : Type} (d : dict V) (k k0 : string) (v : V) :
  In k0 (dict_keys (dict_set d k v)) -> k0 = k \/ In k0 (dict_keys d).
Proof.
  unfold dict_keys. induction d as [|[k' v'] rest IH]; simpl.
  - intros [H|[]]. now left.
  - destruct (String.eqb k k'); simpl; intros [H|H]; auto.
    destruct (IH H); auto.
Qed.

Lemma dict_set_wf {V : Type} (d : dict V) (k : string) (v : V) :
  dict_wf d -> dict_wf (dict_set d k v).
Proof.
  unfold dict_wf. induction d as [|[k' v'] rest IH]; simpl; intros Hwf.
  - constructor; [intros [] | constructor].
  - inversion Hwf as [|? ? Hnotin Hrest]. subst.
    destruct (String.eqb k k') eqn:E; simpl; [now constructor|].
    constructor; [|now apply IH].
    intros Hin. apply dict_set_keys_in in Hin. destruct Hin as [Hin|Hin]; [|auto].
    subst k'. now rewrite String.eqb_refl in E.
Qed.

Lemma segment_coverage_wf (contig_data : contig_cov) (seg_start seg_end : Z)
    (min_coverage : float) (d : dict float) :
  segment_coverage_of contig_data seg_start seg_end min_coverage = Ok d ->
  dict_wf d.
Proof.
  unfold segment_coverage_of.
  apply (for_each_invariant (add_candidate seg_start seg_end min_coverage) dict_wf).
  - intros s item s' _ Hwf Hstep. rewrite add_candidate_candidate in Hstep.
    inversion Hstep.
    destruct (candidate_mean seg_start seg_end min_coverage item);
      [now apply dict_set_wf | exact Hwf].
  - constructor.
Qed.

(** Every item of [segment_coverage] is a sample of the contig with a point in
    the segment and a mean of at least [min_coverage]. *)
Lemma segment_coverage_items (contig_data : contig_cov) (seg_start seg_end : Z)
    (min_coverage : float) (d : dict float) (item : string * float) :
  segment_coverage_of contig_data seg_start seg_end min_coverage = Ok d ->
  In item d ->
  dict_get d (fst item) = Some (snd item)
  /\ float_ge (snd item) min_coverage = true
  /\ exists tr,
       In (fst item, tr) contig_data
       /\ float_truediv (coverage_sum (points_in tr seg_start seg_end))
            (len (points_in tr seg_start seg_end)) = Ok (snd item).
Proof.
  intros Hd Hin. destruct item as [sample mean_cov]. cbn [fst snd].
  pose proof (dict_in_get d sample mean_cov (segment_coverage_wf _ _ _ _ _ Hd) Hin)
    as Hget.
  destruct (segment_coverage_entries _ _ _ _ _ Hd _ _ Hget) as [tr [Htr Hc]].
  destruct (candidate_mean_spec _ _ _ _ _ Hc) as [_ [Hdiv Hge]].
  split; [exact Hget|]. split; [exact Hge|]. now exists tr.
Qed.

Lemma segment_coverage_numbers (contig_data : contig_cov) (seg_start seg_end : Z)
    (min_coverage : float) (d : dict float) :
  segment_coverage_of contig_data seg_start seg_end min_coverage = Ok d ->
  Forall (fun item : string * float => is_number (snd item) = true) d.
Proof.
  intros Hd. apply Forall_forall. intros item Hin.
  destruct (segment_coverage_items _ _ _ _ _ item Hd Hin) as [_ [Hge _]].
  unfold float_ge in Hge. now apply FloatOrder.leb_numbers in Hge.
Qed.

(** X2: the leader of a segment is a sample of the contig that has a point in
    the segment; its mean there reaches [min_coverage] and is at least the mean
    of every other candidate; among candidates of equal highest mean it is the
    one that comes first in the store, being the head of the stable descending
    sort of the candidates. *)
Theorem X2_leader_has_highest_mean (contig_data : contig_cov)
    (seg_start seg_end : Z) (min_coverage : float) (segment_coverage : dict float) :
  segment_coverage_of contig_data seg_start seg_end min_coverage
  = Ok segment_coverage ->
  nonempty segment_coverage = true ->
  exists leader,
    leader_of segment_coverage = Ok leader
    /\ hd_error (sorted_desc (fun item : string * float => snd item) segment_coverage)
       = Some leader
    /\ float_ge (snd leader) min_coverage = true
    /\ (exists tr,
          In (fst leader, tr) contig_data
          /\ float_truediv (coverage_sum (points_in tr seg_start seg_end))
               (len (points_in tr seg_start seg_end)) = Ok (snd leader))
    /\ forall sample mean_cov,
         dict_get segment_coverage sample = Some mean_cov ->
         float_ge (snd leader) mean_cov = true.
Proof.
  intros Hd Hne.
  pose proof (segment_coverage_numbers _ _ _ _ _ Hd) as Hnum.
  destruct (leader_of_total _ Hne) as [leader Hl].
  exists leader. split; [exact Hl|].
  unfold leader_of in Hl.
  rewrite (max_by_head (fun item : string * float => snd item) _ Hnum) in Hl.
  destruct (hd_error (sorted_desc (fun item : string * float => snd item)
                        segment_coverage)) as [m|] eqn:Hhd; [|discriminate].
  inversion Hl. subst m. split; [reflexivity|].
  destruct (sorted_desc_head_max (fun item : string * float => snd item) _ _
              Hnum Hhd) as [Hin Hmax].
  destruct (segment_coverage_items _ _ _ _ _ leader Hd Hin) as [_ [Hge Htr]].
  split; [exact Hge|]. split; [exact Htr|].
  intros sample mean_cov Hget.
  apply (Hmax (sample, mean_cov)).
  clear - Hget. induction segment_coverage as [|[k v] rest IH]; [discriminate|].
  simpl in Hget. destruct (String.eqb sample k) eqn:E.
  - apply String.eqb_eq in E. inversion Hget. subst. now left.
  - right. now apply IH.
Qed.

Lemma X2_leader_has_highest_mean_witness :
  exists leader,
    leader_of [("B"%string, 15%float); ("C"%string, 17.5%float)] = Ok leader
    /\ float_ge (snd leader) 15 = true.
Proof.
  destruct (X2_leader_has_highest_mean
              [("A"%string, [mkPoint 0 50; mkPoint 400 0; mkPoint 800 0; mkPoint 2000 0]);
               ("B"%string, [mkPoint 0 0; mkPoint 400 60; mkPoint 800 0; mkPoint 2000 0]);
               ("C"%string, [mkPoint 0 0; mkPoint 400 0; mkPoint 800 70; mkPoint 2000 0])]
              0 3000 15 [("B"%string, 15%float); ("C"%string, 17.5%float)])
    as [leader [Hl [_ [Hge _]]]].
  - vm_compute. reflexivity.
  - reflexivity.
  - exists leader. split; [exact Hl | exact Hge].
Defined.

(* ================================================================== *)
(** ** The report of the detailed mode *)

Lemma detailed_report_step_spec (contig_data : contig_cov)
    (num_segments segment_size contig_length : Z) (min_coverage : float)
    (printed : list segment_report) (seg_idx : Z) :
  detailed_report_step contig_data num_segments segment_size contig_length
    min_coverage printed seg_idx
  = Ok (printed
          ++ [segment_report_of contig_data num_segments segment_size contig_length
                min_coverage seg_idx]).
Proof.
  unfold detailed_report_step, segment_report_of.
  destruct (segment_coverage_total contig_data (seg_start_of seg_idx segment_size)
              (seg_end_of seg_idx num_segments segment_size contig_length)
              min_coverage) as [d Hd].
  now rewrite Hd.
Qed.

(** Everything the detailed mode reports, for a contig of the store. *)
Lemma analyze_coverage_distribution_report (coverage_data : coverage_store)
    (contig_name : string) (min_coverage : float) (contig_data : contig_cov) :
  dict_get coverage_data contig_name = Some contig_data ->
  let positions := all_positions contig_data in
  let contig_length := contig_length_of contig_data in
  let num_segments := detailed_num_segments positions in
  let segment_size := contig_length / num_segments in
  let segment_leaders :=
    segment_entries contig_data num_segments segment_size contig_length
      min_coverage in
  analyze_coverage_distribution coverage_data contig_name min_coverage
  = Ok (Some (mkAnalysis contig_length (len positions) num_segments segment_size
                (map (segment_report_of contig_data num_segments segment_size
                        contig_length min_coverage) (range num_segments))
                segment_leaders
                (unique_leader_count segment_leaders)
                (assess_leaders (unique_leader_count segment_leaders)))).
Proof.
  intros Hget. cbv zeta. unfold analyze_coverage_distribution. rewrite Hget.
  fold (contig_length_of contig_data).
  set (n := detailed_num_segments (all_positions contig_data)).
  pose proof (proj2 (detailed_num_segments_clamp (all_positions contig_data))) as Hn.
  fold n in Hn. unfold int_floordiv.
  destruct (n =? 0) eqn:Hz; [apply Z.eqb_eq in Hz; lia|]. cbn [bind].
  rewrite (for_each_append
             (detailed_report_step contig_data n (contig_length_of contig_data / n)
                (contig_length_of contig_data) min_coverage)
             (fun seg_idx =>
                [segment_report_of contig_data n (contig_length_of contig_data / n)
                   (contig_length_of contig_data) min_coverage seg_idx]))
    by (intros acc seg_idx _; apply detailed_report_step_spec).
  cbn [bind app]. rewrite flat_map_singleton, detailed_segment_leaders_spec.
  reflexivity.
Qed.

Lemma nth_error_range (n : Z) (k : nat) (i : Z) :
  nth_error (range n) k = Some i -> i = Z.of_nat k /\ 0 <= i < n.
Proof.
  unfold range. intros H.
  destruct (nth_error (seq 0 (Z.to_nat n)) k) as [j|] eqn:E;
    [|rewrite (nth_error_map Z.of_nat k (seq 0 (Z.to_nat n))), E in H; discriminate].
  rewrite (nth_error_map Z.of_nat k (seq 0 (Z.to_nat n))), E in H.
  inversion H. subst i.
  assert (Hk : (k < List.length (seq 0 (Z.to_nat n)))%nat)
    by (apply nth_error_Some; congruence).
  rewrite length_seq in Hk.
  apply nth_error_nth with (d := 0%nat) in E. rewrite seq_nth in E by exact Hk.
  subst j. simpl. lia.
Qed.

Lemma in_firstn {A : Type} (k : nat) (l : list A) (x : A) :
  In x (firstn k l) -> In x l.
Proof.
  intros H. rewrite <- (firstn_skipn k l). apply in_or_app. now left.
Qed.

Lemma strongly_sorted_firstn {A : Type} (R : A -> A -> Prop) (k : nat) (l : list A) :
  StronglySorted R l -> StronglySorted R (firstn k l).
Proof.
  revert l. induction k as [|k IH]; intros l Hs; [constructor|].
  destruct l as [|x rest]; [constructor|]. simpl.
  inversion Hs as [|? ? Hrest Hall]. subst. constructor; [now apply IH|].
  rewrite Forall_forall in *. intros y Hy. apply Hall.
  now apply (in_firstn k).
Qed.

Lemma slice_to_head {A : Type} (l : list A) (n : Z) :
  0 < n -> hd_error (slice_to l n) = hd_error l.
Proof.
  intros Hn. unfold slice_to.
  destruct (0 <=? n) eqn:E; [|apply Z.leb_gt in E; lia].
  destruct (Z.to_nat n) as [|k] eqn:Ek; [lia|]. now destruct l.
Qed.

Lemma leader_entry_head (contig_data : contig_cov) (seg_start seg_end : Z)
    (min_coverage : float) (d : dict float) :
  segment_coverage_of contig_data seg_start seg_end min_coverage = Ok d ->
  leader_entry contig_data seg_start seg_end min_coverage
  = option_map fst (hd_error (sorted_desc (fun item : string * float => snd item) d)).
Proof.
  intros Hd. unfold leader_entry, leader_of. rewrite Hd.
  rewrite (max_by_head (fun item : string * float => snd item) _
             (segment_coverage_numbers _ _ _ _ _ Hd)).
  now destruct (hd_error _).
Qed.

(** X3: the detailed mode reports one leaderboard per segment, on the bounds
    of that segment; a leaderboard has at most five samples, every one with a
    mean of at least [min_coverage], in descending order of mean, and the leader
    the second loop finds for the segment is the first sample of its
    leaderboard ([None] for an empty one). *)
Theorem X3_leaderboard_of_segment (coverage_data : coverage_store)
    (contig_name : string) (min_coverage : float) (contig_data : contig_cov) :
  dict_get coverage_data contig_name = Some contig_data ->
  exists a,
    analyze_coverage_distribution coverage_data contig_name min_coverage
    = Ok (Some a)
    /\ len (an_segments a) = an_num_segments a
    /\ forall k rep,
         nth_error (an_segments a) k = Some rep ->
         sr_start rep = Z.of_nat k * an_segment_size a
         /\ sr_end rep
            = seg_end_of (Z.of_nat k) (an_num_segments a) (an_segment_size a)
                (an_contig_length a)
         /\ len (sr_top_samples rep) <= 5
         /\ descending (fun item : string * float => snd item) (sr_top_samples rep)
         /\ (forall item, In item (sr_top_samples rep) ->
               float_ge (snd item) min_coverage = true)
         /\ nth_error (an_segment_leaders a) k
            = Some (option_map fst (hd_error (sr_top_samples rep))).
Proof.
  intros Hget. eexists. split.
  { exact (analyze_coverage_distribution_report coverage_data contig_name
             min_coverage contig_data Hget). }
  cbn [an_segments an_num_segments an_segment_size an_contig_length
       an_segment_leaders].
  set (L := contig_length_of contig_data).
  set (n := detailed_num_segments (all_positions contig_data)).
  split.
  { unfold len. rewrite length_map, range_length.
    pose proof (proj2 (detailed_num_segments_clamp (all_positions contig_data))).
    fold n in H. lia. }
  intros k rep Hnth.
  rewrite nth_error_map in Hnth.
  destruct (nth_error (range n) k) as [i|] eqn:Hi; [|discriminate].
  inversion Hnth as [Hrep]. clear Hnth.
  destruct (nth_error_range _ _ _ Hi) as [Hik _]. subst i.
  unfold segment_entries. rewrite nth_error_map, Hi. cbn [option_map].
  unfold segment_report_of. cbn [sr_start sr_end sr_top_samples].
  destruct (segment_coverage_total contig_data (seg_start_of (Z.of_nat k) (L / n))
              (seg_end_of (Z.of_nat k) n (L / n) L) min_coverage) as [d Hd].
  rewrite Hd.
  pose proof (segment_coverage_numbers _ _ _ _ _ Hd) as Hnum.
  split; [reflexivity|]. split; [reflexivity|].
  split; [apply slice_to_length; lia|]. split; [|split].
  - apply StronglySorted_Sorted. rewrite slice_to_firstn.
    apply strongly_sorted_firstn.
    exact (sorted_desc_sorted (fun item : string * float => snd item) d Hnum).
  - intros item Hin. rewrite slice_to_firstn in Hin. apply in_firstn in Hin.
    apply sorted_desc_in in Hin.
    now destruct (segment_coverage_items _ _ _ _ _ item Hd Hin) as [_ [Hge _]].
  - rewrite slice_to_head by lia. f_equal. now apply leader_entry_head.
Qed.

Lemma X3_leaderboard_of_segment_witness :
  exists a,
    analyze_coverage_distribution store_two_leaders "contig_1"%string
      default_min_coverage = Ok (Some a)
    /\ len (an_segments a) = an_num_segments a.
Proof.
  destruct (X3_leaderboard_of_segment store_two_leaders "contig_1"%string
              default_min_coverage (snd (hd (""%string, []) store_two_leaders))
              eq_refl) as [a [Ha [Hlen _]]].
  exists a. split; [exact Ha | exact Hlen].
Defined.


(* ================================================================== *)
(** ** Distinct leaders and scores *)

Lemma unique_fold_spec (l : list (option string)) (acc : list string) :
  let set := fold_left
               (fun acc leader =>
                  match leader with
                  | Some s => set_add string_dec s acc
                  | None => acc
                  end) l acc in
  (NoDup acc -> NoDup set)
  /\ forall s, In s set <-> In s acc \/ In (Some s) l.
Proof.
  revert acc. induction l as [|[x|] rest IH]; intros acc; simpl.
  - split; [auto|]. intros s. tauto.
  - destruct (IH (set_add string_dec x acc)) as [Hnd Hin]. split.
    + intros H. apply Hnd. now apply set_add_nodup.
    + intros s. rewrite Hin, set_add_iff. split.
      * intros [[H|H]|H]; subst; auto.
      * intros [H|[H|H]]; auto. inversion H. auto.
  - destruct (IH acc) as [Hnd Hin]. split; [exact Hnd|].
    intros s. rewrite Hin. split; [tauto|]. intros [H|[H|H]]; auto. discriminate.
Qed.

(** X5: the set of leaders holds each name that leads a segment once, and
    nothing else: [None] entries and repetitions do not count. *)
Theorem X5_unique_leaders_are_the_distinct_names (segment_leaders : list (option string)) :
  NoDup (unique_leader_set segment_leaders)
  /\ (forall s, In s (unique_leader_set segment_leaders)
                <-> In (Some s) segment_leaders)
  /\ unique_leader_count segment_leaders = len (unique_leader_set segment_leaders)
  /\ unique_leader_count (filter is_leader segment_leaders)
     = unique_leader_count segment_leaders.
Proof.
  destruct (unique_fold_spec segment_leaders []) as [Hnd Hin].
  split; [apply Hnd; constructor|]. split.
  - intros s. unfold unique_leader_set. rewrite (Hin s). simpl. tauto.
  - split; [reflexivity|]. unfold unique_leader_count.
    now rewrite unique_leader_set_filter.
Qed.

Lemma all_leaders_names (l : list (option string)) :
  Forall (fun leader => leader <> None) l ->
  exists names, l = map Some names.
Proof.
  induction 1 as [|[s|] rest Hx _ [names IH]]; [now exists [] | | congruence].
  exists (s :: names). simpl. now rewrite IH.
Qed.

Lemma nodup_map_some (names : list string) :
  NoDup (map Some names) <-> NoDup names.
Proof.
  induction names as [|x rest IH]; simpl; split; intros H; try constructor;
    inversion H as [|? ? Hnot Hrest]; subst.
  - intros Hx. apply Hnot. now apply in_map.
  - now apply IH.
  - intros Hx. apply in_map_iff in Hx. destruct Hx as [y [Hy Hin]].
    inversion Hy. now subst.
  - now apply IH.
Qed.

(** Without [None] entries, as many distinct leaders as entries means that no
    name leads two segments. *)
Lemma unique_count_full (l : list (option string)) :
  Forall (fun leader => leader <> None) l ->
  (unique_leader_count l = len l <-> NoDup l).
Proof.
  intros Hall. destruct (all_leaders_names l Hall) as [names ->].
  destruct (unique_fold_spec (map Some names) []) as [Hnd Hin].
  specialize (Hnd (NoDup_nil _)). cbv zeta in Hnd, Hin.
  fold (unique_leader_set (map Some names)) in Hnd, Hin.
  assert (Hsame : forall s, In s (unique_leader_set (map Some names)) <-> In s names).
  { intros s. rewrite Hin. simpl. rewrite in_map_iff. split.
    - intros [[]|[x [Hx Hi]]]. inversion Hx. now subst.
    - intros H. right. now exists s. }
  unfold unique_leader_count, len. rewrite length_map. split.
  - intros Hlen. apply nodup_map_some.
    apply (NoDup_incl_NoDup Hnd); [lia | intros s Hs; now apply Hsame].
  - intros Hnodup. apply nodup_map_some in Hnodup.
    assert (H1 : (List.length names <= List.length (unique_leader_set (map Some names)))%nat)
      by (apply NoDup_incl_length; [exact Hnodup | intros s Hs; now apply Hsame]).
    assert (H2 : (List.length (unique_leader_set (map Some names)) <= List.length names)%nat)
      by (apply NoDup_incl_length; [exact Hnd | intros s Hs; now apply Hsame]).
    lia.
Qed.

Lemma unit_ratio (k n : Z) :
  1 <= k <= n -> n <= 5 ->
  (PrimFloat.div (float_of_int k) (float_of_int n) = 1%float <-> k = n).
Proof.
  intros Hk Hn.
  assert (Hn' : n = 1 \/ n = 2 \/ n = 3 \/ n = 4 \/ n = 5) by lia.
  assert (Hk' : k = 1 \/ k = 2 \/ k = 3 \/ k = 4 \/ k = 5) by lia.
  repeat (destruct Hn' as [Hn'|Hn']); subst n;
    repeat (destruct Hk' as [Hk'|Hk']); subst k; try lia;
    split; intros H; try reflexivity; try lia;
    apply (f_equal (fun x => PrimFloat.eqb x 1%float)) in H;
    vm_compute in H; discriminate H.
Qed.

(** X6: a row of the screening has the score 1.0 exactly when the leaders of
    its segments are pairwise distinct. *)
Theorem X6_score_one_iff_distinct_leaders (coverage_data : coverage_store)
    (rows : list score_row) (r : score_row) :
  quick_chimera_scan coverage_data = Ok rows -> In r rows ->
  exists contig_data segment_leaders,
    In (row_contig r, contig_data) coverage_data
    /\ screening_leaders_of contig_data = Ok segment_leaders
    /\ (row_score r = 1%float <-> NoDup segment_leaders).
Proof.
  rewrite quick_chimera_scan_spec. intros H Hin. inversion H. subst rows. clear H.
  apply sorted_desc_in in Hin.
  destruct (row_account _ _ Hin)
    as [contig_data [Hitem [_ [Hl [Hu [Hs [Hb [H5 Hdiv]]]]]]]].
  exists contig_data, (filter is_leader (screening_entries contig_data)).
  split; [exact Hitem|]. split; [exact Hl|].
  unfold int_truediv in Hdiv.
  destruct (row_segments r =? 0); [discriminate|]. inversion Hdiv as [Hscore].
  rewrite (unit_ratio _ _ Hb H5).
  rewrite <- (unique_count_full _ (filter_is_leader_all (screening_entries contig_data))).
  rewrite Hu, Hs. unfold unique_leader_count. now rewrite unique_leader_set_filter.
Qed.

Lemma X6_score_one_iff_distinct_leaders_witness :
  exists contig_data segment_leaders,
    In ("contig_3"%string, contig_data) store_two_leaders
    /\ screening_leaders_of contig_data = Ok segment_leaders
    /\ (1%float = 1%float <-> NoDup segment_leaders).
Proof.
  apply (X6_score_one_iff_distinct_leaders store_two_leaders
           [mkRow "contig_3"%string 1%float 3 3;
            mkRow "contig_1"%string 0.4%float 2 5]
           (mkRow "contig_3"%string 1%float 3 3)).
  - vm_compute. reflexivity.
  - now left.
Defined.

(* ================================================================== *)
(** ** The result of the screening as a whole *)

Lemma contig_rows_names (item : string * contig_cov) (r : score_row) :
  In r (contig_rows item) -> row_contig r = fst item.
Proof. intros H. now destruct (contig_rows_spec _ _ H) as [Hn _]. Qed.

Lemma contig_rows_short (item : string * contig_cov) :
  (List.length (contig_rows item) <= 1)%nat.
Proof.
  unfold contig_rows. destruct (_ || _); simpl; lia.
Qed.

Lemma flat_map_rows_length (coverage_data : coverage_store) :
  (List.length (flat_map contig_rows coverage_data) <= List.length coverage_data)%nat.
Proof.
  induction coverage_data as [|item rest IH]; simpl; [lia|].
  rewrite length_app. pose proof (contig_rows_short item). lia.
Qed.

Lemma flat_map_rows_nodup (coverage_data : coverage_store) :
  dict_wf coverage_data ->
  NoDup (map row_contig (flat_map contig_rows coverage_data)).
Proof.
  unfold dict_wf, dict_keys.
  induction coverage_data as [|item rest IH]; simpl; intros Hwf; [constructor|].
  inversion Hwf as [|? ? Hnot Hrest]. subst. rewrite map_app.
  pose proof (contig_rows_short item) as Hshort.
  destruct (contig_rows item) as [|r [|r' more]] eqn:E; simpl in *; [auto| |lia].
  constructor; [|auto].
  intros Hin. apply in_map_iff in Hin. destruct Hin as [r2 [Hname Hr2]].
  apply in_flat_map in Hr2. destruct Hr2 as [item2 [Hitem2 Hr2]].
  apply contig_rows_names in Hr2.
  assert (Hr : row_contig r = fst item)
    by (apply contig_rows_names; rewrite E; now left).
  apply Hnot. apply in_map_iff. exists item2. split; [congruence | exact Hitem2].
Qed.

(** X7: the screening lists its rows by descending score; it has at most one
    row per contig of the store, and no two rows for the same contig name. *)
Theorem X7_screening_rows_ranked (coverage_data : coverage_store) :
  exists rows,
    quick_chimera_scan coverage_data = Ok rows
    /\ descending row_score rows
    /\ len rows <= len coverage_data
    /\ (dict_wf coverage_data -> NoDup (map row_contig rows)).
Proof.
  rewrite quick_chimera_scan_spec. eexists. split; [reflexivity|].
  split; [|split].
  - apply sorted_desc_descending. apply Forall_forall.
    intros r Hr. exact (row_score_is_number coverage_data r Hr).
  - unfold len.
    rewrite (Permutation_length (sorted_desc_perm row_score _)).
    pose proof (flat_map_rows_length coverage_data). lia.
  - intros Hwf.
    eapply Permutation_NoDup;
      [apply Permutation_map, Permutation_sym, sorted_desc_perm|].
    now apply flat_map_rows_nodup.
Qed.

Lemma label_of_ratio (k n : Z) :
  1 <= k <= n -> n <= 5 ->
  assess_score (PrimFloat.div (float_of_int k) (float_of_int n))
  = if 4 * n <=? 5 * k then LikelyChimeric
    else if 3 * n <=? 5 * k then PossiblyChimeric
    else LikelyGenuine.
Proof.
  intros Hk Hn.
  assert (Hn' : n = 1 \/ n = 2 \/ n = 3 \/ n = 4 \/ n = 5) by lia.
  assert (Hk' : k = 1 \/ k = 2 \/ k = 3 \/ k = 4 \/ k = 5) by lia.
  repeat (destruct Hn' as [Hn'|Hn']); subst n;
    repeat (destruct Hk' as [Hk'|Hk']); subst k; try lia;
    vm_compute; reflexivity.
Qed.

(** X8: the label printed next to a row follows the exact ratio of its
    counts: LIKELY CHIMERIC from 4/5 on, POSSIBLY CHIMERIC from 3/5 on, likely
    genuine below; the rounding of the score and of the constants 0.8 and 0.6
    moves no row across a threshold. *)
Theorem X8_label_follows_exact_ratio (coverage_data : coverage_store)
    (rows : list score_row) (r : score_row) :
  quick_chimera_scan coverage_data = Ok rows -> In r rows ->
  assess_score (row_score r)
  = if 4 * row_segments r <=? 5 * row_unique_leaders r then LikelyChimeric
    else if 3 * row_segments r <=? 5 * row_unique_leaders r then PossiblyChimeric
    else LikelyGenuine.
Proof.
  rewrite quick_chimera_scan_spec. intros H Hin. inversion H. subst rows. clear H.
  apply sorted_desc_in in Hin.
  destruct (row_account _ _ Hin) as [_ [_ [_ [_ [_ [_ [Hb [H5 Hdiv]]]]]]]].
  unfold int_truediv in Hdiv.
  destruct (row_segments r =? 0); [discriminate|]. inversion Hdiv as [Hscore].
  now apply label_of_ratio.
Qed.

Lemma X8_label_follows_exact_ratio_witness :
  assess_score 0.4%float = LikelyGenuine.
Proof.
  exact (X8_label_follows_exact_ratio store_two_leaders
           [mkRow "contig_3"%string 1%float 3 3;
            mkRow "contig_1"%string 0.4%float 2 5]
           (mkRow "contig_1"%string 0.4%float 2 5)
           eq_refl (or_intror (or_introl eq_refl))).
Defined.

Section SortFilterMap.
Context {A B : Type}.
Variable key : A -> float.

Lemma insert_desc_front (x : A) (l : list A) :
  (forall z, In z l -> PrimFloat.ltb (key x) (key z) = false) ->
  insert_desc key x l = x :: l.
Proof.
  destruct l as [|y rest]; [reflexivity|]. intros H. simpl.
  now rewrite (H y (or_introl eq_refl)).
Qed.

Lemma filter_insert_desc (p : A -> bool) (x : A) (l : list A) :
  is_number (key x) = true ->
  Forall (fun y => is_number (key y) = true) l ->
  StronglySorted (fun a b => float_ge (key a) (key b) = true) l ->
  filter p (insert_desc key x l)
  = if p x then insert_desc key x (filter p l) else filter p l.
Proof.
  intros Hx Hl Hs. induction Hs as [|y rest Hrest IH Hy]; simpl.
  - now destruct (p x).
  - inversion Hl as [|? ? Hny Hnrest]. subst. specialize (IH Hnrest).
    destruct (PrimFloat.ltb (key x) (key y)) eqn:Hlt; simpl.
    + rewrite IH. destruct (p y), (p x); simpl; rewrite ?Hlt; reflexivity.
    + destruct (p x) eqn:Hpx; [|reflexivity].
      destruct (p y) eqn:Hpy; simpl; [now rewrite Hlt|].
      symmetry. apply insert_desc_front.
      intros z Hz. apply filter_In in Hz. destruct Hz as [Hz _].
      rewrite Forall_forall in Hy, Hnrest.
      apply FloatOrderFacts.leb_ltb_false.
      apply (FloatOrder.leb_trans _ (key y)).
      * exact (Hy z Hz).
      * now apply FloatOrder.leb_total.
Qed.

(** Filtering commutes with the stable descending sort. *)
Lemma filter_sorted_desc (p : A -> bool) (l : list A) :
  Forall (fun y => is_number (key y) = true) l ->
  filter p (sorted_desc key l) = sorted_desc key (filter p l).
Proof.
  induction l as [|x rest IH]; intros Hl; [reflexivity|].
  inversion Hl as [|? ? Hx Hrest]. subst. simpl.
  rewrite filter_insert_desc;
    [| exact Hx | now apply sorted_desc_numbers | now apply sorted_desc_sorted].
  rewrite (IH Hrest). now destruct (p x).
Qed.

Lemma sorted_desc_map (f : A -> B) (key' : B -> float) (l : list A) :
  (forall x, key' (f x) = key x) ->
  sorted_desc key' (map f l) = map f (sorted_desc key l).
Proof.
  intros Hkey. induction l as [|x rest IH]; [reflexivity|]. simpl. rewrite IH.
  generalize (sorted_desc key rest). intros s.
  induction s as [|y t IHs]; [reflexivity|]. simpl. rewrite !Hkey.
  destruct (PrimFloat.ltb (key x) (key y)); simpl; [now rewrite IHs | reflexivity].
Qed.
End SortFilterMap.

(** X9: the chimeric subset is the result of the screening with the rows
    below the threshold removed, in the same order: the qualifying contigs
    keep the rank order they have in the screening. *)
Theorem X9_chimeric_subset_keeps_rank_order (coverage_data : coverage_store)
    (min_score : float) :
  exists rows,
    quick_chimera_scan coverage_data = Ok rows
    /\ identify_chimeric_contigs coverage_data min_score
       = Ok (map chimeric_of_row
               (filter (fun r => float_ge (row_score r) min_score) rows)).
Proof.
  rewrite quick_chimera_scan_spec, identify_chimeric_contigs_spec.
  eexists. split; [reflexivity|]. f_equal.
  rewrite (sorted_desc_map row_score chimeric_of_row chimeric_score)
    by reflexivity.
  f_equal. symmetry. apply filter_sorted_desc.
  apply Forall_forall. intros r Hr. exact (row_score_is_number coverage_data r Hr).
Qed.

(* ================================================================== *)
(** ** The summary of the filtered visualization *)

Lemma slice_to_short {A : Type} (l : list A) (n : Z) :
  len (slice_to l n) <= len l.
Proof.
  rewrite slice_to_firstn. unfold len. rewrite length_firstn. lia.
Qed.

Lemma qualifying_stats_short (contig_data : contig_cov) (min_mean_coverage : float) :
  len (flat_map (qualifying_stat min_mean_coverage) contig_data) <= len contig_data.
Proof.
  unfold len. induction contig_data as [|item rest IH]; simpl; [lia|].
  rewrite length_app. unfold qualifying_stat at 1.
  destruct (_ && _); simpl; lia.
Qed.

Lemma top_samples_short (contig_data : contig_cov) (min_mean_coverage : float)
    (max_samples : Z) (top_samples : list sample_stat) :
  top_samples_of contig_data min_mean_coverage max_samples = Ok top_samples ->
  0 <= len top_samples <= len contig_data.
Proof.
  rewrite top_samples_of_spec. intros Htop. inversion Htop as [Heq]. clear Htop Heq.
  pose proof (slice_to_short
                (sorted_desc stat_mean
                   (flat_map (qualifying_stat min_mean_coverage) contig_data))
                max_samples) as Hslice.
  pose proof (qualifying_stats_short contig_data min_mean_coverage) as Hstats.
  unfold len in *.
  rewrite (Permutation_length (sorted_desc_perm stat_mean _)) in Hslice. lia.
Qed.

Lemma filter_counts (all_coverage_data : coverage_store) (min_mean_coverage : float)
    (max_samples : Z) (all_contigs : list string) (st0 st : filter_state) :
  for_each all_contigs st0
    (filter_step all_coverage_data min_mean_coverage max_samples) = Ok st ->
  fs_before st = fs_before st0 + samples_listed all_contigs all_coverage_data
  /\ fs_after st0 <= fs_after st
  /\ fs_after st - fs_after st0 <= fs_before st - fs_before st0.
Proof.
  revert st0. induction all_contigs as [|c rest IH]; intros st0 Hrun; simpl in *.
  - inversion Hrun. lia.
  - unfold filter_step at 1 in Hrun.
    destruct (dict_get all_coverage_data c) as [contig_data|] eqn:Hc.
    + destruct (top_samples_of contig_data min_mean_coverage max_samples)
        as [top|e] eqn:Htop; cbn [bind] in Hrun; [|discriminate].
      pose proof (top_samples_short _ _ _ _ Htop) as Hshort.
      destruct (nonempty top); cbn [bind] in Hrun;
        destruct (IH _ Hrun) as [Hb [Ha1 Ha2]]; cbn [fs_before fs_after] in *; lia.
    + cbn [bind] in Hrun. destruct (IH _ Hrun) as [Hb [Ha1 Ha2]]. lia.
Qed.

Lemma samples_listed_nonneg (all_contigs : list string)
    (all_coverage_data : coverage_store) :
  0 <= samples_listed all_contigs all_coverage_data.
Proof.
  induction all_contigs as [|c rest IH]; simpl; [lia|].
  destruct (dict_get all_coverage_data c); unfold len; lia.
Qed.

Lemma samples_listed_zero (all_contigs : list string)
    (all_coverage_data : coverage_store) :
  samples_listed all_contigs all_coverage_data = 0
  <-> forall contig contig_data,
        In contig all_contigs ->
        dict_get all_coverage_data contig = Some contig_data -> contig_data = [].
Proof.
  induction all_contigs as [|c rest IH]; simpl.
  - split; [intros _ ? ? [] | reflexivity].
  - pose proof (samples_listed_nonneg rest all_coverage_data) as Hnn.
    destruct (dict_get all_coverage_data c) as [cd|] eqn:Hc.
    + split.
      * intros Hsum contig contig_data [<-|Hin] Hget.
        -- assert (contig_data = cd) by congruence. subst cd.
           destruct contig_data; [reflexivity|]. unfold len in Hsum.
           cbn [List.length] in Hsum. lia.
        -- apply (proj1 IH) with (contig := contig);
             [unfold len in Hsum; lia | exact Hin | exact Hget].
      * intros Hall. rewrite (Hall c cd (or_introl eq_refl) Hc).
        unfold len. simpl. apply IH. intros contig contig_data Hin. apply Hall.
        now right.
    + rewrite IH. split; intros Hall contig contig_data.
      * intros [<-|Hin] Hget; [congruence | now apply (Hall contig)].
      * intros Hin. apply Hall. now right.
Qed.

(** X10: the filtered visualization raises [ZeroDivisionError], in the summary
    it prints before the HTML is generated, exactly when no contig of
    [all_contigs] has a sample in the store (an empty list of contigs, or names
    that are not those of the coverage files); it raises nothing else. *)
Theorem X10_filtered_visualization_raises (all_contigs : list string)
    (all_coverage_data : coverage_store) (min_mean_coverage : float)
    (max_samples : Z) :
  (create_filtered_visualization all_contigs all_coverage_data min_mean_coverage
     max_samples = Raise ZeroDivisionError
   <-> forall contig contig_data,
         In contig all_contigs ->
         dict_get all_coverage_data contig = Some contig_data -> contig_data = [])
  /\ forall e,
       create_filtered_visualization all_contigs all_coverage_data
         min_mean_coverage max_samples = Raise e ->
       e = ZeroDivisionError.
Proof.
  destruct (filter_contigs_total all_contigs all_coverage_data min_mean_coverage
              max_samples) as [st Hrun].
  rewrite (create_filtered_visualization_spec _ _ _ _ _ Hrun).
  destruct (filter_counts _ _ _ _ _ _ Hrun) as [Hb _]. cbn [fs_before] in Hb.
  rewrite Z.add_0_l in Hb.
  rewrite <- samples_listed_zero, <- Hb. split.
  - destruct (fs_before st =? 0) eqn:E;
      [apply Z.eqb_eq in E | apply Z.eqb_neq in E]; split; intros H;
      try reflexivity; try discriminate; try lia; try congruence.
  - intros e. destruct (fs_before st =? 0); intros H; [now inversion H | discriminate].
Qed.

Lemma X10_filtered_visualization_raises_witness :
  create_filtered_visualization ["contig_9"%string] store_two_leaders 12 2
  = Raise ZeroDivisionError.
Proof.
  apply (proj1 (X10_filtered_visualization_raises ["contig_9"%string]
                  store_two_leaders 12 2)).
  intros contig contig_data [<-|[]] Hget. vm_compute in Hget. discriminate.
Defined.

(** X11: the loop that filters the contigs counts in [total_samples_before]
    the samples of every listed contig of the store, and in
    [total_samples_after] never more than that: the counts of the summary
    satisfy [0 <= total_samples_after <= total_samples_before]. *)
Theorem X11_retained_count_bounded (all_contigs : list string)
    (all_coverage_data : coverage_store) (min_mean_coverage : float)
    (max_samples : Z) :
  exists st,
    filter_contigs all_contigs all_coverage_data min_mean_coverage max_samples
    = Ok st
    /\ fs_before st = samples_listed all_contigs all_coverage_data
    /\ 0 <= fs_after st <= fs_before st.
Proof.
  destruct (filter_contigs_total all_contigs all_coverage_data min_mean_coverage
              max_samples) as [st Hrun].
  exists st. split; [exact Hrun|].
  destruct (filter_counts _ _ _ _ _ _ Hrun) as [Hb [Ha1 Ha2]].
  cbn [fs_before fs_after] in *. lia.
Qed.

(* ================================================================== *)
(** ** The chimeric-subset visualization *)

Lemma chimeric_coverage_fold (all_coverage_data : coverage_store)
    (names : list string) (acc : coverage_store) (contig : string) :
  dict_get
    (fold_left
       (fun filtered c =>
          match dict_get all_coverage_data c with
          | Some contig_data => dict_set filtered c contig_data
          | None => filtered
          end) names acc) contig
  = if existsb (String.eqb contig) names
    then match dict_get all_coverage_data contig with
         | Some contig_data => Some contig_data
         | None => dict_get acc contig
         end
    else dict_get acc contig.
Proof.
  revert acc. induction names as [|n rest IH]; intros acc; simpl; [reflexivity|].
  rewrite IH. destruct (String.eqb contig n) eqn:E; simpl.
  - apply String.eqb_eq in E. subst n.
    destruct (dict_get all_coverage_data contig) as [cd|] eqn:Hc.
    + rewrite dict_get_set_same. now destruct (existsb _ rest).
    + now destruct (existsb _ rest).
  - apply String.eqb_neq in E.
    destruct (dict_get all_coverage_data n) as [cd|]; [|reflexivity].
    now rewrite (dict_get_set_other acc n contig cd E).
Qed.

Lemma existsb_eqb_in (contig : string) (names : list string) :
  existsb (String.eqb contig) names = true <-> In contig names.
Proof.
  rewrite existsb_exists. split.
  - intros [n [Hn E]]. apply String.eqb_eq in E. now subst.
  - intros H. exists contig. split; [exact H | apply String.eqb_refl].
Qed.

Lemma chimeric_coverage_get (names : list string) (all_coverage_data : coverage_store)
    (contig : string) (contig_data : contig_cov) :
  dict_get (chimeric_coverage names all_coverage_data) contig = Some contig_data
  <-> In contig names /\ dict_get all_coverage_data contig = Some contig_data.
Proof.
  unfold chimeric_coverage. rewrite chimeric_coverage_fold.
  destruct (existsb (String.eqb contig) names) eqn:E.
  - apply existsb_eqb_in in E. simpl.
    destruct (dict_get all_coverage_data contig); split; intros H;
      try tauto; try discriminate; try (split; [exact E | exact H]).
  - simpl. split; [discriminate|]. intros [Hin _].
    apply existsb_eqb_in in Hin. congruence.
Qed.

Lemma chimeric_names_in_store (coverage_data : coverage_store) (min_score : float)
    (chimeric : list chimeric_row) (c : chimeric_row) :
  identify_chimeric_contigs coverage_data min_score = Ok chimeric ->
  In c chimeric ->
  exists contig_data, In (fst (fst c), contig_data) coverage_data.
Proof.
  rewrite identify_chimeric_contigs_spec. intros H Hin. inversion H. subst. clear H.
  apply sorted_desc_in in Hin. apply in_map_iff in Hin.
  destruct Hin as [r [<- Hr]]. apply filter_In in Hr. destruct Hr as [Hr _].
  destruct (row_account _ _ Hr) as [contig_data [Hitem _]].
  now exists contig_data.
Qed.

(** X12: the chimeric-subset visualization never raises; it generates nothing
    when no contig reaches [min_score]; otherwise it lists the flagged contigs
    by descending score and gives each of them that is in the store its whole
    entry, with every sample, and gives no other contig.  When the store is the
    one that was screened, every flagged contig has its entry. *)
Theorem X12_chimeric_view (screened_data all_coverage_data : coverage_store)
    (min_score : float) :
  exists chimeric,
    identify_chimeric_contigs screened_data min_score = Ok chimeric
    /\ match chimeric with
       | [] =>
           create_chimeric_visualization screened_data all_coverage_data min_score
           = Ok None
       | _ :: _ =>
           exists v,
             create_chimeric_visualization screened_data all_coverage_data min_score
             = Ok (Some v)
             /\ cv_flagged v = chimeric
             /\ cv_contigs v = map (fun c : chimeric_row => fst (fst c)) chimeric
             /\ descending chimeric_score (cv_flagged v)
             /\ (forall contig contig_data,
                   dict_get (cv_coverage v) contig = Some contig_data
                   <-> In contig (cv_contigs v)
                       /\ dict_get all_coverage_data contig = Some contig_data)
             /\ (all_coverage_data = screened_data -> dict_wf screened_data ->
                 forall contig, In contig (cv_contigs v) ->
                   exists contig_data,
                     dict_get screened_data contig = Some contig_data
                     /\ dict_get (cv_coverage v) contig = Some contig_data)
       end.
Proof.
  destruct (identify_chimeric_contigs screened_data min_score) as [chimeric|e] eqn:Hid.
  2:{ rewrite identify_chimeric_contigs_spec in Hid. discriminate. }
  exists chimeric. split; [reflexivity|].
  unfold create_chimeric_visualization. rewrite Hid. cbn [bind].
  destruct chimeric as [|c0 rest] eqn:Ec; [reflexivity|]. rewrite <- Ec in *.
  assert (Hne : negb (nonempty chimeric) = false) by (rewrite Ec; reflexivity).
  rewrite Hne. eexists. split; [reflexivity|].
  cbn [cv_flagged cv_contigs cv_coverage].
  split; [reflexivity|]. split; [reflexivity|]. split; [|split].
  - pose proof (C := Hid). rewrite identify_chimeric_contigs_spec in C.
    inversion C as [Heq]. apply sorted_desc_descending.
    apply Forall_forall. intros c Hin. apply in_map_iff in Hin.
    destruct Hin as [r [<- Hr]]. apply filter_In in Hr. destruct Hr as [Hr _].
    exact (row_score_is_number screened_data r Hr).
  - intros contig contig_data. apply chimeric_coverage_get.
  - intros -> Hwf contig Hin. apply in_map_iff in Hin.
    destruct Hin as [c [<- Hc]].
    destruct (chimeric_names_in_store _ _ _ _ Hid Hc) as [contig_data Hitem].
    pose proof (dict_in_get _ _ _ Hwf Hitem) as Hget.
    exists contig_data. split; [exact Hget|].
    apply chimeric_coverage_get. split; [|exact Hget].
    apply in_map_iff. now exists c.
Qed.

Lemma samples_fold_keys (keys : list string) (acc : list string) :
  let set := fold_left (fun acc' sample => set_add string_dec sample acc') keys acc in
  (NoDup acc -> NoDup set)
  /\ forall s, In s set <-> In s acc \/ In s keys.
Proof.
  revert acc. induction keys as [|k rest IH]; intros acc; simpl.
  - split; [auto|]. intros s. tauto.
  - destruct (IH (set_add string_dec k acc)) as [Hnd Hin]. split.
    + intros H. apply Hnd. now apply set_add_nodup.
    + intros s. rewrite Hin, set_add_iff. split.
      * intros [[H|H]|H]; subst; auto.
      * intros [H|[H|H]]; subst; auto.
Qed.

Lemma samples_fold_store (filtered : coverage_store) (acc : list string) :
  let set := fold_left
               (fun acc (item : string * contig_cov) =>
                  fold_left (fun acc' sample => set_add string_dec sample acc')
                    (dict_keys (snd item)) acc)
               filtered acc in
  (NoDup acc -> NoDup set)
  /\ forall s, In s set
               <-> In s acc
                   \/ exists item, In item filtered /\ In s (dict_keys (snd item)).
Proof.
  revert acc. induction filtered as [|item rest IH]; intros acc; simpl.
  - split; [auto|]. intros s. split; [auto|]. intros [H|[item [[] _]]]. exact H.
  - destruct (samples_fold_keys (dict_keys (snd item)) acc) as [Hnd1 Hin1].
    destruct (IH (fold_left (fun acc' sample => set_add string_dec sample acc')
                    (dict_keys (snd item)) acc)) as [Hnd Hin].
    split; [auto|].
    intros s. rewrite Hin, Hin1. split.
    + intros [[H|H]|[it [Hit Hs]]]; eauto.
    + intros [H|[it [[Heq|Hit] Hs]]]; subst; eauto.
Qed.

(** X13: the number of samples the chimeric-subset visualization reports is
    the number of distinct sample names over the contigs it shows. *)
Theorem X13_chimeric_view_samples (screened_data all_coverage_data : coverage_store)
    (min_score : float) (v : chimeric_view) :
  create_chimeric_visualization screened_data all_coverage_data min_score
  = Ok (Some v) ->
  exists samples : list string,
    NoDup samples
    /\ cv_samples v = len samples
    /\ forall s, In s samples
                 <-> exists contig contig_data,
                       In (contig, contig_data) (cv_coverage v)
                       /\ In s (dict_keys contig_data).
Proof.
  unfold create_chimeric_visualization.
  destruct (identify_chimeric_contigs screened_data min_score) as [chimeric|e];
    cbn [bind]; [|discriminate].
  destruct (negb (nonempty chimeric)); [discriminate|].
  intros H. inversion H. subst v. clear H. cbn [cv_samples cv_coverage].
  set (filtered := chimeric_coverage _ all_coverage_data).
  destruct (samples_fold_store filtered []) as [Hnd Hin].
  exists (all_samples_of filtered). split; [apply Hnd; constructor|].
  split; [reflexivity|].
  intros s. unfold all_samples_of. rewrite (Hin s). split.
  - intros [[]|[[contig cd] [Hitem Hs]]]. now exists contig, cd.
  - intros [contig [cd [Hitem Hs]]]. right. now exists (contig, cd).
Qed.

Lemma X13_chimeric_view_samples_witness :
  exists samples : list string, NoDup samples /\ 3 = len samples.
Proof.
  destruct (X13_chimeric_view_samples store_two_leaders store_two_leaders
              default_min_score
              (mkChimericView [("contig_3"%string, 1%float, 3)] ["contig_3"%string]
                 [nth 2 store_two_leaders (""%string, [])] 3))
    as [samples [Hnd [Hlen _]]].
  - vm_compute. reflexivity.
  - exists samples. split; [exact Hnd | exact Hlen].
Defined.

(* ================================================================== *)
(** ** Contig names of a FASTA file *)

Lemma append_nil_r (s : string) : String.append s EmptyString = s.
Proof. induction s as [|c rest IH]; simpl; congruence. Qed.

Lemma append_assoc (s1 s2 s3 : string) :
  String.append (String.append s1 s2) s3 = String.append s1 (String.append s2 s3).
Proof. induction s1 as [|c rest IH]; simpl; congruence. Qed.

(** With a word being read, the first word is that word and what follows it
    up to the next whitespace. *)
Lemma split_ws_in_word (s word : string) :
  word <> EmptyString ->
  exists more post,
    hd_error (split_ws_from s word) = Some (String.append word more)
    /\ s = String.append more post
    /\ string_forall (fun c => negb (is_space c)) more = true
    /\ match post with
       | EmptyString => True
       | String c _ => is_space c = true
       end.
Proof.
  revert word. induction s as [|c rest IH]; intros word Hword.
  - exists EmptyString, EmptyString. simpl. rewrite append_nil_r.
    destruct word; [congruence|]. auto.
  - simpl. destruct (is_space c) eqn:Hc.
    + exists EmptyString, (String c rest). rewrite append_nil_r. simpl.
      destruct word; [congruence|]. auto.
    + destruct (IH (String.append word (String c EmptyString))) as [more [post H]].
      { destruct word; discriminate. }
      destruct H as [Hhd [Hrest [Hmore Hpost]]].
      exists (String c more), post. rewrite Hhd, append_assoc. simpl.
      rewrite Hc. subst rest. auto.
Qed.

(** The first word of [s.split()], or the fact that there is none. *)
Lemma split_ws_first (s : string) :
  match hd_error (split_ws s) with
  | None => split_ws s = [] /\ string_forall is_space s = true
  | Some w =>
      exists pre post,
        s = String.append pre (String.append w post)
        /\ string_forall is_space pre = true
        /\ w <> EmptyString
        /\ string_forall (fun c => negb (is_space c)) w = true
        /\ match post with
           | EmptyString => True
           | String c _ => is_space c = true
           end
  end.
Proof.
  unfold split_ws. induction s as [|c rest IH]; simpl; [auto|].
  destruct (is_space c) eqn:Hc.
  - destruct (hd_error (split_ws_from rest EmptyString)) as [w|].
    + destruct IH as [pre [post [Hs [Hpre H]]]].
      exists (String c pre), post. simpl. rewrite Hc. subst rest. auto.
    + tauto.
  - destruct (split_ws_in_word rest (String c EmptyString)) as [more [post H]];
      [discriminate|].
    destruct H as [Hhd [Hrest [Hmore Hpost]]]. rewrite Hhd.
    exists EmptyString, post. simpl. rewrite Hc. subst rest.
    repeat split; auto. discriminate.
Qed.

Lemma get_contigs_loop_spec (lines : list string) (contigs : list string) :
  match get_contigs_loop lines contigs with
  | Returns names =>
      exists added,
        names = contigs ++ added
        /\ Forall2 names_header (filter is_header lines) added
  | Fails e =>
      e = IndexError
      /\ exists line,
           In line lines /\ is_header line = true
           /\ string_forall is_space (drop_first line) = true
  end.
Proof.
  revert contigs. induction lines as [|line rest IH]; intros contigs; simpl.
  - exists []. rewrite app_nil_r. split; [reflexivity | constructor].
  - destruct (is_header line) eqn:Hh.
    + pose proof (split_ws_first (drop_first line)) as Hfirst.
      destruct (split_ws (drop_first line)) as [|name others] eqn:Hs;
        cbn [hd_error] in Hfirst.
      * split; [reflexivity|]. exists line. tauto.
      * specialize (IH (contigs ++ [name])).
        destruct (get_contigs_loop rest (contigs ++ [name])) as [names|e].
        -- destruct IH as [added [Hn Hall]]. exists (name :: added).
           split; [now rewrite Hn, <- app_assoc|]. constructor; [|exact Hall].
           destruct Hfirst as [pre [post [Hline H]]]. exists pre, post.
           split; [|exact H].
           destruct line as [|c tail]; [discriminate|]. simpl in Hh, Hline.
           apply Ascii.eqb_eq in Hh. now subst.
        -- destruct IH as [He [l [Hl H]]]. split; [exact He|]. exists l. tauto.
    + specialize (IH contigs).
      destruct (get_contigs_loop rest contigs) as [names|e]; [exact IH|].
      destruct IH as [He [l [Hl H]]]. split; [exact He|]. exists l. tauto.
Qed.

(** X14: [get_contigs_from_fasta] returns one name per line that starts with
    '>', in file order: the first word after the '>', not empty and without
    whitespace, whatever follows it on the line.  It raises [IndexError], and
    nothing else, when a header line has nothing but whitespace after the '>'. *)
Theorem X14_fasta_contig_names (lines : list string) :
  match get_contigs_from_fasta lines with
  | Returns names => Forall2 names_header (filter is_header lines) names
  | Fails e =>
      e = IndexError
      /\ exists line,
           In line lines /\ is_header line = true
           /\ string_forall is_space (drop_first line) = true
  end.
Proof.
  unfold get_contigs_from_fasta.
  pose proof (get_contigs_loop_spec lines []) as H.
  destruct (get_contigs_loop lines []) as [names|e]; [|exact H].
  destruct H as [added [-> Hall]]. exact Hall.
Qed.

Example fasta_two_contigs :
  let nl := String (Ascii.ascii_of_nat 10) EmptyString in
  get_contigs_from_fasta
    [String.append ">contig_1 length=5000 cov=12.5" nl; String.append "ACGTACGT" nl;
     String.append ">contig_2" nl; String.append "GGCC" nl]%string
  = Returns ["contig_1"; "contig_2"]%string
  /\ get_contigs_from_fasta
       [String.append ">contig_1" nl; String.append "ACGT" nl;
        String.append "> " nl]%string
     = Fails IndexError.
Proof. split; vm_compute; reflexivity. Qed.

(* ================================================================== *)
(** ** The configuration *)



Example config_with_title :
  load_config (fun s => s) true true
    (Some [("title", "Gut samples"); ("threads", "4")]%string)
  = Returns [("title", "Gut samples"); ("threads", "4");
             ("fasta_path", "01_GEMM_057_contigs_5000bp.fasta");
             ("coverage_dir", "coverage_5000bp");
             ("output_path", "interactive_coverage_viewer.html");
             ("dataset_name", "Contig Coverage Analysis")]%string.
Proof. reflexivity. Qed.

(* ================================================================== *)
(** ** The coverage store as loaded *)

Lemma dict_get_member {V : Type} (d : dict V) (k : string) (v : V) :
  dict_get d k = Some v -> In (k, v) d.
Proof.
  induction d as [|[k' v'] rest IH]; simpl; [discriminate|].
  destruct (String.eqb k k') eqn:E.
  - apply String.eqb_eq in E. intros H. inversion H. subst. now left.
  - intros H. right. auto.
Qed.

Lemma dict_set_member {V : Type} (d : dict V) (k k0 : string) (v v0 : V) :
  In (k, v) (dict_set d k0 v0) -> (k = k0 /\ v = v0) \/ In (k, v) d.
Proof.
  induction d as [|[k' v'] rest IH]; simpl.
  - intros [H|[]]. inversion H. auto.
  - destruct (String.eqb k0 k') eqn:E; simpl.
    + apply String.eqb_eq in E. subst k'.
      intros [H|H]; [inversion H; auto | auto].
    + intros [H|H]; [auto|]. destruct (IH H); auto.
Qed.

Lemma dict_set_not_nil {V : Type} (d : dict V) (k : string) (v : V) :
  dict_set d k v <> [].
Proof. destruct d as [|[k' v'] rest]; simpl; [|destruct (String.eqb k k')]; discriminate. Qed.

Lemma dict_get_map_values {V W : Type} (f : V -> W) (d : dict V) (k : string) :
  dict_get (map (fun item : string * V => (fst item, f (snd item))) d) k
  = option_map f (dict_get d k).
Proof.
  induction d as [|[k' v'] rest IH]; simpl; [reflexivity|].
  now destruct (String.eqb k k').
Qed.

Lemma dict_keys_map_values {V W : Type} (f : V -> W) (d : dict V) :
  dict_keys (map (fun item : string * V => (fst item, f (snd item))) d) = dict_keys d.
Proof. unfold dict_keys. rewrite map_map. reflexivity. Qed.

Lemma insert_by_position_perm (pt : point) (tr : track) :
  Permutation (insert_by_position pt tr) (pt :: tr).
Proof.
  induction tr as [|q rest IH]; simpl; [reflexivity|].
  destruct (position q <? position pt); [|reflexivity].
  rewrite IH. apply perm_swap.
Qed.

Lemma sort_track_perm (tr : track) : Permutation (sort_track tr) tr.
Proof.
  induction tr as [|pt rest IH]; simpl; [reflexivity|].
  rewrite insert_by_position_perm. now constructor.
Qed.

Lemma insert_by_position_sorted (pt : point) (tr : track) :
  by_position tr -> by_position (insert_by_position pt tr).
Proof.
  unfold by_position. intros Hs. induction Hs as [|q rest Hrest IH Hq]; simpl.
  - constructor; constructor.
  - destruct (position q <? position pt) eqn:E.
    + apply Z.ltb_lt in E. constructor; [exact IH|].
      eapply Permutation_Forall; [apply Permutation_sym, insert_by_position_perm|].
      constructor; [lia | exact Hq].
    + apply Z.ltb_ge in E. constructor; [now constructor|].
      constructor; [exact E|].
      eapply Forall_impl; [|exact Hq]. intros z Hz. simpl in Hz. lia.
Qed.

Lemma sort_track_sorted (tr : track) : by_position (sort_track tr).
Proof.
  induction tr as [|pt rest IH]; simpl; [constructor|].
  now apply insert_by_position_sorted.
Qed.

Lemma sort_track_not_nil (tr : track) : tr <> [] -> sort_track tr <> [].
Proof.
  intros H Hnil. apply H. apply Permutation_nil.
  rewrite <- Hnil. apply sort_track_perm.
Qed.

Lemma append_point_wf (coverage_data : coverage_store) (contig sample_name : string)
    (pt : point) :
  store_wf coverage_data ->
  store_wf (append_point coverage_data contig sample_name pt).
Proof.
  intros [Hwf Hall]. unfold append_point.
  set (samples := match dict_get coverage_data contig with
                  | Some samples => samples
                  | None => []
                  end).
  assert (Hs : dict_wf samples
               /\ forall s tr, In (s, tr) samples -> tr <> []).
  { unfold samples. destruct (dict_get coverage_data contig) as [smp|] eqn:Hc.
    - apply dict_get_member in Hc. destruct (Hall _ _ Hc) as [_ [H1 H2]]. auto.
    - split; [constructor | intros s tr []]. }
  destruct Hs as [Hswf Hstr].
  split; [now apply dict_set_wf|].
  intros c smp Hin. apply dict_set_member in Hin.
  destruct Hin as [[-> ->]|Hin]; [|now apply (Hall c)].
  split; [apply dict_set_not_nil|]. split; [now apply dict_set_wf|].
  intros s tr Hin. apply dict_set_member in Hin.
  destruct Hin as [[-> ->]|Hin]; [|now apply (Hstr s)].
  now destruct (match dict_get samples sample_name with Some t => t | None => [] end).
Qed.

Section LoaderFacts.
Variable parse_int : string -> option Z.
Variable parse_float : string -> option float.

Lemma load_line_spec (sample_name : string) (coverage_data : coverage_store)
    (line : string) :
  load_line parse_int parse_float sample_name coverage_data line
  = match parse_record parse_int parse_float line with
    | Ok (Some (contig, pt)) =>
        Ok (append_point coverage_data contig sample_name pt)
    | Ok None => Ok coverage_data
    | Raise e => Raise e
    end.
Proof.
  unfold load_line.
  destruct (parse_record parse_int parse_float line) as [[[contig pt]|]|e];
    reflexivity.
Qed.

Lemma parse_record_raises (line : string) :
  match parse_record parse_int parse_float line with
  | Ok _ => malformed parse_int parse_float line = false
  | Raise e => e = ValueError /\ malformed parse_int parse_float line = true
  end.
Proof.
  unfold parse_record, malformed.
  destruct (len (split_on tab (strip line) EmptyString) >=? 4) eqn:E;
    [|reflexivity].
  destruct (split_on tab (strip line) EmptyString) as [|p0 [|p1 [|p2 [|p3 more]]]];
    try (unfold len in E; simpl in E; discriminate).
  cbn [nth andb].
  destruct (parse_int p1); [|auto].
  destruct (parse_float p3); auto.
Qed.

Lemma load_file_wf (file : string * list string) (coverage_data store : coverage_store) :
  store_wf coverage_data ->
  load_file parse_int parse_float coverage_data file = Ok store ->
  store_wf store.
Proof.
  intros Hwf. unfold load_file.
  apply (for_each_invariant
           (load_line parse_int parse_float (sample_name_of (fst file))) store_wf);
    [|exact Hwf].
  intros s line s' _ Hs Hstep. rewrite load_line_spec in Hstep.
  destruct (parse_record parse_int parse_float line) as [[[contig pt]|]|e];
    inversion Hstep; subst; [now apply append_point_wf | exact Hs].
Qed.

Lemma sort_tracks_wf (coverage_data : coverage_store) :
  store_wf coverage_data ->
  store_wf (sort_tracks coverage_data)
  /\ forall contig samples sample_name tr,
       In (contig, samples) (sort_tracks coverage_data) ->
       In (sample_name, tr) samples -> by_position tr.
Proof.
  intros [Hwf Hall]. unfold sort_tracks. split; [split|].
  - unfold dict_wf. now rewrite dict_keys_map_values.
  - intros contig samples Hin. apply in_map_iff in Hin.
    destruct Hin as [[c smp] [Heq Hin]]. cbn [fst snd] in Heq. inversion Heq. subst.
    destruct (Hall _ _ Hin) as [Hne [Hswf Htr]]. split; [|split].
    + destruct smp; [congruence | discriminate].
    + unfold dict_wf. now rewrite dict_keys_map_values.
    + intros s tr Hs. apply in_map_iff in Hs.
      destruct Hs as [[s0 tr0] [Heq2 Hs]]. cbn [fst snd] in Heq2.
      inversion Heq2. subst. apply sort_track_not_nil. now apply (Htr s).
  - intros contig samples s tr Hin Hs. apply in_map_iff in Hin.
    destruct Hin as [[c smp] [Heq Hin]]. cbn [fst snd] in Heq. inversion Heq. subst.
    apply in_map_iff in Hs. destruct Hs as [[s0 tr0] [Heq2 Hs]].
    cbn [fst snd] in Heq2. inversion Heq2. subst. apply sort_track_sorted.
Qed.

Lemma store_wf_nil : store_wf [].
Proof. split; [constructor | intros ? ? []]. Qed.
End LoaderFacts.

(** X16: the store the loader returns has no empty entry (every contig has a
    sample, every sample a point), distinct contig names and distinct sample
    names within a contig, and every track in ascending order of position. *)
Theorem X16_loaded_store_is_sorted (parse_int : string -> option Z)
    (parse_float : string -> option float) (files : list (string * list string))
    (store : coverage_store) :
  load_all_coverage_data parse_int parse_float files = Ok store ->
  store_wf store
  /\ forall contig samples sample_name tr,
       dict_get store contig = Some samples ->
       dict_get samples sample_name = Some tr ->
       tr <> [] /\ by_position tr.
Proof.
  unfold load_all_coverage_data.
  destruct (for_each files [] (load_file parse_int parse_float)) as [raw|e] eqn:Hraw;
    cbn [bind]; [|discriminate].
  intros H. inversion H. subst store. clear H.
  assert (Hwf : store_wf raw).
  { revert Hraw.
    apply (for_each_invariant (load_file parse_int parse_float) store_wf);
      [|apply store_wf_nil].
    intros s file s' _ Hs Hstep. exact (load_file_wf _ _ file s s' Hs Hstep). }
  destruct (sort_tracks_wf raw Hwf) as [Hswf Hsorted].
  split; [exact Hswf|].
  intros contig samples s tr Hc Hs.
  apply dict_get_member in Hc. apply dict_get_member in Hs.
  split; [|exact (Hsorted _ _ _ _ Hc Hs)].
  destruct Hswf as [_ Hall]. destruct (Hall _ _ Hc) as [_ [_ Htr]].
  exact (Htr _ _ Hs).
Qed.

Lemma X16_loaded_store_is_sorted_witness :
  store_wf
    [("c1"%string,
      [("S1"%string, [mkPoint 0 3; mkPoint 5 10]); ("S2"%string, [mkPoint 2 1])]);
     ("c2"%string, [("S1"%string, [mkPoint 0 7])])].
Proof.
  apply (X16_loaded_store_is_sorted read_int read_float sample_files).
  vm_compute. reflexivity.
Defined.

Lemma stored_track_append_point (coverage_data : coverage_store)
    (contig sample_name : string) (pt : point) (c s : string) :
  stored_track (append_point coverage_data contig sample_name pt) c s
  = if String.eqb c contig && String.eqb s sample_name
    then stored_track coverage_data c s ++ [pt]
    else stored_track coverage_data c s.
Proof.
  unfold stored_track, append_point. rewrite dict_get_set.
  destruct (String.eqb c contig) eqn:Ec; cbn [andb]; [|reflexivity].
  apply String.eqb_eq in Ec. subst c. rewrite dict_get_set.
  destruct (String.eqb s sample_name) eqn:Es.
  - apply String.eqb_eq in Es. subst s.
    destruct (dict_get coverage_data contig) as [samples|]; [|reflexivity].
    now destruct (dict_get samples sample_name).
  - now destruct (dict_get coverage_data contig).
Qed.

Lemma record_points_app (r1 r2 : list coverage_record) (c s : string) :
  record_points (r1 ++ r2) c s = record_points r1 c s ++ record_points r2 c s.
Proof. unfold record_points. now rewrite filter_app, map_app. Qed.

Section LoaderContent.
Variable parse_int : string -> option Z.
Variable parse_float : string -> option float.

Lemma load_lines_content (sample_name : string) (lines : list string)
    (coverage_data store : coverage_store) (c s : string) :
  for_each lines coverage_data (load_line parse_int parse_float sample_name)
  = Ok store ->
  stored_track store c s
  = stored_track coverage_data c s
    ++ record_points
         (flat_map (line_records parse_int parse_float sample_name) lines) c s.
Proof.
  revert coverage_data. induction lines as [|line rest IH]; intros cd Hrun.
  - simpl in Hrun. inversion Hrun. simpl. now rewrite app_nil_r.
  - cbn [for_each] in Hrun. rewrite load_line_spec in Hrun.
    cbn [flat_map]. rewrite record_points_app. unfold line_records at 1.
    destruct (parse_record parse_int parse_float line) as [[[contig pt]|]|e];
      cbn [bind] in Hrun; [| |discriminate].
    + rewrite (IH _ Hrun), stored_track_append_point.
      unfold record_points at 2. cbn [filter map fst snd].
      rewrite (String.eqb_sym contig c), (String.eqb_sym sample_name s).
      destruct (String.eqb c contig && String.eqb s sample_name); cbn [map app];
        [now rewrite <- app_assoc | reflexivity].
    + rewrite (IH _ Hrun). reflexivity.
Qed.

Lemma load_files_content (files : list (string * list string))
    (coverage_data store : coverage_store) (c s : string) :
  for_each files coverage_data (load_file parse_int parse_float) = Ok store ->
  stored_track store c s
  = stored_track coverage_data c s
    ++ record_points (file_records parse_int parse_float files) c s.
Proof.
  revert coverage_data. induction files as [|file rest IH]; intros cd Hrun.
  - simpl in Hrun. inversion Hrun. simpl. now rewrite app_nil_r.
  - cbn [for_each] in Hrun.
    destruct (load_file parse_int parse_float cd file) as [cd1|e] eqn:Hfile;
      cbn [bind] in Hrun; [|discriminate].
    unfold file_records. cbn [flat_map]. rewrite record_points_app.
    rewrite (IH _ Hrun). unfold load_file in Hfile.
    rewrite (load_lines_content _ _ _ _ c s Hfile). unfold file_records.
    now rewrite app_assoc.
Qed.

Lemma stored_track_sorted (coverage_data : coverage_store) (c s : string) :
  stored_track (sort_tracks coverage_data) c s
  = sort_track (stored_track coverage_data c s).
Proof.
  unfold stored_track, sort_tracks. rewrite dict_get_map_values.
  destruct (dict_get coverage_data c) as [samples|]; [|reflexivity].
  cbn [option_map]. rewrite dict_get_map_values.
  now destruct (dict_get samples s).
Qed.

Lemma load_files_raise (files : list (string * list string))
    (coverage_data : coverage_store) :
  match for_each files coverage_data (load_file parse_int parse_float) with
  | Ok _ =>
      forall file line, In file files -> In line (snd file) ->
        malformed parse_int parse_float line = false
  | Raise e =>
      e = ValueError
      /\ exists file line,
           In file files /\ In line (snd file)
           /\ malformed parse_int parse_float line = true
  end.
Proof.
  assert (Hlines : forall sample lines cd,
            match for_each lines cd (load_line parse_int parse_float sample) with
            | Ok _ => forall line, In line lines ->
                        malformed parse_int parse_float line = false
            | Raise e => e = ValueError
                         /\ exists line, In line lines
                              /\ malformed parse_int parse_float line = true
            end).
  { intros sample lines. induction lines as [|line rest IH]; intros cd.
    - simpl. intros line [].
    - cbn [for_each]. rewrite load_line_spec.
      pose proof (parse_record_raises parse_int parse_float line) as Hp.
      destruct (parse_record parse_int parse_float line) as [[[contig pt]|]|e];
        cbn [bind].
      + specialize (IH (append_point cd contig sample pt)).
        destruct (for_each rest _ _) as [st|e].
        * intros l [<-|Hl]; auto.
        * destruct IH as [He [l [Hl Hm]]]. split; [exact He|]. exists l. split; auto.
          now right.
      + specialize (IH cd). destruct (for_each rest _ _) as [st|e].
        * intros l [<-|Hl]; auto.
        * destruct IH as [He [l [Hl Hm]]]. split; [exact He|]. exists l. split; auto.
          now right.
      + destruct Hp as [He Hm]. split; [exact He|]. exists line. split; auto.
        now left. }
  revert coverage_data. induction files as [|file rest IH]; intros cd.
  - simpl. intros file line [].
  - cbn [for_each]. unfold load_file at 1.
    pose proof (Hlines (sample_name_of (fst file)) (snd file) cd) as Hl.
    destruct (for_each (snd file) cd _) as [cd1|e]; cbn [bind].
    + specialize (IH cd1).
      destruct (for_each rest cd1 (load_file parse_int parse_float)) as [st|e].
      * intros f line [<-|Hf] Hline; [now apply Hl | now apply (IH f)].
      * destruct IH as [He [f [line [Hf H]]]]. split; [exact He|].
        exists f, line. split; [now right | exact H].
    + destruct Hl as [He [line [Hline Hm]]]. split; [exact He|].
      exists file, line. split; [now left | auto].
Qed.
End LoaderContent.

(** X17: the track the loader stores for a sample of a contig holds the
    points of the lines read for that contig from the files of that sample, and
    only these: it is their sequence in reading order, sorted by position, points
    of equal position staying in reading order.  A line of fewer than four
    fields adds nothing. *)
Theorem X17_loaded_tracks (parse_int : string -> option Z)
    (parse_float : string -> option float) (files : list (string * list string))
    (store : coverage_store) :
  load_all_coverage_data parse_int parse_float files = Ok store ->
  forall contig sample_name,
    stored_track store contig sample_name
    = sort_track
        (record_points (file_records parse_int parse_float files) contig sample_name)
    /\ Permutation (stored_track store contig sample_name)
         (record_points (file_records parse_int parse_float files) contig
            sample_name)
    /\ forall pt,
         In pt (stored_track store contig sample_name)
         <-> In (contig, sample_name, pt)
               (file_records parse_int parse_float files).
Proof.
  unfold load_all_coverage_data.
  destruct (for_each files [] (load_file parse_int parse_float)) as [raw|e] eqn:Hraw;
    cbn [bind]; [|discriminate].
  intros H contig sample_name. inversion H. subst store. clear H.
  assert (Heq : stored_track (sort_tracks raw) contig sample_name
                = sort_track
                    (record_points (file_records parse_int parse_float files)
                       contig sample_name)).
  { rewrite stored_track_sorted.
    now rewrite (load_files_content parse_int parse_float files [] raw contig
                   sample_name Hraw). }
  split; [exact Heq|]. rewrite Heq.
  split; [apply sort_track_perm|].
  intros pt.
  assert (Hsort : In pt (sort_track
                           (record_points (file_records parse_int parse_float files)
                              contig sample_name))
                  <-> In pt (record_points (file_records parse_int parse_float files)
                               contig sample_name)).
  { split; apply Permutation_in;
      [apply sort_track_perm | apply Permutation_sym, sort_track_perm]. }
  rewrite Hsort. unfold record_points. rewrite in_map_iff. split.
  - intros [[[c s] p] [Hp Hin]]. apply filter_In in Hin. destruct Hin as [Hin Hm].
    cbn [fst snd] in *. apply andb_true_iff in Hm. destruct Hm as [Hc Hs].
    apply String.eqb_eq in Hc. apply String.eqb_eq in Hs. now subst.
  - intros Hin. exists (contig, sample_name, pt). split; [reflexivity|].
    apply filter_In. split; [exact Hin|]. cbn [fst snd].
    now rewrite !String.eqb_refl.
Qed.

Lemma X17_loaded_tracks_witness :
  stored_track
    [("c1"%string,
      [("S1"%string, [mkPoint 0 3; mkPoint 5 10]); ("S2"%string, [mkPoint 2 1])]);
     ("c2"%string, [("S1"%string, [mkPoint 0 7])])] "c1"%string "S1"%string
  = sort_track
      (record_points (file_records read_int read_float sample_files)
         "c1"%string "S1"%string).
Proof.
  apply (X17_loaded_tracks read_int read_float sample_files).
  vm_compute. reflexivity.
Defined.

(** X18: the loader raises exactly when a line of at least four fields has a
    start that [int] or a coverage that [float] rejects, and then [ValueError];
    lines of fewer than four fields never make it raise. *)
Theorem X18_loader_raises_on_malformed_line (parse_int : string -> option Z)
    (parse_float : string -> option float) (files : list (string * list string)) :
  match load_all_coverage_data parse_int parse_float files with
  | Ok _ =>
      forall file line, In file files -> In line (snd file) ->
        malformed parse_int parse_float line = false
  | Raise e =>
      e = ValueError
      /\ exists file line,
           In file files /\ In line (snd file)
           /\ malformed parse_int parse_float line = true
  end.
Proof.
  unfold load_all_coverage_data.
  pose proof (load_files_raise parse_int parse_float files []) as H.
  match goal with
  | |- context [for_each files ?init ?body] =>
      change (for_each files [] (load_file parse_int parse_float))
        with (for_each files init body) in H;
      destruct (for_each files init body) as [raw|e]
  end; cbn [bind]; exact H.
Qed.

Example loader_on_sample_files :
  load_all_coverage_data read_int read_float sample_files
  = Ok [("c1"%string,
         [("S1"%string, [mkPoint 0 3; mkPoint 5 10]); ("S2"%string, [mkPoint 2 1])]);
        ("c2"%string, [("S1"%string, [mkPoint 0 7])])]
  /\ load_all_coverage_data read_int read_float
       [("S1.per-base.bed.gz"%string, [bed_line "c1" "5" "6" "n/a"])]
     = Raise ValueError
  /\ sample_name_of "/data/cov/S2.per-base.bed.gz" = "S2"%string.
Proof. vm_compute. repeat split; reflexivity. Qed.

(* ================================================================== *)
(** ** Sample contributions *)












Example contributions_of_two_leaders :
  analyze_sample_contributions store_two_leaders
  = Ok [mkSummary "contig_3"%string 3
          [("C"%string, 17.5%float, 70%float); ("B"%string, 15%float, 60%float);
           ("A"%string, 12.5%float, 50%float)];
        mkSummary "contig_1"%string 2
          [("B"%string, 40%float, 80%float); ("A"%string, 25%float, 50%float)];
        mkSummary "contig_2"%string 1 [("A"%string, 50%float, 50%float)]].
Proof. vm_compute. reflexivity. Qed.

(* ================================================================== *)
(** ** The bins of the heat map *)

Lemma insert_int_sorted (x : Z) (l : list Z) :
  StronglySorted Z.le l -> StronglySorted Z.le (insert_int x l).
Proof.
  intros Hs. induction Hs as [|y rest Hrest IH Hy]; simpl.
  - constructor; constructor.
  - destruct (x <=? y) eqn:E.
    + apply Z.leb_le in E. constructor; [now constructor|].
      constructor; [exact E|]. eapply Forall_impl; [|exact Hy]. intros z Hz. lia.
    + apply Z.leb_gt in E. constructor; [exact IH|].
      eapply Permutation_Forall; [apply Permutation_sym, insert_int_perm|].
      constructor; [lia | exact Hy].
Qed.

Lemma sorted_int_sorted (l : list Z) : StronglySorted Z.le (sorted_int l).
Proof.
  induction l as [|x rest IH]; simpl; [constructor|]. now apply insert_int_sorted.
Qed.

(** The positions of a contig are in strictly ascending order. *)
Lemma all_positions_ascending (contig_data : contig_cov) :
  StronglySorted Z.lt (all_positions contig_data).
Proof.
  destruct (all_positions_distinct contig_data) as [Hnd _].
  pose proof (sorted_int_sorted (all_positions_set contig_data)) as Hs.
  fold (all_positions contig_data) in Hs.
  induction Hs as [|x rest Hrest IH Hx]; [constructor|].
  inversion Hnd as [|? ? Hnot Hnd']. subst. constructor; [now apply IH|].
  rewrite Forall_forall in *. intros y Hy.
  specialize (Hx y Hy). assert (x <> y) by (intros ->; contradiction). lia.
Qed.

Lemma ascending_nth (l : list Z) (i j : nat) :
  StronglySorted Z.lt l -> (i < j < List.length l)%nat ->
  nth i l 0 < nth j l 0.
Proof.
  intros Hs. revert i j. induction Hs as [|x rest Hrest IH Hx]; intros i j Hij.
  - simpl in Hij. lia.
  - destruct j as [|j]; [lia|]. simpl in Hij. destruct i as [|i]; simpl.
    + rewrite Forall_forall in Hx. apply Hx. apply nth_In. lia.
    + apply IH. lia.
Qed.

Lemma ascending_nth_le (l : list Z) (i j : nat) :
  StronglySorted Z.lt l -> (i <= j < List.length l)%nat ->
  nth i l 0 <= nth j l 0.
Proof.
  intros Hs Hij. destruct (Nat.eq_dec i j) as [->|Hne]; [lia|].
  pose proof (ascending_nth l i j Hs). lia.
Qed.

(** The bins the loop makes, by rank. *)
Lemma bin_loop_nth (all_positions : list Z) (bin_size : Z) (fuel : nat) (i : Z)
    (k : nat) :
  1 <= bin_size -> len all_positions - i <= Z.of_nat fuel ->
  nth_error (bin_loop fuel all_positions bin_size i) k
  = if i + Z.of_nat k * bin_size <? len all_positions
    then Some (bin_at all_positions bin_size (i + Z.of_nat k * bin_size))
    else None.
Proof.
  intros Hb. revert i k. induction fuel as [|fuel IH]; intros i k Hfuel.
  - simpl. destruct (i + Z.of_nat k * bin_size <? len all_positions) eqn:E;
      [apply Z.ltb_lt in E; nia | now destruct k].
  - cbn [bin_loop]. destruct (i <? len all_positions) eqn:Ei.
    + apply Z.ltb_lt in Ei. destruct k as [|k].
      * simpl. rewrite Z.add_0_r. apply Z.ltb_lt in Ei. now rewrite Ei.
      * cbn [nth_error]. rewrite IH by lia.
        replace (i + bin_size + Z.of_nat k * bin_size)
          with (i + Z.of_nat (S k) * bin_size) by lia.
        reflexivity.
    + apply Z.ltb_ge in Ei.
      destruct (i + Z.of_nat k * bin_size <? len all_positions) eqn:E;
        [apply Z.ltb_lt in E; nia | now destruct k].
Qed.

Lemma binned_positions_nth (all_positions : list Z) (k : nat) :
  nth_error (binned_positions all_positions) k
  = if Z.of_nat k * bin_size_of all_positions <? len all_positions
    then Some (bin_at all_positions (bin_size_of all_positions)
                 (Z.of_nat k * bin_size_of all_positions))
    else None.
Proof.
  unfold binned_positions.
  rewrite bin_loop_nth; [reflexivity | unfold bin_size_of; lia | unfold len; lia].
Qed.

Lemma binned_positions_length (all_positions : list Z) :
  let b := bin_size_of all_positions in
  len (binned_positions all_positions) = (len all_positions + b - 1) / b.
Proof.
  cbv zeta. set (b := bin_size_of all_positions).
  set (n := len all_positions).
  assert (Hb : 1 <= b) by (unfold b, bin_size_of; lia).
  assert (Hn : 0 <= n) by (unfold n, len; lia).
  set (q := (n + b - 1) / b).
  assert (Hq1 : n <= q * b).
  { unfold q. pose proof (Z.mul_succ_div_gt (n + b - 1) b ltac:(lia)). lia. }
  assert (Hq2 : (q - 1) * b < n).
  { unfold q. pose proof (Z.mul_div_le (n + b - 1) b ltac:(lia)). lia. }
  assert (Hq0 : 0 <= q) by (unfold q; apply Z.div_pos; lia).
  assert (Hle : (List.length (binned_positions all_positions) <= Z.to_nat q)%nat).
  { apply nth_error_None. rewrite binned_positions_nth. fold b n.
    rewrite Z2Nat.id by lia.
    destruct (q * b <? n) eqn:E; [|reflexivity].
    apply Z.ltb_lt in E. lia. }
  unfold len at 1. destruct (Z.eq_dec q 0) as [Hz|Hnz]; [lia|].
  assert (Hgt : (Z.to_nat (q - 1) < List.length (binned_positions all_positions))%nat).
  { apply nth_error_Some. rewrite binned_positions_nth. fold b n.
    rewrite Z2Nat.id by lia.
    destruct ((q - 1) * b <? n) eqn:E; [discriminate|].
    apply Z.ltb_ge in E. lia. }
  lia.
Qed.

(** X20: the heat map has one bin per [binSize] consecutive positions, the
    last one possibly shorter, and never more than 1999 bins, whatever the
    number of positions; up to 1999 positions every position is a bin of its
    own. *)
Theorem X20_heat_map_bin_count (all_positions : list Z) :
  let b := bin_size_of all_positions in
  len (binned_positions all_positions) = (len all_positions + b - 1) / b
  /\ len (binned_positions all_positions) <= 1999
  /\ (len all_positions <= 1999 ->
      len (binned_positions all_positions) = len all_positions).
Proof.
  cbv zeta. rewrite (binned_positions_length all_positions).
  set (n := len all_positions).
  assert (Hn : 0 <= n) by (unfold n, len; lia).
  unfold bin_size_of. fold n.
  split; [reflexivity|].
  destruct (Z_lt_le_dec n 2000) as [Hsmall|Hbig].
  - assert (Hq : n / 1000 <= 1) by (apply Z.lt_succ_r, Z.div_lt_upper_bound; lia).
    assert (Hb : Z.max 1 (n / 1000) = 1) by lia.
    rewrite Hb. replace (n + 1 - 1) with n by lia. rewrite Z.div_1_r. lia.
  - split; [|lia].
    set (b := n / 1000).
    assert (Hb2 : 2 <= b) by (unfold b; apply Z.div_le_lower_bound; lia).
    assert (Hmax : Z.max 1 b = b) by lia. rewrite Hmax.
    assert (Hnb : n < 1000 * (b + 1)).
    { unfold b. pose proof (Z.mul_succ_div_gt n 1000 ltac:(lia)). lia. }
    apply Z.lt_succ_r. apply Z.div_lt_upper_bound; [lia|]. nia.
Qed.

(** X21: every coverage point of a contig falls into exactly one bin of the
    heat map of that contig. *)
Theorem X21_heat_map_bins_partition (contig_data : contig_cov)
    (sample_name : string) (tr : track) (pt : point) :
  In (sample_name, tr) contig_data -> In pt tr ->
  exists k b,
    nth_error (binned_positions (all_positions contig_data)) k = Some b
    /\ in_bin b pt = true
    /\ forall k' b',
         nth_error (binned_positions (all_positions contig_data)) k' = Some b' ->
         in_bin b' pt = true -> k' = k.
Proof.
  intros Hitem Hpt.
  set (positions := all_positions contig_data).
  pose proof (all_positions_ascending contig_data) as Hasc. fold positions in Hasc.
  assert (Hin : In (position pt) positions).
  { apply (proj2 (all_positions_distinct contig_data)).
    exists (sample_name, tr), pt. auto. }
  destruct (In_nth positions (position pt) 0 Hin) as [idx [Hidx Hnth]].
  set (b := bin_size_of positions).
  assert (Hb : 1 <= b) by (unfold b, bin_size_of; lia).
  set (n := len positions).
  assert (Hn : Z.of_nat idx < n) by (unfold n, len; lia).
  set (k := Z.of_nat idx / b).
  assert (Hk : k * b <= Z.of_nat idx < (k + 1) * b).
  { unfold k. pose proof (Z.mul_div_le (Z.of_nat idx) b ltac:(lia)).
    pose proof (Z.mul_succ_div_gt (Z.of_nat idx) b ltac:(lia)). lia. }
  assert (Hk0 : 0 <= k) by (unfold k; apply Z.div_pos; lia).
  assert (Hbin : forall j bj,
            nth_error (binned_positions positions) j = Some bj ->
            Z.of_nat j * b < n
            /\ bin_start bj = nth (Z.to_nat (Z.of_nat j * b)) positions 0
            /\ bin_end bj
               = nth (Z.to_nat (Z.min (Z.of_nat j * b + b - 1) (n - 1))) positions 0).
  { intros j bj Hj. rewrite binned_positions_nth in Hj. fold b n positions in Hj.
    destruct (Z.of_nat j * b <? n) eqn:E; [|discriminate].
    apply Z.ltb_lt in E. inversion Hj. subst bj. auto. }
  exists (Z.to_nat k).
  exists (bin_at positions b (Z.of_nat (Z.to_nat k) * b)).
  split; [|split].
  - rewrite binned_positions_nth. fold b n positions.
    destruct (Z.of_nat (Z.to_nat k) * b <? n) eqn:E; [reflexivity|].
    apply Z.ltb_ge in E. nia.
  - unfold in_bin, bin_at. cbn [bin_start bin_end]. unfold position_at.
    fold n. rewrite <- Hnth. apply andb_true_iff. split; apply Z.leb_le.
    + apply ascending_nth_le; [exact Hasc|]. lia.
    + apply ascending_nth_le; [exact Hasc|]. unfold n, len in *. lia.
  - intros j bj Hj Hinb. destruct (Hbin j bj Hj) as [Hjn [Hs He]].
    unfold in_bin in Hinb. apply andb_true_iff in Hinb.
    destruct Hinb as [H1 H2]. apply Z.leb_le in H1. apply Z.leb_le in H2.
    rewrite Hs in H1. rewrite He in H2. rewrite <- Hnth in H1, H2.
    destruct (Z_lt_le_dec (Z.of_nat j) k) as [Hlt|Hge].
    + exfalso.
      assert (Hx : nth (Z.to_nat (Z.min (Z.of_nat j * b + b - 1) (n - 1))) positions 0
                   < nth idx positions 0).
      { apply ascending_nth; [exact Hasc|]. unfold n, len in *. nia. }
      lia.
    + destruct (Z.eq_dec (Z.of_nat j) k) as [Heq|Hne]; [lia|]. exfalso.
      assert (Hx : nth idx positions 0 < nth (Z.to_nat (Z.of_nat j * b)) positions 0).
      { apply ascending_nth; [exact Hasc|]. unfold n, len in *. nia. }
      lia.
Qed.

Lemma X21_heat_map_bins_partition_witness :
  exists k b,
    nth_error (binned_positions [0; 2000; 4000; 6000; 8000; 10000]) k = Some b
    /\ in_bin b (mkPoint 6000 80) = true.
Proof.
  destruct (X21_heat_map_bins_partition (snd (hd (""%string, []) store_two_leaders))
              "B"%string
              [mkPoint 0 0; mkPoint 2000 0; mkPoint 4000 0; mkPoint 6000 80;
               mkPoint 8000 80; mkPoint 10000 80] (mkPoint 6000 80))
    as [k [b [Hk [Hin _]]]].
  - right. now left.
  - simpl. auto.
  - exists k, b. split; [exact Hk | exact Hin].
Defined.
